(** * djacarta: the text buffer, the coordinate mapper and the tokenizer

    A shallow embedding of [src/djacarta.py] (the base prototype) and
    [src/etc/djacarta.py] (the extended prototype), and the properties the
    specification states about them.

    Conventions of the embedding:
    - a Python [int] is a [Z];
    - a Python [str] is the list of its code points, each a [N];
    - a Python [list] is a [list]; indexing and slicing follow Python
      (negative indices count from the end, slices clamp, an index out of
      range raises [IndexError]);
    - a function that can raise returns a [res];
    - the editor state [s] that every function of the source mutates is
      passed in and returned. *)

From Stdlib Require Import ZArith NArith List String Ascii Bool Lia.
From Stdlib Require DecimalString.
Import ListNotations.
Open Scope Z_scope.

Set Implicit Arguments.

(** ** Python values *)

Definition char := N.
Bind Scope N_scope with char.
Definition str := list char.

(** A string literal of the source, as the list of its code points. *)
Definition L (s : string) : str := map N_of_ascii (list_ascii_of_string s).

Definition TAB : char := 9%N.
Definition LF : char := 10%N.
Definition SPACE : char := 32%N.

Fixpoint str_eqb (a b : str) : bool :=
  match a, b with
  | [], [] => true
  | x :: a', y :: b' => N.eqb x y && str_eqb a' b'
  | _, _ => false
  end.

Lemma str_eqb_eq (a b : str) : str_eqb a b = true <-> a = b.
Proof.
  revert b; induction a as [|x a IH]; intros [|y b]; simpl; split;
    try congruence; try reflexivity.
  - rewrite andb_true_iff, N.eqb_eq, IH. intros [-> ->]. reflexivity.
  - intros E. injection E as -> ->. rewrite N.eqb_refl, andb_true_l.
    apply IH. reflexivity.
Qed.


(** Exceptions the modelled code can raise. *)
Inductive exn : Type :=
| IndexError
| ValueError
| UnicodeEncodeError
| OSError.

Inductive res (A : Type) : Type :=
| Ok (a : A)
| Raise (e : exn).
Arguments Ok {A} a.
Arguments Raise {A} e.

Definition bind {A B : Type} (m : res A) (f : A -> res B) : res B :=
  match m with
  | Ok a => f a
  | Raise e => Raise e
  end.

Notation "x <- m ;; f" := (bind m (fun x => f))
  (at level 61, m at next level, right associativity).

Module Py.

Section Lists.
Variable A : Type.

(** [len(l)] *)
Definition len (l : list A) : Z := Z.of_nat (List.length l).

(** [l[i]]: a negative index counts from the end. *)
Definition get (l : list A) (i : Z) : res A :=
  let j := if i <? 0 then i + len l else i in
  if (0 <=? j) && (j <? len l)
  then match nth_error l (Z.to_nat j) with
       | Some a => Ok a
       | None => Raise IndexError
       end
  else Raise IndexError.

(** How a slice bound is brought into [0, len]. *)
Definition clamp (n i : Z) : Z :=
  if i <? 0 then Z.max (i + n) 0 else Z.min i n.

(** [l[lo:hi]]; [None] is an omitted bound. *)
Definition slice (l : list A) (lo hi : option Z) : list A :=
  let n := len l in
  let a := match lo with Some i => clamp n i | None => 0 end in
  let b := match hi with Some i => clamp n i | None => n end in
  firstn (Z.to_nat (b - a)) (skipn (Z.to_nat a) l).

(** [l[i] = v] *)
Definition set (l : list A) (i : Z) (v : A) : res (list A) :=
  let j := if i <? 0 then i + len l else i in
  if (0 <=? j) && (j <? len l)
  then Ok (firstn (Z.to_nat j) l ++ v :: skipn (S (Z.to_nat j)) l)
  else Raise IndexError.

(** [del l[i]] *)
Definition del (l : list A) (i : Z) : res (list A) :=
  let j := if i <? 0 then i + len l else i in
  if (0 <=? j) && (j <? len l)
  then Ok (firstn (Z.to_nat j) l ++ skipn (S (Z.to_nat j)) l)
  else Raise IndexError.

(** [l.insert(i, v)]: the position is clamped like a slice bound. *)
Definition insert (l : list A) (i : Z) (v : A) : list A :=
  let j := Z.to_nat (clamp (len l) i) in
  firstn j l ++ v :: skipn j l.

(** [x * n] for a one-element sequence [x]. *)
Definition rep (x : A) (n : Z) : list A := repeat x (Z.to_nat n).
End Lists.

(** [chr(k)] *)
Definition chr (k : Z) : res char :=
  if (0 <=? k) && (k <? 1114112) then Ok (Z.to_N k) else Raise ValueError.

(** [s.startswith(p)] *)
Fixpoint startswith (s p : str) : bool :=
  match p, s with
  | [], _ => true
  | c :: p', d :: s' => N.eqb c d && startswith s' p'
  | _ :: _, [] => false
  end.

End Py.

(** ** The coordinate mapper

    [bufpos2vispos] and [vispos2bufpos] are the same text in both
    prototypes. *)

(** [text[i]] inside the loop of [bufpos2vispos], where [0 <= i < offs]
    and [offs <= len(text)]: the index is always in range. *)
Definition char_at (text : str) (i : Z) : char := nth (Z.to_nat i) text 0%N.

(** The [while i < offs] loop of [bufpos2vispos]; [k] counts the
    iterations left. *)
Fixpoint bufpos2vispos_loop (k : nat) (text : str) (tabsz i ret : Z) : Z :=
  match k with
  | O => ret
  | S k' =>
      let ret' := if N.eqb (char_at text i) TAB then ret + tabsz else ret + 1 in
      bufpos2vispos_loop k' text tabsz (i + 1) ret'
  end.

Definition bufpos2vispos (text : str) (tabsz offs : Z) : Z :=
  let textlen := Py.len text in
  if offs >? textlen then textlen
  else bufpos2vispos_loop (Z.to_nat offs) text tabsz 0 0.

(** The [while i < offs] loop of [vispos2bufpos]. *)
Fixpoint vispos2bufpos_loop (k : nat) (text : str) (tabsz i ret : Z) : Z :=
  match k with
  | O => ret
  | S k' =>
      let ret' :=
        if i + tabsz <? Py.len text then ret
        else if str_eqb (Py.slice text (Some i) (Some (i + tabsz)))
                        (Py.rep SPACE tabsz)
             then ret + (tabsz - 1)
             else ret + 1 in
      vispos2bufpos_loop k' text tabsz (i + 1) ret'
  end.

Definition vispos2bufpos (text : str) (tabsz offs : Z) : Z :=
  let textlen := Py.len text in
  if offs >? textlen then textlen
  else vispos2bufpos_loop (Z.to_nat offs) text tabsz 0 0.

(** The mapping the specification describes for [literalToVisual]: walk
    the first [offs] characters (all of them when [offs] is past the end),
    [tabsz] per tab and 1 per other character. *)
Fixpoint visual_width (text : str) (tabsz : Z) : Z :=
  match text with
  | [] => 0
  | c :: text' =>
      (if N.eqb c TAB then tabsz else 1) + visual_width text' tabsz
  end.

Definition literalToVisual_spec (text : str) (tabsz offs : Z) : Z :=
  visual_width (firstn (Z.to_nat offs) text) tabsz.

(** ** The editor state

    [class State] of the source. The field [win] (the curses window) and the
    field [globl] (a scratch variable that is only printed on exit) are left
    out; [navmode] exists in the base prototype only and is never read by
    the extended one. *)

Record State : Type := mkState {
  key : Z;
  buffer : list str;
  openedfile : str;
  cmdbuffer : str;
  cmdmode : bool;
  navmode : bool;
  win_w : Z;
  win_h : Z;
  bufcur_x : Z;
  bufcur_y : Z;
  sticky_x : Z;
  bufofs_x : Z;
  bufofs_y : Z;
  tabsz : Z
}.

Definition set_key (s : State) (v : Z) : State :=
  mkState v (buffer s) (openedfile s) (cmdbuffer s) (cmdmode s) (navmode s)
    (win_w s) (win_h s) (bufcur_x s) (bufcur_y s) (sticky_x s) (bufofs_x s)
    (bufofs_y s) (tabsz s).
Definition set_buffer (s : State) (v : list str) : State :=
  mkState (key s) v (openedfile s) (cmdbuffer s) (cmdmode s) (navmode s)
    (win_w s) (win_h s) (bufcur_x s) (bufcur_y s) (sticky_x s) (bufofs_x s)
    (bufofs_y s) (tabsz s).
Definition set_openedfile (s : State) (v : str) : State :=
  mkState (key s) (buffer s) v (cmdbuffer s) (cmdmode s) (navmode s)
    (win_w s) (win_h s) (bufcur_x s) (bufcur_y s) (sticky_x s) (bufofs_x s)
    (bufofs_y s) (tabsz s).
Definition set_cmdbuffer (s : State) (v : str) : State :=
  mkState (key s) (buffer s) (openedfile s) v (cmdmode s) (navmode s)
    (win_w s) (win_h s) (bufcur_x s) (bufcur_y s) (sticky_x s) (bufofs_x s)
    (bufofs_y s) (tabsz s).
Definition set_cmdmode (s : State) (v : bool) : State :=
  mkState (key s) (buffer s) (openedfile s) (cmdbuffer s) v (navmode s)
    (win_w s) (win_h s) (bufcur_x s) (bufcur_y s) (sticky_x s) (bufofs_x s)
    (bufofs_y s) (tabsz s).
Definition set_navmode (s : State) (v : bool) : State :=
  mkState (key s) (buffer s) (openedfile s) (cmdbuffer s) (cmdmode s) v
    (win_w s) (win_h s) (bufcur_x s) (bufcur_y s) (sticky_x s) (bufofs_x s)
    (bufofs_y s) (tabsz s).
Definition set_win_w (s : State) (v : Z) : State :=
  mkState (key s) (buffer s) (openedfile s) (cmdbuffer s) (cmdmode s)
    (navmode s) v (win_h s) (bufcur_x s) (bufcur_y s) (sticky_x s)
    (bufofs_x s) (bufofs_y s) (tabsz s).
Definition set_win_h (s : State) (v : Z) : State :=
  mkState (key s) (buffer s) (openedfile s) (cmdbuffer s) (cmdmode s)
    (navmode s) (win_w s) v (bufcur_x s) (bufcur_y s) (sticky_x s)
    (bufofs_x s) (bufofs_y s) (tabsz s).
Definition set_bufcur_x (s : State) (v : Z) : State :=
  mkState (key s) (buffer s) (openedfile s) (cmdbuffer s) (cmdmode s)
    (navmode s) (win_w s) (win_h s) v (bufcur_y s) (sticky_x s) (bufofs_x s)
    (bufofs_y s) (tabsz s).
Definition set_bufcur_y (s : State) (v : Z) : State :=
  mkState (key s) (buffer s) (openedfile s) (cmdbuffer s) (cmdmode s)
    (navmode s) (win_w s) (win_h s) (bufcur_x s) v (sticky_x s) (bufofs_x s)
    (bufofs_y s) (tabsz s).
Definition set_sticky_x (s : State) (v : Z) : State :=
  mkState (key s) (buffer s) (openedfile s) (cmdbuffer s) (cmdmode s)
    (navmode s) (win_w s) (win_h s) (bufcur_x s) (bufcur_y s) v (bufofs_x s)
    (bufofs_y s) (tabsz s).
Definition set_bufofs_x (s : State) (v : Z) : State :=
  mkState (key s) (buffer s) (openedfile s) (cmdbuffer s) (cmdmode s)
    (navmode s) (win_w s) (win_h s) (bufcur_x s) (bufcur_y s) (sticky_x s) v
    (bufofs_y s) (tabsz s).
Definition set_bufofs_y (s : State) (v : Z) : State :=
  mkState (key s) (buffer s) (openedfile s) (cmdbuffer s) (cmdmode s)
    (navmode s) (win_w s) (win_h s) (bufcur_x s) (bufcur_y s) (sticky_x s)
    (bufofs_x s) v (tabsz s).
Definition set_tabsz (s : State) (v : Z) : State :=
  mkState (key s) (buffer s) (openedfile s) (cmdbuffer s) (cmdmode s)
    (navmode s) (win_w s) (win_h s) (bufcur_x s) (bufcur_y s) (sticky_x s)
    (bufofs_x s) (bufofs_y s) v.

(** [State.__init__]; the tab size is 1 in the base prototype and 3 in the
    extended one. *)
Definition init_State (tab : Z) : State :=
  mkState 0 [[]] [] [] false false 0 0 0 0 0 0 0 tab.

(** [store_winsz]: [h, w = s.win.getmaxyx()]. *)
Definition store_winsz (s : State) (h w : Z) : State :=
  set_win_h (set_win_w s w) h.

(** ** What the program takes from outside

    The classification of the code points above 127 comes from the Unicode
    database of the interpreter, and the files from the operating system.
    Both are interfaces here: everything below holds for every instance. *)

Class Unicode : Type := {
  (** [str.isalnum] on one code point above 127 *)
  uni_alnum : char -> bool;
  (** [str.isspace] on one code point above 127 *)
  uni_space : char -> bool;
  (** the decimal digit value of a code point above 127, if it has one *)
  uni_decimal : char -> option Z
}.

Class OS : Type := {
  world : Type;
  (** [os.path.expanduser] *)
  expanduser : world -> str -> str;
  (** [os.path.isfile] *)
  isfile : world -> str -> bool;
  (** [f = open(path, 'r'); f.read(); f.close()] *)
  read_text : world -> str -> res str;
  (** [f = open(path, 'w'); f.write(data); f.flush(); f.close()] *)
  write_text : world -> str -> str -> res world
}.

(** An interpreter that knows no code point above 127, and a machine
    without files: the instances the examples below run on. *)
Definition ascii_only : Unicode :=
  {| uni_alnum := fun _ => false;
     uni_space := fun _ => false;
     uni_decimal := fun _ => None |}.

Definition no_files : OS :=
  {| world := unit;
     expanduser := fun _ p => p;
     isfile := fun _ _ => false;
     read_text := fun _ _ => Raise OSError;
     write_text := fun _ _ _ => Raise OSError |}.



(** ** [int(text, base)]

    The builtin on a [str] argument: code points above 127 are first
    replaced (a space for white space, the digit for a decimal digit,
    anything else ends the number with an error), then the text is read as
    white space, a sign, a base prefix, digits with single underscores
    between them, white space. The limit on the number of decimal digits of
    recent interpreters is not modelled. *)
Module PyInt.

Definition in_range (lo hi c : char) : bool := (N.leb lo c && N.leb c hi)%bool.

(** C [isspace] on an ASCII code point. *)
Definition c_isspace (c : char) : bool :=
  (in_range 9 13 c || N.eqb c 32)%bool.

Definition digit_value (c : char) : option Z :=
  if in_range 48 57 c then Some (Z.of_N c - 48)
  else if in_range 97 122 c then Some (Z.of_N c - 97 + 10)
  else if in_range 65 90 c then Some (Z.of_N c - 65 + 10)
  else None.

(** A code point no number contains: what an unknown code point above 127
    is replaced with (a question mark). *)
Definition BAD : char := 63%N.

Fixpoint to_ascii `{Unicode} (s : str) : str :=
  match s with
  | [] => []
  | c :: s' =>
      if N.ltb c 128 then (if N.eqb c 0 then [BAD] else c :: to_ascii s')
      else if uni_space c then SPACE :: to_ascii s'
      else match uni_decimal c with
           | Some d => Z.to_N (48 + d) :: to_ascii s'
           | None => [BAD]
           end
  end.

Fixpoint skip_space (s : str) : str :=
  match s with
  | c :: s' => if c_isspace c then skip_space s' else s
  | [] => []
  end.

(** The digits and underscores at the front of [s]: the value, the number
    of characters read and the rest; [None] for two underscores in a row
    or an underscore at the end. *)
Fixpoint scan (base : Z) (s : str) (prev_us : bool) (acc : Z) (n : nat)
  : option (Z * nat * str) :=
  let stop := if prev_us then None else Some (acc, n, s) in
  match s with
  | [] => stop
  | c :: s' =>
      if N.eqb c 95 then
        if prev_us then None else scan base s' true acc (S n)
      else match digit_value c with
           | Some d =>
               if d <? base then scan base s' false (acc * base + d) (S n)
               else stop
           | None => stop
           end
  end.

Definition is_one_of (c : option char) (a b : char) : bool :=
  match c with
  | Some x => (N.eqb x a || N.eqb x b)%bool
  | None => false
  end.

Definition from_string (s : str) (base : Z) : res Z :=
  let s := skip_space s in
  let '(sign, s) :=
    match s with
    | 43%N :: s' => (1, s')
    | 45%N :: s' => (-1, s')
    | _ => (1, s)
    end in
  let c0 := nth_error s 0 in
  let c1 := nth_error s 1 in
  let zero := match c0 with Some 48%N => true | _ => false end in
  let '(base, error_if_nonzero) :=
    if base =? 0 then
      if negb zero then (10, false)
      else if is_one_of c1 120 88 then (16, false)
      else if is_one_of c1 111 79 then (8, false)
      else if is_one_of c1 98 66 then (2, false)
      else (10, true)
    else (base, false) in
  let s :=
    if (zero && (((base =? 16) && is_one_of c1 120 88)
                 || ((base =? 8) && is_one_of c1 111 79)
                 || ((base =? 2) && is_one_of c1 98 66)))%bool
    then match skipn 2 s with
         | 95%N :: s' => s'
         | s' => s'
         end
    else s in
  match s with
  | 95%N :: _ => Raise ValueError
  | _ =>
      match scan base s false 0 O with
      | None => Raise ValueError
      | Some (z, n, rest) =>
          if (error_if_nonzero && negb (z =? 0))%bool then Raise ValueError
          else if Nat.eqb n 0 then Raise ValueError
          else match skip_space rest with
               | [] => Ok (sign * z)
               | _ :: _ => Raise ValueError
               end
      end
  end.

(** [int(text, base)] for [base] 0 or in 2..36. *)
Definition int `{Unicode} (text : str) (base : Z) : res Z :=
  from_string (to_ascii text) base.

End PyInt.

(** ** Editing: what both prototypes share *)

(** [text.split('\n')] *)
Fixpoint split_lf (text : str) : list str :=
  match text with
  | [] => [[]]
  | c :: text' =>
      if N.eqb c LF then [] :: split_lf text'
      else match split_lf text' with
           | h :: t => (c :: h) :: t
           | [] => [[c]]
           end
  end.

(** ['\n'.join(lines)] *)
Fixpoint join_lf (lines : list str) : str :=
  match lines with
  | [] => []
  | x :: lines' =>
      match lines' with
      | [] => x
      | _ :: _ => x ++ LF :: join_lf lines'
      end
  end.

Definition is_nil {A : Type} (l : list A) : bool :=
  match l with
  | [] => true
  | _ :: _ => false
  end.

(** [s.buffer == ['']] *)
Definition is_blank (b : list str) : bool :=
  match b with
  | [[]] => true
  | _ => false
  end.

(** The key codes of curses the source names. *)
Definition ERR : Z := -1.
Definition KEY_DOWN : Z := 258.
Definition KEY_UP : Z := 259.
Definition KEY_LEFT : Z := 260.
Definition KEY_RIGHT : Z := 261.

(** What one turn of the main loop reads from the terminal: the size of the
    window, [getmaxyx], and the key, [getch]. *)
Record turn : Type := mkTurn { turn_h : Z; turn_w : Z; turn_key : Z }.

(** The second argument of [move_cursor]: ['l'], ['r'], ['u'] or ['d']. *)
Inductive direction : Type := Dir_l | Dir_r | Dir_u | Dir_d.

(** [ins_chr], the same text in both prototypes. *)
Definition ins_chr (s : State) : res State :=
  cur <- Py.get (buffer s) (bufcur_y s) ;;
  c <- Py.chr (key s) ;;
  b <- (if bufcur_x s =? Py.len cur
        then Py.set (buffer s) (bufcur_y s) (cur ++ [c])
        else
          let lhs := Py.slice cur None (Some (bufcur_x s)) in
          let rhs := Py.slice cur (Some (bufcur_x s)) None in
          Py.set (buffer s) (bufcur_y s) (lhs ++ [c] ++ rhs)) ;;
  let s := set_buffer s b in
  let s := set_bufcur_x s (bufcur_x s + 1) in
  Ok (if bufcur_x s - bufofs_x s >? 79
      then set_bufofs_x s (bufofs_x s + 1)
      else s).


(** ** The base prototype, [src/djacarta.py] *)
Module Base.

Definition move_cursor (s : State) (wh : direction) : res State :=
  cur <- Py.get (buffer s) (bufcur_y s) ;;
  let oldvis := bufpos2vispos cur (tabsz s) (bufcur_x s) in
  match wh with
  | Dir_l =>
      Ok (if bufcur_x s >? 0 then set_bufcur_x s (bufcur_x s - 1) else s)
  | Dir_r =>
      Ok (if bufcur_x s <? Py.len cur
          then set_bufcur_x s (bufcur_x s + 1) else s)
  | Dir_d =>
      if bufcur_y s + 1 >=? Py.len (buffer s) then Ok s
      else
        let s := set_bufcur_y s (bufcur_y s + 1) in
        l <- Py.get (buffer s) (bufcur_y s) ;;
        Ok (set_bufcur_x s (vispos2bufpos l (tabsz s) oldvis))
  | Dir_u =>
      if bufcur_y s <=? 0 then Ok s
      else
        let s := set_bufcur_y s (bufcur_y s - 1) in
        l <- Py.get (buffer s) (bufcur_y s) ;;
        Ok (set_bufcur_x s (vispos2bufpos l (tabsz s) oldvis))
  end.

Definition do_cmd `{Unicode} `{OS} (s : State) (w : world)
  : res (State * world * Z) :=
  let cmd := cmdbuffer s in
  if Py.startswith cmd (L "u-") then
    cp <- PyInt.int (Py.slice cmd (Some 2) None) 16 ;;
    (* [if cp != None]: an [int] is never [None] *)
    s' <- ins_chr (set_key s cp) ;;
    Ok (s', w, 0)
  else if str_eqb cmd (L "n") then
    let s := set_navmode s (negb (navmode s)) in
    Ok (set_sticky_x s (bufcur_x s), w, 0)
  else if Py.startswith cmd (L "o ") then
    let path := expanduser w (Py.slice cmd (Some 2) None) in
    let s := set_openedfile s path in
    text <- read_text w path ;;
    let s := set_buffer s (split_lf text) in
    let s := set_bufofs_x s 0 in
    let s := set_bufofs_y s 0 in
    let s := set_bufcur_x s 0 in
    let s := set_bufcur_y s 0 in
    Ok (s, w, 0)
  else if Py.startswith cmd (L "t ") then
    let path := expanduser w (Py.slice cmd (Some 2) None) in
    if negb (isfile w path)
    then (w' <- write_text w path [] ;; Ok (s, w', 0))
    else Ok (s, w, 0)
  else if Py.startswith cmd (L "s ") then
    let path := expanduser w (Py.slice cmd (Some 2) None) in
    let s := set_openedfile s path in
    w' <- write_text w path (join_lf (buffer s) ++ [LF]) ;;
    Ok (s, w', 0)
  else if (str_eqb cmd (L "ss") && negb (str_eqb (openedfile s) []))%bool then
    w' <- write_text w (openedfile s) (join_lf (buffer s) ++ [LF]) ;;
    Ok (s, w', 0)
  else if Py.startswith cmd (L "tabsz ") then
    size <- PyInt.int (Py.slice cmd (Some 6) None) 0 ;;
    if ((size >? 0) && (size <? 256))%bool
    then Ok (set_tabsz s size, w, 0)
    else Ok (s, w, 0)
  else if str_eqb cmd (L "cls") then
    let s := set_openedfile s [] in
    let s := set_buffer s [[]] in
    let s := set_bufofs_x s 0 in
    let s := set_bufofs_y s 0 in
    let s := set_bufcur_x s 0 in
    let s := set_bufcur_y s 0 in
    Ok (s, w, 0)
  else if str_eqb cmd (L "q") then Ok (s, w, 1)
  else Ok (s, w, 0).

(** The loop of [do_move_nav] for the right arrow: whether one of the lines
    from [i] on, at most [k] of them and none past the end of the buffer,
    has a character after the column [s.bufofs_x + 1]. *)
Fixpoint look_right (k : nat) (s : State) (i : Z) : res bool :=
  match k with
  | O => Ok false
  | S k' =>
      if i <? Py.len (buffer s) then
        l <- Py.get (buffer s) i ;;
        if negb (is_nil (Py.slice l (Some (bufofs_x s + 1)) None))
        then Ok true
        else look_right k' s (i + 1)
      else Ok false
  end.

(** [do_move_nav]: the arrow keys move the window, not the cursor. *)
Definition do_move_nav (s : State) : res State :=
  if key s =? KEY_UP then
    Ok (set_bufofs_y s (bufofs_y s - (if bufofs_y s >? 0 then 1 else 0)))
  else if key s =? KEY_LEFT then
    Ok (set_bufofs_x s (bufofs_x s - (if bufofs_x s >? 0 then 1 else 0)))
  else if key s =? KEY_DOWN then
    Ok (set_bufofs_y s
          (bufofs_y s
           + (if Py.len (buffer s) - 1 >? bufofs_y s then 1 else 0)))
  else if key s =? KEY_RIGHT then
    visible <- look_right (Z.to_nat (win_h s - 1)) s (bufofs_y s) ;;
    Ok (set_bufofs_x s (bufofs_x s + (if visible : bool then 1 else 0)))
  else Ok s.

(** The branch [elif s.key == 10] of [mainloop] outside command mode and
    outside navigation mode. *)
Definition newline (s : State) : State :=
  let y := bufcur_y s in
  let b :=
    if y <? Py.len (buffer s) - 1
    then Py.slice (buffer s) None (Some (y + 1)) ++ [[]]
         ++ Py.slice (buffer s) (Some (y + 1)) None
    else buffer s ++ [[]] in
  let s := set_buffer s b in
  let s := set_bufcur_y s (bufcur_y s + 1) in
  set_bufcur_x s 0.

(** The branch [elif s.key == 127] of [mainloop] outside command mode. *)
Definition backspace (s : State) : res State :=
  let y := bufcur_y s in
  let x := bufcur_x s in
  if (is_blank (buffer s) || ((x =? 0) && (y =? 0)))%bool then Ok s
  else
    cur <- Py.get (buffer s) y ;;
    if str_eqb cur [] then
      let b :=
        if y <? Py.len (buffer s) - 1
        then Py.slice (buffer s) None (Some y)
             ++ Py.slice (buffer s) (Some (y + 1)) None
        else Py.slice (buffer s) None (Some (-1)) in
      let s := set_buffer s b in
      let s := set_bufcur_y s (bufcur_y s - 1) in
      l <- Py.get (buffer s) (bufcur_y s) ;;
      Ok (set_bufcur_x s (Py.len l))
    else
      let newx := x - 1 in
      if x =? 0 then
        let newx := Py.len (Py.slice (buffer s) None (Some (y - 1))) in
        prev <- Py.get (buffer s) (y - 1) ;;
        let line := prev ++ cur in
        let lhs := Py.slice (buffer s) None (Some (y - 1)) in
        lhs <- (if is_nil lhs then Ok (lhs ++ [line])
                else Py.set lhs (-1) line) ;;
        let rhs := Py.slice (buffer s) (Some (y + 1)) None in
        let s := set_buffer s (lhs ++ rhs) in
        let s := set_bufcur_y s (bufcur_y s - 1) in
        let s := set_bufcur_x s newx in
        Ok (set_bufcur_x s newx)
      else if x <? Py.len cur then
        let lhs := Py.slice cur None (Some (x - 1)) in
        let rhs := Py.slice cur (Some x) None in
        b <- Py.set (buffer s) y (lhs ++ rhs) ;;
        Ok (set_bufcur_x (set_buffer s b) newx)
      else
        b <- Py.set (buffer s) y (Py.slice cur None (Some (-1))) ;;
        Ok (set_bufcur_x (set_buffer s b) newx).

(** [mainloop] after [render(s)], which paints the window and stores its
    size in [s]; [getch] is the key [s.win.getch()] returns. The result
    carries the value [mainloop] returns. *)
Definition mainloop `{Unicode} `{OS} (s : State) (w : world) (getch : Z)
  : res (State * world * Z) :=
  let s := set_key s getch in
  if key s =? ERR then Ok (s, w, 0)
  else if key s =? 9 then
    if cmdmode s
    then (s' <- ins_chr s ;; Ok (set_cmdmode s' false, w, 0))
    else Ok (set_cmdmode s true, w, 0)
  else if key s =? 10 then
    if cmdmode s then
      r <- do_cmd s w ;;
      let '(s, w, r) := r in
      let s := set_cmdmode s false in
      let s := set_cmdbuffer s [] in
      Ok (s, w, if r =? 0 then 0 else 1)
    else if negb (navmode s) then Ok (newline s, w, 0)
    else Ok (s, w, 0)
  else if key s =? 127 then
    if cmdmode s then Ok (set_cmdbuffer (set_cmdmode s false) [], w, 0)
    else if negb (navmode s) then (s' <- backspace s ;; Ok (s', w, 0))
    else Ok (s, w, 0)
  else if cmdmode s then
    c <- Py.chr (key s) ;;
    Ok (set_cmdbuffer s (cmdbuffer s ++ [c]), w, 0)
  else if key s =? KEY_UP then (s' <- move_cursor s Dir_u ;; Ok (s', w, 0))
  else if key s =? KEY_LEFT then (s' <- move_cursor s Dir_l ;; Ok (s', w, 0))
  else if key s =? KEY_DOWN then (s' <- move_cursor s Dir_d ;; Ok (s', w, 0))
  else if key s =? KEY_RIGHT then (s' <- move_cursor s Dir_r ;; Ok (s', w, 0))
  else (s' <- ins_chr s ;; Ok (s', w, 0)).

(** The loop of [main], [while not mainloop(s)], over the turns the
    terminal delivers: each turn has the window size [render] stores and
    the key [getch] returns. The loop ends when [mainloop] returns 1. *)
Fixpoint run `{Unicode} `{OS} (s : State) (w : world) (turns : list turn)
  : res (State * world) :=
  match turns with
  | [] => Ok (s, w)
  | t :: turns' =>
      r <- mainloop (store_winsz s (turn_h t) (turn_w t)) w (turn_key t) ;;
      let '(s', w', quit) := r in
      if quit =? 0 then run s' w' turns' else Ok (s', w')
  end.

End Base.

(** ** The extended prototype, [src/etc/djacarta.py] *)
Module Ext.

Definition move_cursor (s : State) (wh : direction) : res State :=
  cur <- Py.get (buffer s) (bufcur_y s) ;;
  let oldvis := bufpos2vispos cur (tabsz s) (bufcur_x s) in
  match wh with
  | Dir_l =>
      let s := if bufcur_x s >? 0 then set_bufcur_x s (bufcur_x s - 1) else s in
      let v := bufpos2vispos cur (tabsz s) (bufcur_x s) in
      Ok (if v <? bufofs_x s then set_bufofs_x s v else s)
  | Dir_r =>
      let s := if bufcur_x s <? Py.len cur
               then set_bufcur_x s (bufcur_x s + 1) else s in
      let v := bufpos2vispos cur (tabsz s) (bufcur_x s) in
      Ok (if v >=? bufofs_x s + win_w s then set_bufofs_x s v else s)
  | Dir_d =>
      s <- (if bufcur_y s + 1 >=? Py.len (buffer s) then Ok s
            else
              let s := set_bufcur_y s (bufcur_y s + 1) in
              l <- Py.get (buffer s) (bufcur_y s) ;;
              Ok (set_bufcur_x s (vispos2bufpos l (tabsz s) oldvis))) ;;
      Ok (if bufcur_y s >=? bufofs_y s + win_h s - 1
          then set_bufofs_y s (bufofs_y s + 1) else s)
  | Dir_u =>
      s <- (if bufcur_y s <=? 0 then Ok s
            else
              let s := set_bufcur_y s (bufcur_y s - 1) in
              l <- Py.get (buffer s) (bufcur_y s) ;;
              Ok (set_bufcur_x s (vispos2bufpos l (tabsz s) oldvis))) ;;
      Ok (if bufcur_y s <? bufofs_y s
          then set_bufofs_y s (bufofs_y s - 1) else s)
  end.

Definition do_cmd `{Unicode} `{OS} (s : State) (w : world)
  : res (State * world * Z) :=
  let cmd := cmdbuffer s in
  if Py.startswith cmd (L "u-") then
    cp <- PyInt.int (Py.slice cmd (Some 2) None) 16 ;;
    (* [if cp != None]: an [int] is never [None] *)
    s' <- ins_chr (set_key s cp) ;;
    Ok (s', w, 0)
  else if str_eqb cmd (L "h") then
    Ok (set_bufofs_x (set_bufcur_x s 0) 0, w, 0)
  else if str_eqb cmd (L "e") then
    cur <- Py.get (buffer s) (bufcur_y s) ;;
    let s := set_bufcur_x s (Py.len cur) in
    Ok (set_bufofs_x s (bufpos2vispos cur (tabsz s) (bufcur_x s)), w, 0)
  else if str_eqb cmd (L "va") then
    Ok (set_bufofs_y s (bufcur_y s), w, 0)
  else if str_eqb cmd (L "ha") then
    cur <- Py.get (buffer s) (bufcur_y s) ;;
    Ok (set_bufofs_x s (bufpos2vispos cur (tabsz s) (bufcur_x s)), w, 0)
  else if str_eqb cmd (L "pu") then
    if bufcur_y s - (win_h s - 1) >=? 0 then
      let s := set_bufofs_y s (bufofs_y s - (win_h s - 1)) in
      Ok (set_bufcur_y s (bufcur_y s - (win_h s - 1)), w, 0)
    else
      Ok (set_bufcur_y (set_bufofs_y s 0) 0, w, 0)
  else if str_eqb cmd (L "pd") then
    let bufferlen := Py.len (buffer s) in
    if bufcur_y s + win_h s - 1 <=? bufferlen then
      let s := set_bufofs_y s (bufofs_y s + (win_h s - 1)) in
      Ok (set_bufcur_y s (bufcur_y s + (win_h s - 1)), w, 0)
    else
      Ok (set_bufcur_y (set_bufofs_y s (bufferlen - 1)) (bufferlen - 1), w, 0)
  else if Py.startswith cmd (L "g ") then
    num <- PyInt.int (Py.slice cmd (Some 2) None) 0 ;;
    if num <? Py.len (buffer s) then
      let s := set_bufcur_y s num in
      Ok (set_bufofs_y s (bufcur_y s), w, 0)
    else Ok (s, w, 0)
  else if Py.startswith cmd (L "o ") then
    let path := expanduser w (Py.slice cmd (Some 2) None) in
    let s := set_openedfile s path in
    text <- read_text w path ;;
    let s := set_buffer s (split_lf text) in
    let s := set_bufofs_x s 0 in
    let s := set_bufofs_y s 0 in
    let s := set_bufcur_x s 0 in
    let s := set_bufcur_y s 0 in
    Ok (s, w, 0)
  else if Py.startswith cmd (L "t ") then
    let path := expanduser w (Py.slice cmd (Some 2) None) in
    if negb (isfile w path)
    then (w' <- write_text w path [] ;; Ok (s, w', 0))
    else Ok (s, w, 0)
  else if Py.startswith cmd (L "s ") then
    let path := expanduser w (Py.slice cmd (Some 2) None) in
    let s := set_openedfile s path in
    w' <- write_text w path (join_lf (buffer s) ++ [LF]) ;;
    Ok (s, w', 0)
  else if (str_eqb cmd (L "ss") && negb (str_eqb (openedfile s) []))%bool then
    w' <- write_text w (openedfile s) (join_lf (buffer s) ++ [LF]) ;;
    Ok (s, w', 0)
  else if Py.startswith cmd (L "tabsz ") then
    size <- PyInt.int (Py.slice cmd (Some 6) None) 0 ;;
    if ((size >? 0) && (size <? 256))%bool
    then Ok (set_tabsz s size, w, 0)
    else Ok (s, w, 0)
  else if str_eqb cmd (L "cls") then
    let s := set_openedfile s [] in
    let s := set_buffer s [[]] in
    let s := set_bufofs_x s 0 in
    let s := set_bufofs_y s 0 in
    let s := set_bufcur_x s 0 in
    let s := set_bufcur_y s 0 in
    Ok (s, w, 0)
  else if str_eqb cmd (L "q") then Ok (s, w, 1)
  else Ok (s, w, 0).

(** The branch [elif s.key == 10] of [mainloop] outside command mode. *)
Definition newline (s : State) : res State :=
  let y := bufcur_y s in
  let x := bufcur_x s in
  b <- (if y <? Py.len (buffer s) - 1 then
          curline <- Py.get (buffer s) y ;;
          if x <? Py.len curline then
            let lhs := Py.slice (buffer s) None (Some (y + 1)) in
            lhs <- Py.set lhs (-1) (Py.slice curline None (Some x)) ;;
            let rhs := Py.slice (buffer s) (Some y) None in
            rhs <- Py.set rhs 0 (Py.slice curline (Some x) None) ;;
            Ok (lhs ++ rhs)
          else Ok (Py.insert (buffer s) (y + 1) [])
        else Ok (buffer s ++ [[]])) ;;
  let s := set_buffer s b in
  let s := set_bufcur_y s (bufcur_y s + 1) in
  Ok (set_bufcur_x s 0).

(** The branch [elif s.key == 330] of [mainloop]: the Del key. *)
Definition delete (s : State) : res State :=
  let y := bufcur_y s in
  let x := bufcur_x s in
  cur <- Py.get (buffer s) y ;;
  let linelen := Py.len cur in
  let buflen := Py.len (buffer s) in
  if (is_blank (buffer s) || ((x >=? linelen) && (y >=? buflen - 1)))%bool
  then Ok s
  else if ((x >=? linelen) && (y + 1 <? buflen))%bool then
    next <- Py.get (buffer s) (y + 1) ;;
    b <- Py.set (buffer s) y (cur ++ next) ;;
    b <- Py.del b (y + 1) ;;
    Ok (set_buffer s b)
  else
    let lhs := Py.slice cur None (Some x) in
    let rhs := Py.slice cur (Some (x + 1)) None in
    b <- Py.set (buffer s) y (lhs ++ rhs) ;;
    Ok (set_buffer s b).

(** The branch [elif s.key == 127] of [mainloop] outside command mode. *)
Definition backspace (s : State) : res State :=
  let y := bufcur_y s in
  let x := bufcur_x s in
  if (is_blank (buffer s) || ((x =? 0) && (y =? 0)))%bool then Ok s
  else
    cur <- Py.get (buffer s) y ;;
    if str_eqb cur [] then
      let b :=
        if y <? Py.len (buffer s) - 1
        then Py.slice (buffer s) None (Some y)
             ++ Py.slice (buffer s) (Some (y + 1)) None
        else Py.slice (buffer s) None (Some (-1)) in
      let s := set_buffer s b in
      let s := set_bufcur_y s (bufcur_y s - 1) in
      l <- Py.get (buffer s) (bufcur_y s) ;;
      Ok (set_bufcur_x s (Py.len l))
    else
      let newx := x - 1 in
      if x =? 0 then
        p <- Py.get (buffer s) (y - 1) ;;
      let newx := Py.len p in
        prev <- Py.get (buffer s) (y - 1) ;;
        let line := prev ++ cur in
        let lhs := Py.slice (buffer s) None (Some y) in
        lhs <- (if is_nil lhs then Ok (lhs ++ [line])
                else Py.set lhs (-1) line) ;;
        let rhs := Py.slice (buffer s) (Some (y + 1)) None in
        let s := set_buffer s (lhs ++ rhs) in
        let s := set_bufcur_y s (bufcur_y s - 1) in
        let s := set_bufcur_x s newx in
        Ok (set_bufcur_x s newx)
      else if x <? Py.len cur then
        let lhs := Py.slice cur None (Some (x - 1)) in
        let rhs := Py.slice cur (Some x) None in
        b <- Py.set (buffer s) y (lhs ++ rhs) ;;
        Ok (set_bufcur_x (set_buffer s b) newx)
      else
        b <- Py.set (buffer s) y (Py.slice cur None (Some (-1))) ;;
        Ok (set_bufcur_x (set_buffer s b) newx).

(** [mainloop] after [render(s)], which paints the window and stores its
    size in [s]; [getch] is the key [s.win.getch()] returns. The result
    carries the value [mainloop] returns. *)
Definition mainloop `{Unicode} `{OS} (s : State) (w : world) (getch : Z)
  : res (State * world * Z) :=
  let s := set_key s getch in
  if key s =? ERR then Ok (s, w, 0)
  else if key s =? 9 then
    if cmdmode s
    then (s' <- ins_chr s ;; Ok (set_cmdmode s' false, w, 0))
    else Ok (set_cmdmode s true, w, 0)
  else if key s =? 10 then
    if cmdmode s then
      r <- do_cmd s w ;;
      let '(s, w, r) := r in
      let s := set_cmdmode s false in
      let s := set_cmdbuffer s [] in
      Ok (s, w, if r =? 0 then 0 else 1)
    else (s' <- newline s ;; Ok (s', w, 0))
  else if key s =? 27 then
    Ok (set_cmdbuffer (set_cmdmode s false) [], w, 0)
  else if key s =? 330 then (s' <- delete s ;; Ok (s', w, 0))
  else if key s =? 127 then
    if cmdmode s
    then Ok (set_cmdbuffer s (Py.slice (cmdbuffer s) None (Some (-1))), w, 0)
    else (s' <- backspace s ;; Ok (s', w, 0))
  else if cmdmode s then
    c <- Py.chr (key s) ;;
    Ok (set_cmdbuffer s (cmdbuffer s ++ [c]), w, 0)
  else if key s =? KEY_UP then (s' <- move_cursor s Dir_u ;; Ok (s', w, 0))
  else if key s =? KEY_LEFT then (s' <- move_cursor s Dir_l ;; Ok (s', w, 0))
  else if key s =? KEY_DOWN then (s' <- move_cursor s Dir_d ;; Ok (s', w, 0))
  else if key s =? KEY_RIGHT then (s' <- move_cursor s Dir_r ;; Ok (s', w, 0))
  else if key s <? 256 then (s' <- ins_chr s ;; Ok (s', w, 0))
  else Ok (s, w, 0).

(** The loop of [main], [while not mainloop(s)], over the turns the
    terminal delivers: each turn has the window size [render] stores and
    the key [getch] returns. The loop ends when [mainloop] returns 1. *)
Fixpoint run `{Unicode} `{OS} (s : State) (w : world) (turns : list turn)
  : res (State * world) :=
  match turns with
  | [] => Ok (s, w)
  | t :: turns' =>
      r <- mainloop (store_winsz s (turn_h t) (turn_w t)) w (turn_key t) ;;
      let '(s', w', quit) := r in
      if quit =? 0 then run s' w' turns' else Ok (s', w')
  end.

End Ext.

(** ** The cursor inside the document *)

(** The cursor of [s] is on a line of the buffer, at an offset from 0 to
    the length of that line. *)
Definition in_bounds (s : State) : bool :=
  ((0 <=? bufcur_y s) && (bufcur_y s <? Py.len (buffer s))
   && match nth_error (buffer s) (Z.to_nat (bufcur_y s)) with
      | Some cur => (0 <=? bufcur_x s) && (bufcur_x s <=? Py.len cur)
      | None => false
      end)%bool.

(** ** Regular expressions: the part of [re] the tokenizer uses

    A backtracking matcher in the order of the [re] module: alternatives
    left to right, [*] and [?] greedy, groups numbered by their opening
    parenthesis. *)
Module Re.

(** What matches one character. *)
Inductive cset : Type :=
| Lit (c : char)
| Ranges (l : list (char * char))
| NotRanges (l : list (char * char))
| Dot
| WhiteSpace.

Inductive regex : Type :=
| Eps
| One (cs : cset)
| Seq (r1 r2 : regex)
| Alt (r1 r2 : regex)
| Star (r : regex)
| Opt (r : regex)
| Grp (n : nat) (r : regex)
| WordB
| Ahead (r : regex)
| NotAhead (r : regex).

Definition in_ranges (l : list (char * char)) (c : char) : bool :=
  existsb (fun '(lo, hi) => N.leb lo c && N.leb c hi) l.

(** [\w] of a [str] pattern *)
Definition is_word `{Unicode} (c : char) : bool :=
  if N.ltb c 128
  then in_ranges [(48, 57); (65, 90); (97, 122); (95, 95)]%N c
  else uni_alnum c.

(** [\s] of a [str] pattern *)
Definition is_space `{Unicode} (c : char) : bool :=
  if N.ltb c 128
  then in_ranges [(9, 13); (28, 32)]%N c
  else uni_space c.

Definition cset_mem `{Unicode} (cs : cset) (c : char) : bool :=
  match cs with
  | Lit d => N.eqb c d
  | Ranges l => in_ranges l c
  | NotRanges l => negb (in_ranges l c)
  | Dot => negb (N.eqb c LF)
  | WhiteSpace => is_space c
  end.

(** A position in the subject: the characters before it, the nearest
    first, the characters after it, and the groups matched so far, the
    latest first. *)
Record mstate : Type := mkM {
  before : str;
  after : str;
  caps : list (nat * str)
}.

(** The text between two positions of one subject. *)
Definition consumed (st st' : mstate) : str :=
  firstn (List.length (after st) - List.length (after st')) (after st).

Definition set_cap (n : nat) (m : str) (st : mstate) : mstate :=
  mkM (before st) (after st) ((n, m) :: caps st).

Fixpoint cap (cs : list (nat * str)) (n : nat) : option str :=
  match cs with
  | [] => None
  | (k, m) :: cs' => if Nat.eqb k n then Some m else cap cs' n
  end.

(** [\b]: exactly one of the two characters around the position is a
    word character; outside the subject there is none. *)
Definition at_boundary `{Unicode} (st : mstate) : bool :=
  let w (l : str) := match l with c :: _ => is_word c | [] => false end in
  xorb (w (before st)) (w (after st)).

(** The iterations of a starred expression whose body is matched by
    [body]: one more iteration, which must consume a character (no starred
    expression of the program can match the empty string), and the rest;
    or, failing that, what follows the star. [n] is the number of
    characters left, more iterations than that cannot be. *)
Fixpoint star_loop
    (body : mstate -> (mstate -> option mstate) -> option mstate)
    (k : mstate -> option mstate) (n : nat) (st : mstate)
  : option mstate :=
  match n with
  | O => k st
  | S n' =>
      match body st (fun st1 =>
              if Nat.ltb (List.length (after st1)) (List.length (after st))
              then star_loop body k n' st1 else None) with
      | Some res => Some res
      | None => k st
      end
  end.

(** [mt r st k]: match [r] at [st], then go on with [k]; when [k] fails,
    the matcher backtracks into [r]. *)
Fixpoint mt `{Unicode} (r : regex) (st : mstate)
    (k : mstate -> option mstate) {struct r} : option mstate :=
  match r with
  | Eps => k st
  | One cs =>
      match after st with
      | c :: tl =>
          if cset_mem cs c then k (mkM (c :: before st) tl (caps st))
          else None
      | [] => None
      end
  | Seq r1 r2 => mt r1 st (fun st1 => mt r2 st1 k)
  | Alt r1 r2 =>
      match mt r1 st k with
      | Some res => Some res
      | None => mt r2 st k
      end
  | Star r1 =>
      star_loop (mt r1) k (List.length (after st)) st
  | Opt r1 =>
      match mt r1 st k with
      | Some res => Some res
      | None => k st
      end
  | Grp n r1 => mt r1 st (fun st1 => k (set_cap n (consumed st st1) st1))
  | WordB => if at_boundary st then k st else None
  | Ahead r1 =>
      match mt r1 st (fun st1 => Some st1) with
      | Some st1 => k (mkM (before st) (after st) (caps st1))
      | None => None
      end
  | NotAhead r1 =>
      match mt r1 st (fun st1 => Some st1) with
      | Some _ => None
      | None => k st
      end
  end.

(** A replacement template: text and references [\n] to groups. *)
Inductive titem : Type :=
| TLit (s : str)
| TRef (n : nat).

(** A group that did not take part in the match is the empty string. *)
Definition expand (tpl : list titem) (cs : list (nat * str)) : str :=
  flat_map (fun it =>
              match it with
              | TLit s => s
              | TRef n => match cap cs n with Some m => m | None => [] end
              end) tpl.

(** The loop of [pattern.sub]: search from the current position; replace
    the match and go on after it, or copy one character and go on. After
    an empty match the next match at the same position must not be empty
    ([must_advance]). [fuel] bounds the number of turns. *)
Fixpoint sub_loop `{Unicode} (r : regex) (tpl : list titem) (fuel : nat)
    (must_advance : bool) (bef aft : str) : str :=
  match fuel with
  | O => aft
  | S fuel' =>
      match mt r (mkM bef aft [])
              (fun st1 =>
                 if (must_advance
                     && Nat.eqb (List.length (after st1)) (List.length aft))%bool
                 then None else Some st1) with
      | Some st1 =>
          expand tpl (caps st1)
          ++ sub_loop r tpl fuel'
               (Nat.eqb (List.length (after st1)) (List.length aft))
               (before st1) (after st1)
      | None =>
          match aft with
          | [] => []
          | c :: tl => c :: sub_loop r tpl fuel' false (c :: bef) tl
          end
      end
  end.

(** [r.sub(tpl, text)]. Every turn but the one after an empty match moves
    on in the text, so twice the length and two turns are enough. *)
Definition sub `{Unicode} (r : regex) (tpl : list titem) (text : str) : str :=
  sub_loop r tpl (2 * List.length text + 2) false [] text.

(** Writing expressions. *)
Definition chr (a : ascii) : regex := One (Lit (N_of_ascii a)).

Fixpoint seqs (l : list regex) : regex :=
  match l with
  | [] => Eps
  | r :: l' => match l' with [] => r | _ :: _ => Seq r (seqs l') end
  end.

Fixpoint alts (l : list regex) : regex :=
  match l with
  | [] => Eps
  | r :: l' => match l' with [] => r | _ :: _ => Alt r (alts l') end
  end.

Definition word (s : string) : regex := seqs (map chr (list_ascii_of_string s)).

Definition rg (a b : ascii) : char * char := (N_of_ascii a, N_of_ascii b).

Definition one_of (s : string) : cset :=
  Ranges (map (fun a => rg a a) (list_ascii_of_string s)).


(** Optionally, as group [n]: any number of [q] and then a [d]. *)
Definition more (n : nat) (q d : regex) : regex :=
  Opt (Grp n (seqs [Star q; d])).

(** The character [a] and then, optionally, one of the characters of [s]. *)
Definition then_opt (a : ascii) (s : string) : regex :=
  seqs [chr a; Opt (One (one_of s))].

End Re.

(** ** The tokenizer of the extended prototype *)

Import Re.

(** A slash and a star, as group 1. *)
Definition expr_commentopen : regex := Grp 1 (word "/*").

(** A star and a slash, as group 1. *)
Definition expr_commentclos : regex := Grp 1 (word "*/").

(** One of the keywords, as group 1, between two word boundaries. *)
Definition expr_keyword : regex :=
  seqs [WordB;
        Grp 1 (alts (map word
          ["break"; "case"; "continue"; "default"; "do"; "else"; "enum";
           "for"; "goto"; "if"; "return"; "sizeof"; "struct"; "switch";
           "typedef"; "while"; "union"]%string));
        WordB].

(** After a word boundary, an identifier, as groups 1 and 2, that white
    space and an opening parenthesis follow (they are looked at, not
    matched). *)
Definition expr_function : regex :=
  seqs [WordB;
        Grp 1 (seqs
          [Grp 2 (seqs [One (Ranges [rg "A" "Z"; rg "a" "z"; rg "_" "_"]);
                        Star (One (Ranges [rg "A" "Z"; rg "a" "z";
                                           rg "0" "9"; rg "_" "_"]))]);
           Ahead (seqs [Star (One WhiteSpace); chr "("])])].

(** One of the type keywords, as group 1, between two word boundaries. *)
Definition expr_type : regex :=
  seqs [WordB;
        Grp 1 (alts (map word
          ["char"; "const"; "double"; "extern"; "float"; "inline"; "int";
           "long"; "register"; "restrict"; "short"; "signed"; "static";
           "unsigned"; "void"; "volatile"]%string));
        WordB].

(** The numeric literals; the numbers of the groups are those of the
    opening parentheses of the source. *)
Definition expr_numeric : regex :=
  let hex := One (Ranges [rg "0" "9"; rg "a" "f"; rg "A" "F"]) in
  let hexq := One (Ranges [rg "0" "9"; rg "a" "f"; rg "A" "F"; rg "'" "'"]) in
  let bin := One (Ranges [rg "0" "1"]) in
  let binq := One (Ranges [rg "0" "1"; rg "'" "'"]) in
  let dig := One (Ranges [rg "0" "9"]) in
  let digq := One (Ranges [rg "0" "9"; rg "'" "'"]) in
  seqs
    [WordB;
     Grp 1 (seqs
       [Grp 2 (alts
          [Grp 3 (seqs [chr "0"; Grp 4 (alts [chr "x"; chr "X"]); hex;
                        more 5 hexq hex]);
           Grp 6 (seqs [chr "0"; Grp 7 (alts [chr "b"; chr "B"]); bin;
                        more 8 binq bin]);
           seqs
             [Grp 9 (alts
                [Grp 10 (seqs [dig; more 11 digq dig; Opt (chr ".");
                               Star dig; more 12 digq dig]);
                 Grp 13 (seqs [chr "."; dig; more 14 digq dig])]);
              Opt (Grp 15 (seqs [Grp 16 (alts [chr "e"; chr "E"]);
                                 Opt (Grp 17 (alts [chr "+"; chr "-"]));
                                 dig; more 18 digq dig]))]]);
        Opt (Grp 19 (alts (map word
          ["L"; "l"; "UL"; "ul"; "u"; "U"; "F"; "f"; "ll"; "LL"; "ull";
           "ULL"]%string)))]);
     WordB].

(** The operators and the punctuation. *)
Definition expr_symbol : regex :=
  Grp 1 (alts
    [then_opt "%" "=";
     then_opt "+" "+=";
     then_opt "-" "-=";
     then_opt "*" "=";
     then_opt "/" "=";
     then_opt "&" "&=";
     then_opt "|" "|=";
     then_opt "^" "=";
     seqs [word "<<"; Opt (chr "=")];
     seqs [word ">>"; Opt (chr "=")];
     then_opt "!" "=";
     then_opt "=" "=";
     then_opt "<" "=";
     then_opt ">" "=";
     One (one_of "?:;~[]{}(),.")]).

(** A double quote (code point 34) as group 1, then as group 2 any number
    of: a character other than a double quote, or a backslash and a double
    quote (each as group 3); then a double quote as group 4. The expression
    starts by looking ahead for no backslash. *)
Definition expr_string : regex :=
  let quote := One (Lit 34) in
  seqs [NotAhead (chr "\");
        Grp 1 quote;
        Grp 2 (Star (Grp 3 (alts [One (NotRanges [(34, 34)%N]);
                                  seqs [chr "\"; quote]])));
        Grp 4 quote].

(** A single quote as group 1; as group 2 a backslash and then a single
    quote or a backslash, or else any character but a line feed; a single
    quote as group 3. The expression starts by looking ahead for no
    backslash. *)
Definition expr_char : regex :=
  seqs [NotAhead (chr "\");
        Grp 1 (chr "'");
        Grp 2 (alts [seqs [chr "\"; One (one_of "'\")]; One Dot]);
        Grp 3 (chr "'")].

(** One of the named constants, as group 1. *)
Definition expr_constants : regex :=
  Grp 1 (alts (map word ["NULL"; "TRUE"; "FALSE"; "true"; "false"]%string)).

(** The marker byte ['\032'] and the codes that follow it: the numbers of
    the colour groups and the two codes that close a group. *)
Definition MARK : char := 26.
Definition CLOSE : char := 26.
Definition CLOSE_EXCL : char := 25.

(** A replacement that puts the marker and [code] before group 1 and the
    closing marker after it. *)
Definition wrap (code : char) : list titem :=
  [TLit [MARK; code]; TRef 1; TLit [MARK; CLOSE]].

(** The replacement of a string or character literal whose quotes are the
    groups 1 and [last] and whose body is the group 2. *)
Definition wrap_quoted (last : nat) : list titem :=
  [TLit [MARK; 7]; TRef 1; TLit [MARK; CLOSE; MARK; 6]; TRef 2;
   TLit [MARK; CLOSE_EXCL; MARK; 7]; TRef last; TLit [MARK; CLOSE]]%N.

(** The passes of [decor_syntax], in their order. *)
Definition passes : list (regex * list titem) :=
  [(expr_commentopen, [TLit [MARK; 10]; TRef 1]);
   (expr_commentclos, [TRef 1; TLit [MARK; CLOSE_EXCL]]);
   (expr_string, wrap_quoted 4);
   (expr_char, wrap_quoted 3);
   (expr_symbol, wrap 11);
   (expr_numeric, wrap 8);
   (expr_keyword, wrap 3);
   (expr_type, wrap 5);
   (expr_constants, wrap 9);
   (expr_function, wrap 4)]%N.

Definition decor_syntax `{Unicode} (line : str) : str :=
  fold_left (fun text '(r, tpl) => Re.sub r tpl text) passes line.

(** ** What [render] does with a decorated line *)

(** [int.from_bytes(bytes(c, 'utf-8'), 'little')] *)
Definition utf8_little (c : char) : res Z :=
  let c := Z.of_N c in
  if c <? 128 then Ok c
  else if c <? 2048 then Ok ((192 + c / 64) + 256 * (128 + c mod 64))
  else if (55296 <=? c) && (c <=? 57343) then Raise UnicodeEncodeError
  else if c <? 65536 then
    Ok ((224 + c / 4096) + 256 * (128 + (c / 64) mod 64)
        + 65536 * (128 + c mod 64))
  else
    Ok ((240 + c / 262144) + 256 * (128 + (c / 4096) mod 64)
        + 65536 * (128 + (c / 64) mod 64) + 16777216 * (128 + c mod 64)).

(** A character [render] writes, with the group that was active and
    whether the renderer was inside an exclusive group. *)
Record cell : Type := mkCell {
  cell_char : char;
  cell_grp : Z;
  cell_excl : bool
}.

(** The loop [while j < coltextlen] of [render] on one line: the cells it
    writes with [addstr], and [exclusive] after the line. A marker that is
    the last character of the text is written like any character. *)
Fixpoint paint (coltext : str) (exclusive : bool) (activgrp : Z)
  : res (list cell * bool) :=
  match coltext with
  | [] => Ok ([], exclusive)
  | c :: rest =>
      let write (rest : res (list cell * bool)) :=
        r <- rest ;;
        Ok (mkCell c activgrp exclusive :: fst r, snd r) in
      match rest with
      | [] => write (Ok ([], exclusive))
      | d :: rest' =>
          if N.eqb c MARK then
            grp <- utf8_little d ;;
            if (negb exclusive && (grp =? 26) && (activgrp >? 0))%bool
            then paint rest' exclusive 0
            else if grp =? 25 then paint rest' false 0
            else if negb exclusive
                 then paint rest' ((grp =? 10) || (grp =? 6))%bool grp
                 else paint rest' exclusive activgrp
          else write (paint rest exclusive activgrp)
      end
  end.

(** The runs of cells of one group: the spans of a painted line. *)
Record span : Type := mkSpan {
  span_grp : Z;
  span_excl : bool;
  span_text : str
}.

Fixpoint spans (cells : list cell) : list span :=
  match cells with
  | [] => []
  | c :: cells' =>
      match spans cells' with
      | sp :: sps =>
          if (cell_grp c =? span_grp sp)
             && Bool.eqb (cell_excl c) (span_excl sp)
          then mkSpan (span_grp sp) (span_excl sp)
                      (cell_char c :: span_text sp) :: sps
          else mkSpan (cell_grp c) (cell_excl c) [cell_char c] :: sp :: sps
      | [] => [mkSpan (cell_grp c) (cell_excl c) [cell_char c]]
      end
  end.

(** The colour groups, as [curses_init] numbers them; 0 is the default
    colour. *)
Definition GRP_KEYWORD : Z := 3.
Definition GRP_FUNCTION : Z := 4.
Definition GRP_TYPE : Z := 5.
Definition GRP_STRING : Z := 6.
Definition GRP_SPECIAL : Z := 7.
Definition GRP_NUMERIC : Z := 8.
Definition GRP_CONSTANT : Z := 9.
Definition GRP_COMMENT : Z := 10.
Definition GRP_SYMBOL : Z := 11.

(** Removing every marker together with the code that follows it. *)
Fixpoint strip_markers (text : str) : str :=
  match text with
  | [] => []
  | c :: rest =>
      if N.eqb c MARK
      then match rest with
           | [] => []
           | _ :: rest' => strip_markers rest'
           end
      else c :: strip_markers rest
  end.

(** ** [render] of the extended prototype

    What [render] hands to curses: the text of the status bar, the rows of
    the window and the position of the terminal cursor. The calls of curses
    themselves (and the errors curses can raise) are outside the model. *)
Module Render.

(** [str(n)] for an [int]. *)
Definition str_of_int (n : Z) : str :=
  L (DecimalString.NilZero.string_of_int (Z.to_int n)).

(** [ren_statbar]: the text written on the last row of the window. *)
Definition ren_statbar (s : State) : str :=
  let rhs := L "X:" ++ str_of_int (bufcur_x s) ++ L " Y:"
             ++ str_of_int (bufcur_y s) ++ L " | LF | T:"
             ++ str_of_int (tabsz s) ++ L " " in
  let lhs := if cmdmode s then L " command: " ++ cmdbuffer s else L " -*- " in
  let mid := Py.rep SPACE (win_w s - Py.len lhs - Py.len rhs - 1) in
  lhs ++ mid ++ rhs.

(** [line.replace('\t', ' ' * tabsz)] *)
Definition expand_tabs (line : str) (tab : Z) : str :=
  flat_map (fun c => if N.eqb c TAB then Py.rep SPACE tab else [c]) line.

(** [renbuffer]: the lines [render] goes through, with their tabs
    expanded. *)
Definition renbuffer (s : State) : list str :=
  let buflen := Py.len (buffer s) in
  let bufstart_y := bufofs_y s in
  let bufend_y := bufofs_y s + win_h s - 1 in
  let blankendct_y := - (buflen - bufend_y) in
  let bufend_y := bufend_y - blankendct_y in
  map (fun l => expand_tabs l (tabsz s))
      (Py.slice (buffer s) (Some bufstart_y) (Some bufend_y)).

(** What is written on one row: the blank line, or the cells of a line of
    text from column 0 on, and the blanks written from the column [pad_col]
    on (none when the text fills the row). *)
Inductive row : Type :=
| Blank (text : str)
| Text (cells : list cell) (pad_col : Z) (pad : str).

(** The loop [while i < s.win_h - 1] over the rows; [k] counts the rows
    left, [exclusive] goes from one row to the next. *)
Fixpoint render_rows `{Unicode} (k : nat) (s : State) (ren : list str)
    (i : Z) (exclusive : bool) : res (list row) :=
  match k with
  | O => Ok []
  | S k' =>
      if i >=? Py.len ren then
        rest <- render_rows k' s ren (i + 1) exclusive ;;
        Ok (Blank (Py.rep SPACE (win_w s)) :: rest)
      else
        line <- Py.get ren i ;;
        let text :=
          Py.slice line (Some (bufofs_x s)) (Some (bufofs_x s + win_w s)) in
        let textlen := Py.len text in
        r <- paint (decor_syntax text) exclusive 0 ;;
        let pad := if win_w s - textlen >? 0
                   then Py.rep SPACE (win_w s - textlen) else [] in
        rest <- render_rows k' s ren (i + 1) (snd r) ;;
        Ok (Text (fst r) textlen pad :: rest)
  end.

(** The rows of one call of [render]. *)
Definition rows `{Unicode} (s : State) : res (list row) :=
  render_rows (Z.to_nat (win_h s - 1)) s (renbuffer s) 0 false.

(** The end of [render]: where the terminal cursor is put, row and
    column. *)
Definition cursor (s : State) : res (Z * Z) :=
  if cmdmode s then Ok (win_h s - 1, 10 + Py.len (cmdbuffer s))
  else
    let y := bufcur_y s - bufofs_y s in
    let y := if y >=? win_h s - 1 then y - 1 else y in
    l <- Py.get (buffer s) (bufcur_y s - bufofs_y s) ;;
    let x := bufpos2vispos l (tabsz s) (bufcur_x s) - bufofs_x s in
    if ((y <? 0) || (x <? 0))%bool then Ok (win_h s - 1, win_w s - 1)
    else Ok (y, x).

(** The characters a row shows, column by column, when the cells and the
    blanks after them do not overlap. *)
Definition row_chars (r : row) : str :=
  match r with
  | Blank text => text
  | Text cells _ pad => map cell_char cells ++ pad
  end.

End Render.

(** ** [render] of the base prototype

    The same for the base prototype, which writes the text of a row in
    one call and has no colours. *)
Module BaseRender.

(** [ren_statbar] *)
Definition ren_statbar (s : State) : str :=
  let rhs := L "LF | T:" ++ Render.str_of_int (tabsz s) ++ L " " in
  let lhs := if cmdmode s then L " command: " ++ cmdbuffer s else L " -*- " in
  let rhs := if navmode s then L "nav | " ++ rhs else L "wri | " ++ rhs in
  let mid := Py.rep SPACE (win_w s - Py.len lhs - Py.len rhs - 1) in
  lhs ++ mid ++ rhs.

(** [renbuffer] *)
Definition renbuffer (s : State) : list str :=
  let buflen := Py.len (buffer s) in
  let bufstart_y := bufofs_y s in
  let bufend_y := bufofs_y s + win_h s in
  let blankendct_y := buflen - bufend_y in
  let bufend_y := bufend_y - blankendct_y in
  map (fun l => Render.expand_tabs l (tabsz s))
      (Py.slice (buffer s) (Some bufstart_y) (Some bufend_y)).

(** What is written on one row: the blank line, or the text from column 0
    on and the blanks written from the column [pad_col] on. *)
Inductive row : Type :=
| Blank (text : str)
| Text (text : str) (pad_col : Z) (pad : str).

(** The loop [while i < s.win_h - 1] over the rows. *)
Fixpoint render_rows (k : nat) (s : State) (ren : list str) (i : Z)
  : res (list row) :=
  match k with
  | O => Ok []
  | S k' =>
      if i >=? Py.len ren then
        rest <- render_rows k' s ren (i + 1) ;;
        Ok (Blank (Py.rep SPACE (win_w s - 1)) :: rest)
      else
        line <- Py.get ren i ;;
        let text :=
          Py.slice line (Some (bufofs_x s)) (Some (bufofs_x s + win_w s)) in
        let textlen := Py.len text in
        let pad := if win_w s - textlen >? 0
                   then Py.rep SPACE (win_w s - textlen) else [] in
        rest <- render_rows k' s ren (i + 1) ;;
        Ok (Text text textlen pad :: rest)
  end.

Definition rows (s : State) : res (list row) :=
  render_rows (Z.to_nat (win_h s - 1)) s (renbuffer s) 0.

(** The end of [render]: where the terminal cursor is put. *)
Definition cursor (s : State) : res (Z * Z) :=
  if cmdmode s then Ok (win_h s - 1, 10 + Py.len (cmdbuffer s))
  else
    let y := bufcur_y s - bufofs_y s in
    l <- Py.get (buffer s) (bufcur_y s - bufofs_y s) ;;
    let x := bufpos2vispos l (tabsz s) (bufcur_x s) - bufofs_x s in
    if ((y <? 0) || (x <? 0))%bool then Ok (win_h s - 1, win_w s - 1)
    else Ok (y, x).

Definition row_chars (r : row) : str :=
  match r with
  | Blank text => text
  | Text text _ pad => text ++ pad
  end.

End BaseRender.

(** * Properties

    The documents and lines of the examples and the notions the proofs use. *)

(** ** The examples *)

(** The document of two lines of the specification's example, tab size 4,
    the cursor after the tab of the first line. *)
Definition two_layouts : State :=
  mkState 0 [TAB :: L "abc"; L "abcdefgh"] [] [] false false 80 24 1 0 0 0 0 4.

(** The buffer of one line "hello", the cursor after "he". *)
Definition hello_at_2 : State :=
  mkState 10 [L "hello"] [] [] false false 80 24 2 0 0 0 0 3.

(** The buffer of the lines "hello" and "x", the cursor after "he". *)
Definition hello_x_at_2 : State :=
  mkState 10 [L "hello"; L "x"] [] [] false false 80 24 2 0 0 0 0 3.

(** The keys of a text, one turn each, in a window of 24 by 80. *)
Definition typed (keys : list Z) : list turn := map (mkTurn 24 80) keys.

Definition keys_of (text : str) : list Z := map Z.of_N text.

(** The buffers of the failing moves of the base prototype. *)
Definition ab_cd : State :=
  mkState 127 [L "ab"; L "cd"] [] [] false false 80 24 0 1 0 0 0 1.

Definition x_ab_cd : State :=
  mkState 127 [L "x"; L "ab"; L "cd"] [] [] false false 80 24 0 2 0 0 0 1.

(** The buffer of "ab" and an empty line, the cursor on the empty line. *)
Definition ab_blank : State :=
  mkState 0 [L "ab"; []] [] [] false false 80 24 0 1 0 0 0 3.

(** A buffer of 23 empty lines in a window of 24 rows, the cursor on the
    first line, and the command "pd" typed. *)
Definition page_of_23 : State :=
  mkState 10 (repeat [] 23) [] (L "pd") true false 80 24 0 0 0 0 0 3.

Definition example_line : str := L "/* a */ int x = 1;".

(** The spans that are not in the default colour. *)
Definition coloured (sps : list span) : list span :=
  filter (fun sp => negb (span_grp sp =? 0)) sps.

(** The spans of the painted example: [None] if painting raises. *)
Definition example_spans `{Unicode} : option (list span) :=
  match paint (decor_syntax example_line) false 0 with
  | Ok (cells, _) => Some (spans cells)
  | Raise _ => None
  end.

(** The marker and a code. *)
Definition mark_code (code : char) : str := [MARK; code].

(** ** What a match can be

    [Match r st st']: the expression [r] can take the matcher from the
    position [st] to the position [st']. The relation says nothing about
    which of several matches is found, about word boundaries or about what
    a negative look-ahead excludes: it contains every match [mt] finds. *)
Section MatchDef.
Context `{Unicode}.

Inductive Match : regex -> mstate -> mstate -> Prop :=
| M_Eps st : Match Eps st st
| M_One cs c tl bef cps :
    cset_mem cs c = true ->
    Match (One cs) (mkM bef (c :: tl) cps) (mkM (c :: bef) tl cps)
| M_Seq r1 r2 st st1 st2 :
    Match r1 st st1 -> Match r2 st1 st2 -> Match (Seq r1 r2) st st2
| M_Alt_l r1 r2 st st1 : Match r1 st st1 -> Match (Alt r1 r2) st st1
| M_Alt_r r1 r2 st st1 : Match r2 st st1 -> Match (Alt r1 r2) st st1
| M_Star_0 r st : Match (Star r) st st
| M_Star_S r st st1 st2 :
    Match r st st1 -> Match (Star r) st1 st2 -> Match (Star r) st st2
| M_Opt_1 r st st1 : Match r st st1 -> Match (Opt r) st st1
| M_Opt_0 r st : Match (Opt r) st st
| M_Grp n r st st1 :
    Match r st st1 -> Match (Grp n r) st (set_cap n (consumed st st1) st1)
| M_WordB st : Match WordB st st
| M_Ahead r st st1 :
    Match r st st1 ->
    Match (Ahead r) st (mkM (before st) (after st) (caps st1))
| M_NotAhead r st : Match (NotAhead r) st st.

End MatchDef.

(** ** Expressions that read printable characters only *)

Definition printable (c : char) : bool := N.leb 32 c.

Definition cset_printable (cs : cset) : bool :=
  match cs with
  | Lit c => printable c
  | Ranges l => forallb (fun '(lo, _) => printable lo) l
  | NotRanges _ | Dot | WhiteSpace => false
  end.

(** Every character [r] reads, outside of what it looks ahead at, is
    printable. *)
Fixpoint reads_printable (r : regex) : bool :=
  match r with
  | Eps | WordB | Ahead _ | NotAhead _ => true
  | One cs => cset_printable cs
  | Seq r1 r2 | Alt r1 r2 => reads_printable r1 && reads_printable r2
  | Star r1 | Opt r1 | Grp _ r1 => reads_printable r1
  end.

(** [r] cannot match the empty string. *)
Fixpoint nonnull (r : regex) : bool :=
  match r with
  | One _ => true
  | Seq r1 r2 => nonnull r1 || nonnull r2
  | Alt r1 r2 => nonnull r1 && nonnull r2
  | Grp _ r1 => nonnull r1
  | Eps | Star _ | Opt _ | WordB | Ahead _ | NotAhead _ => false
  end.

(** ** Marked text *)

(** A decorated text is well formed when every marker is followed by a
    code, and every code is a control character. *)
Fixpoint wfm (text : str) : bool :=
  match text with
  | [] => true
  | c :: rest =>
      if N.eqb c MARK
      then match rest with
           | [] => false
           | d :: rest' => negb (printable d) && wfm rest'
           end
      else wfm rest
  end.

(** ** The passes of the tokenizer *)
Section PassDef.
Context `{Unicode}.

(** A pass is safe when each of its matches starts with a printable
    character and, in a well-formed text, is itself well formed and is
    replaced by a well-formed text with the same characters. *)
Definition safe_pass (r : regex) (tpl : list titem) : Prop :=
  forall bef aft st1,
    Match r (mkM bef aft []) st1 ->
    exists c m,
      aft = (c :: m) ++ after st1
      /\ printable c = true
      /\ (wfm aft = true ->
          wfm (c :: m) = true
          /\ wfm (expand tpl (caps st1)) = true
          /\ strip_markers (expand tpl (caps st1)) = strip_markers (c :: m)).

(** Whether [r] can set the group [n]. *)
Fixpoint sets_group (n : nat) (r : regex) : bool :=
  match r with
  | Grp k r1 => Nat.eqb k n || sets_group n r1
  | Seq r1 r2 | Alt r1 r2 => sets_group n r1 || sets_group n r2
  | Star r1 | Opt r1 | Ahead r1 => sets_group n r1
  | Eps | One _ | WordB | NotAhead _ => false
  end.

(** The three forms of an expression whose group 1 is the whole match:
    the group alone, the group between word boundaries, the group after a
    word boundary. *)
Inductive form : Type := Bare | Bounded | LeftBounded.

Definition formed (f : form) (b : regex) : regex :=
  match f with
  | Bare => Grp 1 b
  | Bounded => Seq WordB (Seq (Grp 1 b) WordB)
  | LeftBounded => Seq WordB (Grp 1 b)
  end.

(** A template that puts [p] before the group 1 and [q] after it. *)
Definition wraps (tpl : list titem) (p q : str) : Prop :=
  forall cs m, cap cs 1 = Some m -> expand tpl cs = p ++ m ++ q.

(** A quote [q] as group 1, a body [body] as group 2, the quote again as
    group [last], after a negative look-ahead. *)
Definition quoted (x : regex) (q : char) (body : regex) (last : nat) : regex :=
  Seq (NotAhead x)
      (Seq (Grp 1 (One (Lit q)))
           (Seq (Grp 2 body) (Grp last (One (Lit q))))).

End PassDef.

(** Whether the marker occurs in a line. *)
Definition has_mark (line : str) : bool := existsb (N.eqb MARK) line.


(** ** Keys *)

(** A key that, outside command mode, types its character in the extended
    prototype: a code point below 256 that is not Tab, Return, Escape or
    backspace. *)
Definition plain_key (k : Z) : bool :=
  ((0 <=? k) && (k <? 256) && negb (k =? 9) && negb (k =? 10)
   && negb (k =? 27) && negb (k =? 127))%bool.


(** A key that, in command mode, goes into the command buffer of the
    extended prototype: a code point that is not Tab, Return, Escape, Del
    or backspace. *)
Definition command_key (k : Z) : bool :=
  ((0 <=? k) && (k <? 1114112) && negb (k =? 9) && negb (k =? 10)
   && negb (k =? 27) && negb (k =? 330) && negb (k =? 127))%bool.

(** ** The window *)

(** The text of the window on one line of the document: the line with its
    tabs expanded, cut at the window's edges and filled with blanks. *)
Definition window_text (s : State) (line : str) : str :=
  let text := Py.slice (Render.expand_tabs line (tabsz s))
                       (Some (bufofs_x s)) (Some (bufofs_x s + win_w s)) in
  text ++ Py.rep SPACE (win_w s - Py.len text).

(** ** Exclusive groups *)


(** ** Commands *)

(** The commands of the extended prototype that move the cursor to another
    row: a page up, a page down and the jump to a line. *)
Definition moves_rows (cmd : str) : bool :=
  (str_eqb cmd (L "pu") || str_eqb cmd (L "pd")
   || Py.startswith cmd (L "g "))%bool.

(** ** The window of the base prototype *)

(** The line of the document where [render] of the base prototype stops:
    the end of its slice of the buffer, as Python brings it into range. *)
Definition base_shown_end (s : State) : Z :=
  let n := Py.len (buffer s) in
  let twice := 2 * (bufofs_y s + win_h s) in
  if n <=? twice then Z.min (twice - n) n else twice.

(** ** Example documents *)

(** Three lines, the second beginning with a tab; the cursor on the second
    line, after the tab and one letter, in a window of 24 rows and 80
    columns at the top of the document; the tab size is 4. *)
Definition three_lines : State :=
  mkState 0 [L "one"; TAB :: L "two"; L "three"] [] [] false false
          80 24 2 1 2 0 0 4.

(** The same in command mode, with a command typed. *)
Definition with_command (cmd : str) : State :=
  set_cmdbuffer (set_cmdmode three_lines true) cmd.

(** The same after the right arrow was read. *)
Definition panning : State := set_key three_lines KEY_RIGHT.

(** * Proofs *)

(** ** Python lists inside their bounds *)
Section PyFacts.
Variable A : Type.
Implicit Types (l : list A) (i : Z).

Lemma len_nonneg l : 0 <= Py.len l.
Proof. unfold Py.len. lia. Qed.

Lemma len_app l1 l2 : Py.len (l1 ++ l2) = Py.len l1 + Py.len l2.
Proof. unfold Py.len. rewrite length_app. lia. Qed.

Lemma len_cons (a : A) l : Py.len (a :: l) = 1 + Py.len l.
Proof. unfold Py.len. simpl List.length. lia. Qed.

Lemma get_in_range l i :
  0 <= i < Py.len l ->
  exists a, Py.get l i = Ok a /\ nth_error l (Z.to_nat i) = Some a.
Proof.
  intros Hi. unfold Py.get.
  destruct (i <? 0) eqn:E; [apply Z.ltb_lt in E; lia|].
  replace ((0 <=? i) && (i <? Py.len l))%bool with true
    by (symmetry; apply andb_true_iff; split;
        [apply Z.leb_le | apply Z.ltb_lt]; lia).
  destruct (nth_error l (Z.to_nat i)) as [a|] eqn:N.
  - exists a. split; reflexivity.
  - apply nth_error_None in N. unfold Py.len in Hi. lia.
Qed.

Lemma get_Ok_in l i a : Py.get l i = Ok a -> In a l.
Proof.
  unfold Py.get. destruct (_ && _)%bool; [|discriminate].
  destruct (nth_error _ _) eqn:N; [|discriminate].
  intros E. injection E as <-. eapply nth_error_In, N.
Qed.

Lemma slice_to l i :
  0 <= i <= Py.len l -> Py.slice l None (Some i) = firstn (Z.to_nat i) l.
Proof.
  intros Hi. unfold Py.slice, Py.clamp.
  destruct (i <? 0) eqn:E; [apply Z.ltb_lt in E; lia|].
  rewrite Z.min_l by lia. simpl skipn. f_equal. lia.
Qed.

Lemma slice_from l i :
  0 <= i <= Py.len l -> Py.slice l (Some i) None = skipn (Z.to_nat i) l.
Proof.
  intros Hi. unfold Py.slice, Py.clamp.
  destruct (i <? 0) eqn:E; [apply Z.ltb_lt in E; lia|].
  rewrite Z.min_l by lia. apply firstn_all2.
  rewrite length_skipn. unfold Py.len in *. lia.
Qed.

Lemma slice_drop_last l :
  Py.slice l None (Some (-1)) = firstn (List.length l - 1) l.
Proof.
  unfold Py.slice, Py.clamp. simpl skipn.
  replace (-1 <? 0) with true by reflexivity.
  f_equal. unfold Py.len. lia.
Qed.

Lemma set_in_range l i (v : A) :
  0 <= i < Py.len l ->
  Py.set l i v
  = Ok (firstn (Z.to_nat i) l ++ v :: skipn (S (Z.to_nat i)) l).
Proof.
  intros Hi. unfold Py.set.
  destruct (i <? 0) eqn:E; [apply Z.ltb_lt in E; lia|].
  replace ((0 <=? i) && (i <? Py.len l))%bool with true
    by (symmetry; apply andb_true_iff; split;
        [apply Z.leb_le | apply Z.ltb_lt]; lia).
  reflexivity.
Qed.

Lemma set_last l (v : A) :
  l <> [] -> Py.set l (-1) v = Ok (firstn (List.length l - 1) l ++ [v]).
Proof.
  intros Hl. unfold Py.set.
  replace (-1 <? 0) with true by reflexivity.
  assert (0 < Py.len l)
    by (unfold Py.len; destruct l; [congruence | simpl List.length; lia]).
  replace ((0 <=? -1 + Py.len l) && (-1 + Py.len l <? Py.len l))%bool with true
    by (symmetry; apply andb_true_iff; split;
        [apply Z.leb_le | apply Z.ltb_lt]; lia).
  replace (Z.to_nat (-1 + Py.len l)) with (List.length l - 1)%nat
    by (unfold Py.len in *; lia).
  do 2 f_equal. f_equal. apply skipn_all2. lia.
Qed.

Lemma del_in_range l i :
  0 <= i < Py.len l ->
  Py.del l i = Ok (firstn (Z.to_nat i) l ++ skipn (S (Z.to_nat i)) l).
Proof.
  intros Hi. unfold Py.del.
  destruct (i <? 0) eqn:E; [apply Z.ltb_lt in E; lia|].
  replace ((0 <=? i) && (i <? Py.len l))%bool with true
    by (symmetry; apply andb_true_iff; split;
        [apply Z.leb_le | apply Z.ltb_lt]; lia).
  reflexivity.
Qed.

(** A list cut around its element number [n]. *)
Lemma split_at_nth l (n : nat) (a : A) :
  nth_error l n = Some a -> l = firstn n l ++ a :: skipn (S n) l.
Proof.
  revert l; induction n as [|n IH]; intros [|b l] E; try discriminate.
  - simpl in *. congruence.
  - simpl in *. f_equal. apply IH, E.
Qed.

Lemma firstn_plus l (a b : nat) :
  firstn (a + b) l = firstn a l ++ firstn b (skipn a l).
Proof.
  revert l; induction a as [|a IH]; intros [|x l]; simpl;
    try reflexivity.
  - destruct b; reflexivity.
  - f_equal. apply IH.
Qed.
End PyFacts.

(** ** The coordinate mapper *)

Lemma visual_width_app (a b : str) (t : Z) :
  visual_width (a ++ b) t = visual_width a t + visual_width b t.
Proof. induction a as [|c a IH]; simpl; [reflexivity | rewrite IH; lia]. Qed.

Lemma visual_width_nonneg (a : str) (t : Z) : 0 <= t -> 0 <= visual_width a t.
Proof.
  intros Ht. induction a as [|c a IH]; simpl; [lia|].
  destruct (N.eqb c TAB); lia.
Qed.

Lemma bufpos2vispos_loop_spec (text : str) (t : Z) (k : nat) :
  forall (i : nat) (ret : Z),
    (i + k <= List.length text)%nat ->
    bufpos2vispos_loop k text t (Z.of_nat i) ret
    = ret + visual_width (firstn k (skipn i text)) t.
Proof.
  induction k as [|k IH]; intros i ret Hk; simpl bufpos2vispos_loop.
  - simpl. lia.
  - destruct (nth_error text i) as [c|] eqn:N;
      [|apply nth_error_None in N; lia].
    unfold char_at. rewrite Nat2Z.id, (nth_error_nth _ _ _ N).
    rewrite (split_at_nth _ _ N) at 2.
    rewrite skipn_app, skipn_firstn_comm, Nat.sub_diag, firstn_O.
    rewrite length_firstn, Nat.min_l by lia.
    rewrite Nat.sub_diag.
    replace (Z.of_nat i + 1) with (Z.of_nat (S i)) by lia.
    rewrite IH by lia.
    remember (skipn (S i) text) as rest. simpl.
    destruct (N.eqb c TAB); lia.
Qed.

(** Inside the line, [bufpos2vispos] is the mapping of the specification. *)
Lemma bufpos2vispos_in_range (text : str) (t offs : Z) :
  0 <= offs <= Py.len text ->
  bufpos2vispos text t offs = literalToVisual_spec text t offs.
Proof.
  intros H. unfold bufpos2vispos, literalToVisual_spec.
  destruct (offs >? Py.len text) eqn:E; [apply Z.gtb_lt in E; lia|].
  change 0 with (Z.of_nat 0) at 1.
  rewrite bufpos2vispos_loop_spec by (unfold Py.len in H; lia).
  simpl. reflexivity.
Qed.

(** Inside the line, [bufpos2vispos] does not decrease with the offset. *)
Lemma bufpos2vispos_monotone_in_range (text : str) (t o1 o2 : Z) :
  0 <= t -> 0 <= o1 <= o2 -> o2 <= Py.len text ->
  bufpos2vispos text t o1 <= bufpos2vispos text t o2.
Proof.
  intros Ht H1 H2. rewrite !bufpos2vispos_in_range by lia.
  unfold literalToVisual_spec.
  replace (Z.to_nat o2) with (Z.to_nat o1 + (Z.to_nat o2 - Z.to_nat o1))%nat
    by lia.
  rewrite firstn_plus, visual_width_app.
  pose proof (visual_width_nonneg
    (firstn (Z.to_nat o2 - Z.to_nat o1) (skipn (Z.to_nat o1) text)) Ht). lia.
Qed.

(** The two values the specification gives for the line of a tab and "foo". *)
Example bufpos2vispos_tab_foo :
  bufpos2vispos (TAB :: L "foo") 3 1 = 3 /\ bufpos2vispos (TAB :: L "foo") 3 4 = 6.
Proof. split; reflexivity. Qed.

(** C3. The specification has [literalToVisual] return, for an offset past
    the end of the line, the visual width of the whole line, and be
    non-decreasing in the offset. On the line of one tab with tab size 3,
    [bufpos2vispos] returns 3 at offset 1 (the visual width of the line) and,
    past the end at offset 2, the literal length 1: neither the width nor
    non-decreasing. *)
Theorem bufpos2vispos_past_end_is_literal_length :
  bufpos2vispos [TAB] 3 1 = 3
  /\ bufpos2vispos [TAB] 3 2 = 1
  /\ literalToVisual_spec [TAB] 3 2 = 3.
Proof. repeat split; reflexivity. Qed.

(** The same for every line: past the end the result is the number of
    characters, whatever the tabs. *)
Lemma bufpos2vispos_past_end (text : str) (t offs : Z) :
  Py.len text < offs -> bufpos2vispos text t offs = Py.len text.
Proof.
  intros H. unfold bufpos2vispos.
  destruct (offs >? Py.len text) eqn:E; [reflexivity|].
  rewrite Z.gtb_ltb in E. apply Z.ltb_ge in E. lia.
Qed.

(** C2. [vispos2bufpos] is documented as the inverse of [bufpos2vispos].
    On the line "ab" with tab size 1, offset 1 has visual column 1, and
    [vispos2bufpos] maps visual column 1 back to offset 0. *)
Theorem vispos2bufpos_not_left_inverse :
  bufpos2vispos (L "ab") 1 1 = 1
  /\ vispos2bufpos (L "ab") 1 (bufpos2vispos (L "ab") 1 1) = 0.
Proof. split; reflexivity. Qed.

(** What [vispos2bufpos] computes while a full tab width still fits before
    the end of the line: nothing is counted. *)
Lemma vispos2bufpos_loop_early (text : str) (t : Z) (k : nat) :
  forall (i ret : Z),
    i + Z.of_nat k - 1 + t < Py.len text ->
    vispos2bufpos_loop k text t i ret = ret.
Proof.
  induction k as [|k IH]; intros i ret H; simpl; [reflexivity|].
  destruct (i + t <? Py.len text) eqn:E; [|apply Z.ltb_ge in E; lia].
  apply IH. lia.
Qed.

Lemma vispos2bufpos_early (text : str) (t offs : Z) :
  1 <= t -> 0 <= offs -> offs - 1 + t < Py.len text ->
  vispos2bufpos text t offs = 0.
Proof.
  intros Ht H0 H. unfold vispos2bufpos.
  destruct (offs >? Py.len text) eqn:E; [apply Z.gtb_lt in E; lia|].
  apply vispos2bufpos_loop_early. lia.
Qed.

(** ** Python lists at a known position

    The same operations when the list is given as what stands before the
    position, the element there and what follows. *)
Section PyAt.
Variable A : Type.
Implicit Types (pre post l : list A) (a v : A) (i : Z).

Lemma get_at pre a post i :
  i = Py.len pre -> Py.get (pre ++ a :: post) i = Ok a.
Proof.
  intros ->. pose proof (len_nonneg pre) as Hp.
  destruct (@get_in_range A (pre ++ a :: post) (Py.len pre)) as (b & -> & N).
  - rewrite len_app, len_cons. pose proof (len_nonneg post). lia.
  - unfold Py.len in N. rewrite Nat2Z.id, nth_error_app2 in N by lia.
    rewrite Nat.sub_diag in N. simpl in N. congruence.
Qed.

Lemma set_at pre a post v i :
  i = Py.len pre -> Py.set (pre ++ a :: post) i v = Ok (pre ++ v :: post).
Proof.
  intros ->. pose proof (len_nonneg pre) as Hp.
  rewrite set_in_range
    by (rewrite len_app, len_cons; pose proof (len_nonneg post); lia).
  unfold Py.len. rewrite Nat2Z.id. f_equal.
  rewrite firstn_app, Nat.sub_diag, firstn_O, firstn_all, app_nil_r.
  f_equal. f_equal.
  rewrite skipn_app, skipn_all2 by lia.
  replace (S (List.length pre) - List.length pre)%nat with 1%nat by lia.
  reflexivity.
Qed.

Lemma del_at pre a post i :
  i = Py.len pre -> Py.del (pre ++ a :: post) i = Ok (pre ++ post).
Proof.
  intros ->. pose proof (len_nonneg pre) as Hp.
  rewrite del_in_range
    by (rewrite len_app, len_cons; pose proof (len_nonneg post); lia).
  unfold Py.len. rewrite Nat2Z.id. f_equal.
  rewrite firstn_app, Nat.sub_diag, firstn_O, firstn_all, app_nil_r.
  f_equal.
  rewrite skipn_app, skipn_all2 by lia.
  replace (S (List.length pre) - List.length pre)%nat with 1%nat by lia.
  reflexivity.
Qed.

Lemma slice_to_at pre post i :
  i = Py.len pre -> Py.slice (pre ++ post) None (Some i) = pre.
Proof.
  intros ->. rewrite slice_to
    by (rewrite len_app; pose proof (len_nonneg pre);
        pose proof (len_nonneg post); lia).
  unfold Py.len. rewrite Nat2Z.id.
  rewrite firstn_app, Nat.sub_diag, firstn_O, firstn_all, app_nil_r.
  reflexivity.
Qed.

Lemma slice_from_at pre post i :
  i = Py.len pre -> Py.slice (pre ++ post) (Some i) None = post.
Proof.
  intros ->. rewrite slice_from
    by (rewrite len_app; pose proof (len_nonneg pre);
        pose proof (len_nonneg post); lia).
  unfold Py.len. rewrite Nat2Z.id.
  rewrite skipn_app, skipn_all2, Nat.sub_diag by lia. reflexivity.
Qed.

Lemma slice_drop_last_at pre a :
  Py.slice (pre ++ [a]) None (Some (-1)) = pre.
Proof.
  rewrite slice_drop_last, length_app. simpl List.length.
  replace (List.length pre + 1 - 1)%nat with (List.length pre) by lia.
  rewrite firstn_app, Nat.sub_diag, firstn_O, firstn_all, app_nil_r.
  reflexivity.
Qed.

Lemma set_last_at pre a v : Py.set (pre ++ [a]) (-1) v = Ok (pre ++ [v]).
Proof.
  rewrite set_last by (destruct pre; discriminate).
  rewrite length_app. simpl List.length.
  replace (List.length pre + 1 - 1)%nat with (List.length pre) by lia.
  rewrite firstn_app, Nat.sub_diag, firstn_O, firstn_all, app_nil_r.
  reflexivity.
Qed.

Lemma insert_at pre post v i :
  i = Py.len pre -> Py.insert (pre ++ post) i v = pre ++ v :: post.
Proof.
  intros ->. unfold Py.insert, Py.clamp.
  pose proof (len_nonneg pre). pose proof (len_nonneg post).
  destruct (Py.len pre <? 0) eqn:E; [apply Z.ltb_lt in E; lia|].
  rewrite Z.min_l by (rewrite len_app; lia).
  unfold Py.len. rewrite Nat2Z.id.
  rewrite firstn_app, Nat.sub_diag, firstn_O, firstn_all, app_nil_r.
  rewrite skipn_app, skipn_all2, Nat.sub_diag by lia. reflexivity.
Qed.

(** A list that is not empty ends with an element. *)
Lemma last_elem l : l <> [] -> exists l' a, l = l' ++ [a].
Proof.
  intros H. destruct (exists_last H) as (l' & a & ->). eauto.
Qed.
End PyAt.

(** ** The cursor inside the document *)

Lemma in_bounds_at (s : State) :
  in_bounds s = true <->
  exists pre cur post,
    buffer s = pre ++ cur :: post
    /\ bufcur_y s = Py.len pre
    /\ 0 <= bufcur_x s <= Py.len cur.
Proof.
  unfold in_bounds. split.
  - rewrite !andb_true_iff, Z.leb_le, Z.ltb_lt. intros [[H0 H1] H2].
    destruct (nth_error _ _) as [cur|] eqn:N; [|discriminate].
    rewrite andb_true_iff, Z.leb_le, Z.leb_le in H2.
    exists (firstn (Z.to_nat (bufcur_y s)) (buffer s)), cur,
           (skipn (S (Z.to_nat (bufcur_y s))) (buffer s)).
    split; [apply split_at_nth, N|]. split; [|exact H2].
    unfold Py.len in *. rewrite length_firstn. lia.
  - intros (pre & cur & post & Hb & Hy & Hx).
    rewrite Hb, Hy, len_app, len_cons.
    pose proof (len_nonneg pre). pose proof (len_nonneg post).
    replace (Z.to_nat (Py.len pre)) with (List.length pre)
      by (unfold Py.len; lia).
    rewrite nth_error_app2, Nat.sub_diag by lia.
    simpl nth_error. rewrite !andb_true_iff, !Z.leb_le, Z.ltb_lt. lia.
Qed.

Lemma in_bounds_nonempty (s : State) : in_bounds s = true -> buffer s <> [].
Proof.
  intros H. apply in_bounds_at in H. destruct H as (pre & cur & post & -> & _).
  destruct pre; discriminate.
Qed.

(** The same, for a list that is equal to such a cut. *)
Section PyAtEq.
Variable A : Type.
Implicit Types (pre post l : list A) (a v : A) (i : Z).

Lemma get_eq l pre a post i :
  l = pre ++ a :: post -> i = Py.len pre -> Py.get l i = Ok a.
Proof. intros -> ->. apply get_at. reflexivity. Qed.

Lemma set_eq l pre a post v i :
  l = pre ++ a :: post -> i = Py.len pre ->
  Py.set l i v = Ok (pre ++ v :: post).
Proof. intros -> ->. apply set_at. reflexivity. Qed.

Lemma del_eq l pre a post i :
  l = pre ++ a :: post -> i = Py.len pre -> Py.del l i = Ok (pre ++ post).
Proof. intros -> ->. eapply del_at. reflexivity. Qed.

Lemma slice_to_eq l pre post i :
  l = pre ++ post -> i = Py.len pre -> Py.slice l None (Some i) = pre.
Proof. intros -> ->. apply slice_to_at. reflexivity. Qed.

Lemma slice_from_eq l pre post i :
  l = pre ++ post -> i = Py.len pre -> Py.slice l (Some i) None = post.
Proof. intros -> ->. apply slice_from_at. reflexivity. Qed.

Lemma insert_eq l pre post v i :
  l = pre ++ post -> i = Py.len pre -> Py.insert l i v = pre ++ v :: post.
Proof. intros -> ->. apply insert_at. reflexivity. Qed.

Lemma slice_drop_last_eq l pre a :
  l = pre ++ [a] -> Py.slice l None (Some (-1)) = pre.
Proof. intros ->. apply slice_drop_last_at. Qed.

Lemma set_last_eq l pre a v :
  l = pre ++ [a] -> Py.set l (-1) v = Ok (pre ++ [v]).
Proof. intros ->. apply set_last_at. Qed.
End PyAtEq.

(** ** Tactics for the editing functions *)

Lemma is_blank_two (a b : str) (l l' : list str) :
  is_blank (l ++ a :: b :: l') = false.
Proof.
  destruct l as [|x [|y l]]; simpl; try reflexivity;
    try (destruct x; reflexivity); destruct a; reflexivity.
Qed.

Lemma is_blank_nonempty_line (a : str) (l l' : list str) :
  a <> [] -> is_blank (l ++ a :: l') = false.
Proof.
  intros Ha. destruct l as [|x [|y l]]; simpl; try reflexivity.
  - destruct a; [congruence | reflexivity].
  - destruct x; reflexivity.
  - destruct x; reflexivity.
Qed.

Lemma str_eqb_nil_false (a : str) : a <> [] -> str_eqb a [] = false.
Proof. destruct a; [congruence | reflexivity]. Qed.

Ltac len_solve :=
  unfold Py.len in *; repeat rewrite length_app in *;
  simpl List.length in *; lia.

Ltac list_solve := repeat rewrite <- app_assoc; reflexivity.

(** Decide the integer tests of the goal that the context settles. *)
Ltac ztest1 :=
  match goal with
  | |- context [?a <? ?b] =>
      first [ rewrite (proj2 (Z.ltb_lt a b)) by len_solve
            | rewrite (proj2 (Z.ltb_ge a b)) by len_solve ]
  | |- context [?a <=? ?b] =>
      first [ rewrite (proj2 (Z.leb_le a b)) by len_solve
            | rewrite (proj2 (Z.leb_gt a b)) by len_solve ]
  | |- context [?a =? ?b] =>
      first [ rewrite (proj2 (Z.eqb_eq a b)) by len_solve
            | rewrite (proj2 (Z.eqb_neq a b)) by len_solve ]
  | |- context [?a >=? ?b] => rewrite (Z.geb_leb a b)
  | |- context [?a >? ?b] => rewrite (Z.gtb_ltb a b)
  end.
Ltac ztest := repeat ztest1.

Ltac st_simpl :=
  cbn [key buffer openedfile cmdbuffer cmdmode navmode win_w win_h bufcur_x
       bufcur_y sticky_x bufofs_x bufofs_y tabsz
       set_key set_buffer set_openedfile set_cmdbuffer set_cmdmode set_navmode
       set_win_w set_win_h set_bufcur_x set_bufcur_y set_sticky_x set_bufofs_x
       set_bufofs_y set_tabsz bind andb orb negb] in *.

Ltac at_solve := solve [list_solve | len_solve].

(** ** The extended prototype: the Return key *)

(** On a line that is not the last, before the end of the line, the line is
    cut at the cursor. *)
Lemma Ext_newline_split (s : State) (pre : list str) (cur next : str)
    (post : list str) :
  buffer s = pre ++ cur :: next :: post ->
  bufcur_y s = Py.len pre ->
  0 <= bufcur_x s < Py.len cur ->
  exists s', Ext.newline s = Ok s'
    /\ buffer s' = pre ++ firstn (Z.to_nat (bufcur_x s)) cur
                       :: skipn (Z.to_nat (bufcur_x s)) cur :: next :: post
    /\ bufcur_y s' = bufcur_y s + 1 /\ bufcur_x s' = 0.
Proof.
  intros Hb Hy Hx. destruct s as [k b opf cb cm nm ww wh bx cy sx ox oy ts];
    st_simpl; subst.
  pose proof (len_nonneg pre).
  unfold Ext.newline; st_simpl. ztest.
  rewrite (@get_eq _ _ pre cur (next :: post)) by at_solve. st_simpl. ztest.
  rewrite (@slice_to_eq _ _ (pre ++ [cur]) (next :: post)) by at_solve.
  rewrite set_last_at. st_simpl.
  rewrite (@slice_from_eq _ _ pre (cur :: next :: post)) by at_solve.
  rewrite (@set_eq _ _ [] cur (next :: post)) by at_solve. st_simpl.
  rewrite slice_to, slice_from by lia.
  eexists. split; [reflexivity|]. st_simpl.
  rewrite <- app_assoc. repeat split; auto.
Qed.

(** At the end of a line that is not the last, an empty line is inserted
    after it. *)
Lemma Ext_newline_end_of_line (s : State) (pre : list str) (cur next : str)
    (post : list str) :
  buffer s = pre ++ cur :: next :: post ->
  bufcur_y s = Py.len pre ->
  bufcur_x s = Py.len cur ->
  exists s', Ext.newline s = Ok s'
    /\ buffer s' = pre ++ cur :: [] :: next :: post
    /\ bufcur_y s' = bufcur_y s + 1 /\ bufcur_x s' = 0.
Proof.
  intros Hb Hy Hx. destruct s as [k b opf cb cm nm ww wh bx cy sx ox oy ts];
    st_simpl; subst.
  pose proof (len_nonneg pre).
  unfold Ext.newline; st_simpl. ztest.
  rewrite (@get_eq _ _ pre cur (next :: post)) by at_solve. st_simpl. ztest.
  rewrite (@insert_eq _ _ (pre ++ [cur]) (next :: post)) by at_solve.
  eexists. split; [reflexivity|]. st_simpl.
  rewrite <- app_assoc. repeat split; auto.
Qed.

(** On the last line, an empty line is appended, wherever the cursor is in
    the line. *)
Lemma Ext_newline_last_line (s : State) (pre : list str) (cur : str) :
  buffer s = pre ++ [cur] ->
  bufcur_y s = Py.len pre ->
  exists s', Ext.newline s = Ok s'
    /\ buffer s' = pre ++ [cur; []]
    /\ bufcur_y s' = bufcur_y s + 1 /\ bufcur_x s' = 0.
Proof.
  intros Hb Hy. destruct s as [k b opf cb cm nm ww wh bx cy sx ox oy ts];
    st_simpl; subst.
  pose proof (len_nonneg pre).
  unfold Ext.newline; st_simpl. ztest. st_simpl.
  eexists. split; [reflexivity|]. st_simpl.
  rewrite <- app_assoc. repeat split; auto.
Qed.

(** ** The extended prototype: backspace *)

Lemma Ext_backspace_noop (s : State) :
  (is_blank (buffer s) || ((bufcur_x s =? 0) && (bufcur_y s =? 0)))%bool = true ->
  Ext.backspace s = Ok s.
Proof. intros H. unfold Ext.backspace. rewrite H. reflexivity. Qed.

(** On an empty line that is not the first, the line is removed. *)
Lemma Ext_backspace_empty_line (s : State) (pre : list str) (prev : str)
    (post : list str) :
  buffer s = pre ++ prev :: [] :: post ->
  bufcur_y s = Py.len pre + 1 ->
  exists s', Ext.backspace s = Ok s'
    /\ buffer s' = pre ++ prev :: post
    /\ bufcur_y s' = Py.len pre /\ bufcur_x s' = Py.len prev.
Proof.
  intros Hb Hy. destruct s as [k b opf cb cm nm ww wh bx cy sx ox oy ts];
    st_simpl; subst.
  pose proof (len_nonneg pre).
  unfold Ext.backspace; st_simpl.
  rewrite is_blank_two. ztest. rewrite andb_false_r. st_simpl.
  rewrite (@get_eq _ _ (pre ++ [prev]) [] post) by at_solve. st_simpl.
  cbn [str_eqb].
  assert (Hb : (if Py.len pre + 1 <? Py.len (pre ++ prev :: [] :: post) - 1
                then Py.slice (pre ++ prev :: [] :: post) None
                       (Some (Py.len pre + 1))
                     ++ Py.slice (pre ++ prev :: [] :: post)
                          (Some (Py.len pre + 1 + 1)) None
                else Py.slice (pre ++ prev :: [] :: post) None (Some (-1)))
               = pre ++ prev :: post).
  { destruct post as [|p post].
    - ztest.
      rewrite (@slice_drop_last_eq _ _ (pre ++ [prev]) []) by at_solve.
      reflexivity.
    - ztest.
      rewrite (@slice_to_eq _ _ (pre ++ [prev]) ([] :: p :: post)) by at_solve.
      rewrite (@slice_from_eq _ _ (pre ++ [prev; []]) (p :: post)) by at_solve.
      list_solve. }
  rewrite Hb.
  rewrite (@get_eq _ _ pre prev post) by at_solve. st_simpl.
  eexists. split; [reflexivity|]. st_simpl. repeat split; auto; lia.
Qed.

(** At the start of a line that is neither empty nor the first, the line is
    joined onto the end of the line before it, and the cursor goes to where
    that line ended. *)
Lemma Ext_backspace_join (s : State) (pre : list str) (prev cur : str)
    (post : list str) :
  buffer s = pre ++ prev :: cur :: post ->
  bufcur_y s = Py.len pre + 1 -> bufcur_x s = 0 -> cur <> [] ->
  exists s', Ext.backspace s = Ok s'
    /\ buffer s' = pre ++ (prev ++ cur) :: post
    /\ bufcur_y s' = Py.len pre /\ bufcur_x s' = Py.len prev.
Proof.
  intros Hb Hy Hx Hc. destruct s as [k b opf cb cm nm ww wh bx cy sx ox oy ts];
    st_simpl; subst.
  pose proof (len_nonneg pre).
  unfold Ext.backspace; st_simpl.
  rewrite is_blank_two. ztest. st_simpl.
  rewrite (@get_eq _ _ (pre ++ [prev]) cur post) by at_solve. st_simpl.
  rewrite (str_eqb_nil_false Hc).
  rewrite (@get_eq _ _ pre prev (cur :: post)) by at_solve. st_simpl.
  rewrite (@slice_to_eq _ _ (pre ++ [prev]) (cur :: post)) by at_solve.
  replace (is_nil (pre ++ [prev])) with false by (destruct pre; reflexivity).
  rewrite set_last_at. st_simpl.
  rewrite (@slice_from_eq _ _ (pre ++ [prev; cur]) post) by at_solve.
  eexists. split; [reflexivity|]. st_simpl.
  rewrite <- app_assoc. repeat split; auto; lia.
Qed.

(** Inside or at the end of a line, the character before the cursor is
    removed. *)
Lemma Ext_backspace_char (s : State) (pre : list str) (cur : str)
    (post : list str) :
  buffer s = pre ++ cur :: post ->
  bufcur_y s = Py.len pre ->
  0 < bufcur_x s <= Py.len cur ->
  exists s', Ext.backspace s = Ok s'
    /\ buffer s' = pre ++ (firstn (Z.to_nat (bufcur_x s - 1)) cur
                           ++ skipn (Z.to_nat (bufcur_x s)) cur) :: post
    /\ bufcur_y s' = bufcur_y s /\ bufcur_x s' = bufcur_x s - 1.
Proof.
  intros Hb Hy Hx. destruct s as [k b opf cb cm nm ww wh bx cy sx ox oy ts];
    st_simpl; subst.
  pose proof (len_nonneg pre).
  assert (Hc : cur <> []) by (intros ->; unfold Py.len in Hx; simpl in Hx; lia).
  unfold Ext.backspace; st_simpl.
  rewrite (is_blank_nonempty_line _ _ Hc). ztest. st_simpl.
  rewrite (@get_eq _ _ pre cur post) by at_solve. st_simpl.
  rewrite (str_eqb_nil_false Hc).
  destruct (Z.ltb_spec bx (Py.len cur)) as [Hlt|Hge].
  - rewrite (@set_eq _ _ pre cur post) by at_solve. st_simpl.
    rewrite slice_to, slice_from by lia.
    eexists. split; [reflexivity|]. st_simpl. repeat split; auto; lia.
  - rewrite (@set_eq _ _ pre cur post) by at_solve. st_simpl.
    rewrite slice_drop_last.
    eexists. split; [reflexivity|]. st_simpl. repeat split; auto.
    do 2 f_equal.
    rewrite skipn_all2, app_nil_r by len_solve. f_equal. len_solve.
Qed.

(** ** The extended prototype: the Del key *)

Lemma Ext_delete_noop (s : State) (pre : list str) (cur : str) :
  buffer s = pre ++ [cur] ->
  bufcur_y s = Py.len pre -> bufcur_x s = Py.len cur ->
  Ext.delete s = Ok s.
Proof.
  intros Hb Hy Hx. destruct s as [k b opf cb cm nm ww wh bx cy sx ox oy ts];
    st_simpl; subst.
  pose proof (len_nonneg pre).
  unfold Ext.delete; st_simpl.
  rewrite (@get_eq _ _ pre cur []) by at_solve. st_simpl. ztest.
  rewrite orb_true_r. reflexivity.
Qed.

(** At the end of a line that is not the last, the next line is joined onto
    it. *)
Lemma Ext_delete_join (s : State) (pre : list str) (cur next : str)
    (post : list str) :
  buffer s = pre ++ cur :: next :: post ->
  bufcur_y s = Py.len pre -> bufcur_x s = Py.len cur ->
  exists s', Ext.delete s = Ok s'
    /\ buffer s' = pre ++ (cur ++ next) :: post
    /\ bufcur_y s' = bufcur_y s /\ bufcur_x s' = bufcur_x s.
Proof.
  intros Hb Hy Hx. destruct s as [k b opf cb cm nm ww wh bx cy sx ox oy ts];
    st_simpl; subst.
  pose proof (len_nonneg pre).
  unfold Ext.delete; st_simpl.
  rewrite (@get_eq _ _ pre cur (next :: post)) by at_solve. st_simpl.
  rewrite is_blank_two. ztest. st_simpl.
  rewrite (@get_eq _ _ (pre ++ [cur]) next post) by at_solve. st_simpl.
  rewrite (@set_eq _ _ pre cur (next :: post)) by at_solve. st_simpl.
  rewrite (@del_eq _ _ (pre ++ [cur ++ next]) next post) by at_solve.
  st_simpl.
  eexists. split; [reflexivity|]. st_simpl.
  rewrite <- app_assoc. repeat split; auto.
Qed.

(** Before the end of a line, the character at the cursor is removed. *)
Lemma Ext_delete_char (s : State) (pre : list str) (cur : str)
    (post : list str) :
  buffer s = pre ++ cur :: post ->
  bufcur_y s = Py.len pre ->
  0 <= bufcur_x s < Py.len cur ->
  exists s', Ext.delete s = Ok s'
    /\ buffer s' = pre ++ (firstn (Z.to_nat (bufcur_x s)) cur
                           ++ skipn (Z.to_nat (bufcur_x s + 1)) cur) :: post
    /\ bufcur_y s' = bufcur_y s /\ bufcur_x s' = bufcur_x s.
Proof.
  intros Hb Hy Hx. destruct s as [k b opf cb cm nm ww wh bx cy sx ox oy ts];
    st_simpl; subst.
  pose proof (len_nonneg pre).
  assert (Hc : cur <> []) by (intros ->; unfold Py.len in Hx; simpl in Hx; lia).
  unfold Ext.delete; st_simpl.
  rewrite (@get_eq _ _ pre cur post) by at_solve. st_simpl.
  rewrite (is_blank_nonempty_line _ _ Hc). ztest. st_simpl.
  rewrite (@set_eq _ _ pre cur post) by at_solve. st_simpl.
  rewrite slice_to, slice_from by lia.
  eexists. split; [reflexivity|]. st_simpl. repeat split; auto.
Qed.

(** ** The cursor stays inside the document *)

Lemma length_cut_before (cur : str) (x : Z) :
  0 < x <= Py.len cur ->
  Py.len (firstn (Z.to_nat (x - 1)) cur ++ skipn (Z.to_nat x) cur)
  = Py.len cur - 1.
Proof.
  intros H. unfold Py.len in *.
  rewrite length_app, length_firstn, length_skipn. lia.
Qed.

Lemma length_cut_at (cur : str) (x : Z) :
  0 <= x < Py.len cur ->
  Py.len (firstn (Z.to_nat x) cur ++ skipn (Z.to_nat (x + 1)) cur)
  = Py.len cur - 1.
Proof.
  intros H. unfold Py.len in *.
  rewrite length_app, length_firstn, length_skipn. lia.
Qed.

Lemma Ext_backspace_in_bounds (s : State) :
  in_bounds s = true ->
  exists s', Ext.backspace s = Ok s' /\ in_bounds s' = true.
Proof.
  intros Hin. pose proof Hin as Hin'.
  apply in_bounds_at in Hin. destruct Hin as (pre & cur & post & Hb & Hy & Hx).
  destruct ((is_blank (buffer s)
             || ((bufcur_x s =? 0) && (bufcur_y s =? 0)))%bool) eqn:G.
  { exists s. split; [apply Ext_backspace_noop, G | exact Hin']. }
  apply orb_false_iff in G. destruct G as [_ G].
  destruct (Z.eq_dec (bufcur_x s) 0) as [Hx0|Hx0].
  - rewrite Hx0, Z.eqb_refl in G. simpl in G. apply Z.eqb_neq in G.
    assert (Hpre : pre <> []) by (intros ->; apply G; rewrite Hy; reflexivity).
    destruct (last_elem Hpre) as (pre' & prev & ->).
    rewrite <- app_assoc in Hb. simpl in Hb.
    assert (Hy' : bufcur_y s = Py.len pre' + 1) by (rewrite Hy; len_solve).
    destruct cur as [|c cur].
    + destruct (Ext_backspace_empty_line s pre' prev post Hb Hy')
        as (s' & -> & Hb' & Hy'' & Hx'').
      exists s'. split; [reflexivity|]. apply in_bounds_at.
      exists pre', prev, post. repeat split; auto;
        rewrite Hx''; pose proof (len_nonneg prev); lia.
    + destruct (@Ext_backspace_join s pre' prev (c :: cur) post Hb Hy' Hx0)
        as (s' & -> & Hb' & Hy'' & Hx''); [discriminate|].
      exists s'. split; [reflexivity|]. apply in_bounds_at.
      exists pre', (prev ++ c :: cur), post. repeat split; auto;
        rewrite Hx'', ?len_app; pose proof (len_nonneg prev);
        pose proof (len_nonneg (c :: cur)); lia.
  - destruct (@Ext_backspace_char s pre cur post Hb Hy)
      as (s' & -> & Hb' & Hy'' & Hx''); [lia|].
    exists s'. split; [reflexivity|]. apply in_bounds_at.
    exists pre, (firstn (Z.to_nat (bufcur_x s - 1)) cur
                 ++ skipn (Z.to_nat (bufcur_x s)) cur), post.
    repeat split; auto; try lia;
      rewrite ?length_cut_before by lia; lia.
Qed.

Lemma Ext_delete_in_bounds (s : State) :
  in_bounds s = true ->
  exists s', Ext.delete s = Ok s' /\ in_bounds s' = true.
Proof.
  intros Hin. pose proof Hin as Hin'.
  apply in_bounds_at in Hin. destruct Hin as (pre & cur & post & Hb & Hy & Hx).
  destruct (Z.eq_dec (bufcur_x s) (Py.len cur)) as [He|Hne].
  - destruct post as [|next post].
    + exists s. split; [eapply Ext_delete_noop; eauto | exact Hin'].
    + destruct (Ext_delete_join s pre cur next post Hb Hy He)
        as (s' & -> & Hb' & Hy'' & Hx'').
      exists s'. split; [reflexivity|]. apply in_bounds_at.
      exists pre, (cur ++ next), post. repeat split; auto; try lia.
      rewrite Hx'', len_app. pose proof (len_nonneg next). lia.
  - destruct (@Ext_delete_char s pre cur post Hb Hy)
      as (s' & -> & Hb' & Hy'' & Hx''); [lia|].
    exists s'. split; [reflexivity|]. apply in_bounds_at.
    exists pre, (firstn (Z.to_nat (bufcur_x s)) cur
                 ++ skipn (Z.to_nat (bufcur_x s + 1)) cur), post.
    repeat split; auto; try lia;
      rewrite ?length_cut_at by lia; lia.
Qed.

(** ** Vertical moves *)

(** Moving down, off the last line excepted, takes the column from the two
    mappers: the visual column on the old line, mapped back on the new
    line. Both prototypes do so. *)
Lemma move_cursor_down_column (s : State) (pre : list str) (cur next : str)
    (post : list str) :
  buffer s = pre ++ cur :: next :: post ->
  bufcur_y s = Py.len pre ->
  let col := vispos2bufpos next (tabsz s)
               (bufpos2vispos cur (tabsz s) (bufcur_x s)) in
  (exists s', Ext.move_cursor s Dir_d = Ok s'
     /\ buffer s' = buffer s /\ bufcur_y s' = bufcur_y s + 1
     /\ bufcur_x s' = col)
  /\ (exists s', Base.move_cursor s Dir_d = Ok s'
        /\ buffer s' = buffer s /\ bufcur_y s' = bufcur_y s + 1
        /\ bufcur_x s' = col).
Proof.
  intros Hb Hy col. subst col.
  destruct s as [k b opf cb cm nm ww wh bx cy sx ox oy ts];
    st_simpl; subst.
  pose proof (len_nonneg pre).
  split.
  - unfold Ext.move_cursor; st_simpl.
    rewrite (@get_eq _ _ pre cur (next :: post)) by at_solve. st_simpl.
    ztest. st_simpl.
    rewrite (@get_eq _ _ (pre ++ [cur]) next post) by at_solve. st_simpl.
    match goal with
    | |- context [if ?c then _ else _] => destruct c
    end; eexists; (split; [reflexivity|]); st_simpl; repeat split; auto.
  - unfold Base.move_cursor; st_simpl.
    rewrite (@get_eq _ _ pre cur (next :: post)) by at_solve. st_simpl.
    ztest. st_simpl.
    rewrite (@get_eq _ _ (pre ++ [cur]) next post) by at_solve. st_simpl.
    eexists; (split; [reflexivity|]); st_simpl; repeat split; auto.
Qed.

(** C1. From the line of a tab and "abc", at literal offset 1 (visual column
    4, tab size 4), moving down onto "abcdefgh" should put the cursor at
    literal offset 4, the offset whose visual column is 4. Both prototypes
    put it at literal offset 0, whose visual column is 0. *)
Theorem move_cursor_down_loses_visual_column :
  bufpos2vispos (TAB :: L "abc") 4 1 = 4
  /\ (exists s', Ext.move_cursor two_layouts Dir_d = Ok s'
        /\ bufcur_y s' = 1 /\ bufcur_x s' = 0)
  /\ (exists s', Base.move_cursor two_layouts Dir_d = Ok s'
        /\ bufcur_y s' = 1 /\ bufcur_x s' = 0)
  /\ bufpos2vispos (L "abcdefgh") 4 0 = 0
  /\ bufpos2vispos (L "abcdefgh") 4 4 = 4.
Proof.
  split; [reflexivity|].
  split; [eexists; split; [reflexivity|]; split; reflexivity|].
  split; [eexists; split; [reflexivity|]; split; reflexivity|].
  split; reflexivity.
Qed.

(** ** The Return key *)

(** C4. The Return key should cut the line at the cursor. In the extended
    prototype, on the last line of the buffer, it leaves the line whole and
    appends an empty line: "hello" with the cursor after "he" becomes
    "hello" and an empty line, not "he" and "llo". The base prototype never
    cuts a line: it inserts an empty line after the current one. *)
Theorem newline_leaves_line_whole :
  (exists s', Ext.newline hello_at_2 = Ok s'
     /\ buffer s' = [L "hello"; []] /\ bufcur_y s' = 1 /\ bufcur_x s' = 0)
  /\ buffer (Base.newline hello_x_at_2) = [L "hello"; []; L "x"].
Proof.
  split; [|reflexivity].
  eexists; split; [reflexivity|]. repeat split; reflexivity.
Qed.

(** The example of the specification: "hello" typed into the empty buffer,
    then Return, then backspace, in either prototype, leaves the one line
    "hello" and the cursor at offset 5. *)
Example hello_newline_backspace :
  (exists s', @Ext.run ascii_only no_files (init_State 3) tt
                (typed (keys_of (L "hello") ++ [10; 127])) = Ok (s', tt)
     /\ buffer s' = [L "hello"] /\ bufcur_y s' = 0 /\ bufcur_x s' = 5)
  /\ (exists s', @Base.run ascii_only no_files (init_State 1) tt
                   (typed (keys_of (L "hello") ++ [10; 127])) = Ok (s', tt)
        /\ buffer s' = [L "hello"] /\ bufcur_y s' = 0 /\ bufcur_x s' = 5).
Proof.
  split; eexists; (split; [vm_compute; reflexivity|]);
    repeat split; reflexivity.
Qed.

(** ** Backspace at the start of a line *)

(** In the extended prototype, the Return key followed by backspace gives
    the buffer back, wherever the cursor was. *)
Lemma Ext_newline_backspace (s : State) :
  in_bounds s = true ->
  exists s1 s2, Ext.newline s = Ok s1 /\ Ext.backspace s1 = Ok s2
    /\ buffer s2 = buffer s /\ bufcur_y s2 = bufcur_y s.
Proof.
  intros Hin. apply in_bounds_at in Hin.
  destruct Hin as (pre & cur & post & Hb & Hy & Hx).
  destruct post as [|next post].
  - destruct (Ext_newline_last_line s pre cur Hb Hy)
      as (s1 & E1 & Hb1 & Hy1 & Hx1).
    destruct (Ext_backspace_empty_line s1 pre cur [])
      as (s2 & E2 & Hb2 & Hy2 & Hx2); [exact Hb1 | lia |].
    exists s1, s2. repeat split; auto; congruence.
  - destruct (Z.eq_dec (bufcur_x s) (Py.len cur)) as [He|Hne].
    + destruct (Ext_newline_end_of_line s pre cur next post Hb Hy He)
        as (s1 & E1 & Hb1 & Hy1 & Hx1).
      destruct (Ext_backspace_empty_line s1 pre cur (next :: post))
        as (s2 & E2 & Hb2 & Hy2 & Hx2); [exact Hb1 | lia |].
      exists s1, s2. repeat split; auto; congruence.
    + destruct (@Ext_newline_split s pre cur next post Hb Hy)
        as (s1 & E1 & Hb1 & Hy1 & Hx1); [lia|].
      destruct (@Ext_backspace_join s1 pre
                  (firstn (Z.to_nat (bufcur_x s)) cur)
                  (skipn (Z.to_nat (bufcur_x s)) cur) (next :: post))
        as (s2 & E2 & Hb2 & Hy2 & Hx2); [exact Hb1 | lia | exact Hx1 | |].
      { intros E. apply (f_equal (@List.length _)) in E.
        rewrite length_skipn in E. simpl in E. unfold Py.len in *. lia. }
      exists s1, s2. repeat split; auto; [|congruence].
      rewrite Hb2, firstn_skipn. auto.
Qed.

(** C5. Backspace at the start of a line that is neither empty nor the
    first should join it onto the line before, remove nothing else, and
    put the cursor where that line ended. The extended prototype does
    ([Ext_backspace_join]). The base prototype takes the new column and the
    left part of the buffer from [s.buffer[:s.bufcur_y - 1]]: on "ab", "cd"
    with the cursor at the start of "cd" the line becomes "abcd" but the
    column 0, not 2; on "x", "ab", "cd" with the cursor at the start of "cd"
    the join overwrites "x": the buffer is left with the one line "abcd" and
    the cursor on row 1, below it. *)
Theorem Base_backspace_join_wrong :
  (exists s', Base.backspace ab_cd = Ok s'
     /\ buffer s' = [L "abcd"] /\ bufcur_y s' = 0 /\ bufcur_x s' = 0)
  /\ (exists s', Base.backspace x_ab_cd = Ok s'
        /\ buffer s' = [L "abcd"] /\ bufcur_y s' = 1 /\ bufcur_x s' = 1
        /\ in_bounds s' = false)
  /\ (exists s', Ext.backspace x_ab_cd = Ok s'
        /\ buffer s' = [L "x"; L "abcd"] /\ bufcur_y s' = 1
        /\ bufcur_x s' = 2).
Proof.
  split; [|split]; eexists; (split; [reflexivity|]);
    repeat split; reflexivity.
Qed.

(** ** The document keeps a line *)

Lemma in_bounds_same (s s' : State) :
  buffer s' = buffer s -> bufcur_x s' = bufcur_x s ->
  bufcur_y s' = bufcur_y s -> in_bounds s' = in_bounds s.
Proof. unfold in_bounds. intros -> -> ->. reflexivity. Qed.

Lemma Ext_mainloop_backspace `{Unicode} `{OS} (s : State) (w : world) :
  Ext.mainloop s w 127
  = if cmdmode s
    then Ok (set_cmdbuffer (set_key s 127)
               (Py.slice (cmdbuffer s) None (Some (-1))), w, 0)
    else (s' <- Ext.backspace (set_key s 127) ;; Ok (s', w, 0)).
Proof. reflexivity. Qed.

Lemma Ext_mainloop_delete `{Unicode} `{OS} (s : State) (w : world) :
  Ext.mainloop s w 330
  = (s' <- Ext.delete (set_key s 330) ;; Ok (s', w, 0)).
Proof. reflexivity. Qed.

(** C6. In the extended prototype, from a document with the cursor inside
    it, any sequence of backspace (127) and Del (330) keys runs to its end
    without an exception, and leaves a buffer of at least one line with the
    cursor inside it; the files are not touched. *)
Theorem Ext_backspace_delete_keep_a_line `{Unicode} `{OS}
    (turns : list turn) (s : State) (w : world) :
  in_bounds s = true ->
  Forall (fun t => turn_key t = 127 \/ turn_key t = 330) turns ->
  exists s', Ext.run s w turns = Ok (s', w)
    /\ 1 <= Py.len (buffer s') /\ in_bounds s' = true.
Proof.
  revert s. induction turns as [|[h wd k] turns IH]; intros s Hin Hk.
  - exists s. split; [reflexivity|]. split; [|exact Hin].
    apply in_bounds_nonempty in Hin.
    destruct (buffer s); [congruence | rewrite len_cons].
    pose proof (len_nonneg l). lia.
  - inversion Hk as [|? ? Hk1 Hk2]; subst. simpl in Hk1.
    assert (Hin1 : in_bounds (set_key (store_winsz s h wd) k) = true)
      by (rewrite <- Hin; apply in_bounds_same; destruct s; reflexivity).
    cbn [Ext.run turn_h turn_w turn_key].
    destruct Hk1 as [-> | ->].
    + rewrite Ext_mainloop_backspace.
      destruct (cmdmode (store_winsz s h wd)).
      * cbn [bind]. replace (0 =? 0) with true by reflexivity.
        apply IH; [|exact Hk2]. rewrite <- Hin1.
        apply in_bounds_same; reflexivity.
      * destruct (Ext_backspace_in_bounds _ Hin1) as (s1 & -> & Hin2).
        cbn [bind]. replace (0 =? 0) with true by reflexivity.
        apply IH; assumption.
    + rewrite Ext_mainloop_delete.
      destruct (Ext_delete_in_bounds _ Hin1) as (s1 & -> & Hin2).
      cbn [bind]. replace (0 =? 0) with true by reflexivity.
      apply IH; assumption.
Qed.

Lemma Ext_backspace_delete_keep_a_line_witness :
  exists s', @Ext.run ascii_only no_files ab_blank tt
               (typed [127; 330; 127; 127; 127; 330]) = Ok (s', tt)
    /\ 1 <= Py.len (buffer s') /\ in_bounds s' = true.
Proof.
  apply (@Ext_backspace_delete_keep_a_line ascii_only no_files).
  - reflexivity.
  - repeat (apply Forall_cons; [simpl; auto|]). apply Forall_nil.
Defined.

(** ** Commands *)

(** C7. Every command should leave the cursor on a line of the document.
    Page down tests [s.bufcur_y + s.win_h - 1 <= bufferlen]: with 23 lines
    and 23 rows of text the cursor goes from row 0 to row 23, one past the
    last line. *)
Theorem Ext_page_down_past_last_line `{Unicode} `{OS} (w : world) :
  in_bounds page_of_23 = true
  /\ exists s', Ext.do_cmd page_of_23 w = Ok (s', w, 0)
       /\ Py.len (buffer s') = 23 /\ bufcur_y s' = 23
       /\ in_bounds s' = false.
Proof.
  split; [reflexivity|].
  eexists. split; [reflexivity|]. repeat split; reflexivity.
Qed.

(** The other ways a command of the extended prototype takes the cursor out
    of the document: page up keeps the column of a longer line, "g" takes a
    negative line number, and a vertical move onto a line of blanks counts
    past its end. *)
Example Ext_cursor_out_of_bounds `{Unicode} `{OS} (w : world) :
  (let s := mkState 10 [[]; L "abc"] [] (L "pu") true false 80 2 3 1 0 0 0 3 in
   in_bounds s = true
   /\ exists s', Ext.do_cmd s w = Ok (s', w, 0)
        /\ bufcur_y s' = 0 /\ bufcur_x s' = 3 /\ in_bounds s' = false)
  /\ (let s := mkState 10 [[]] [] (L "g -5") true false 80 24 0 0 0 0 0 3 in
      in_bounds s = true
      /\ exists s', Ext.do_cmd s w = Ok (s', w, 0)
           /\ bufcur_y s' = -5 /\ in_bounds s' = false)
  /\ (let s := mkState 0 [L "abcd"; L "    "] [] [] false false 80 24 4 0 0 0 0 4 in
      in_bounds s = true
      /\ exists s', Ext.move_cursor s Dir_d = Ok s'
           /\ bufcur_y s' = 1 /\ bufcur_x s' = 6 /\ in_bounds s' = false).
Proof.
  repeat split; try reflexivity;
    eexists; (split; [reflexivity|]); repeat split; reflexivity.
Qed.

(** C8. A command whose number cannot be read should be dropped without
    an exception. [int] raises [ValueError], nothing in [do_cmd], [mainloop]
    or [main] catches it, and the test [if cp != None] after it is never
    reached: the commands "u-zz", "tabsz x" and "g x" raise in any state. *)
Theorem do_cmd_unparsable_number_raises `{Unicode} `{OS}
    (s : State) (w : world) :
  Ext.do_cmd (set_cmdbuffer s (L "u-zz")) w = Raise ValueError
  /\ Ext.do_cmd (set_cmdbuffer s (L "tabsz x")) w = Raise ValueError
  /\ Ext.do_cmd (set_cmdbuffer s (L "g x")) w = Raise ValueError
  /\ Base.do_cmd (set_cmdbuffer s (L "u-zz")) w = Raise ValueError
  /\ Base.do_cmd (set_cmdbuffer s (L "tabsz x")) w = Raise ValueError
  /\ Ext.mainloop (set_cmdmode (set_cmdbuffer s (L "u-zz")) true) w 10
     = Raise ValueError.
Proof. repeat split; reflexivity. Qed.

(** A number that can be read is taken: "u-41" types an "A". *)
Example do_cmd_u_41 `{Unicode} `{OS} (w : world) :
  exists s', Ext.do_cmd (set_cmdbuffer (init_State 3) (L "u-41")) w
             = Ok (s', w, 0)
    /\ buffer s' = [L "A"] /\ bufcur_x s' = 1.
Proof. eexists. split; [reflexivity|]. split; reflexivity. Qed.

(** ** The tokenizer on the example of the specification *)

(** The decorated example: the comment is opened once, with code 10, and
    closed once, with code 25; every operator, also the four characters of
    the comment delimiters, is wrapped as a symbol, code 11. *)
Example decor_syntax_example `{Unicode} :
  decor_syntax example_line
  = mark_code 10 ++ mark_code 11 ++ L "/" ++ mark_code CLOSE
    ++ mark_code 11 ++ L "*" ++ mark_code CLOSE
    ++ L " a "
    ++ mark_code 11 ++ L "*" ++ mark_code CLOSE
    ++ mark_code 11 ++ L "/" ++ mark_code CLOSE ++ mark_code CLOSE_EXCL
    ++ L " " ++ mark_code 5 ++ L "int" ++ mark_code CLOSE
    ++ L " x " ++ mark_code 11 ++ L "=" ++ mark_code CLOSE
    ++ L " " ++ mark_code 8 ++ L "1" ++ mark_code CLOSE
    ++ mark_code 11 ++ L ";" ++ mark_code CLOSE.
Proof. vm_compute. reflexivity. Qed.

(** C9, as the specification states it: the coloured spans of the example
    are the comment, the type keyword and the number, with default text
    between them. They are not: the operator and the semicolon are spans of
    the symbol group. *)
Lemma example_spans_not_three :
  ~ (exists sps, @example_spans ascii_only = Some sps
       /\ coloured sps
          = [mkSpan GRP_COMMENT true (L "/* a */");
             mkSpan GRP_TYPE false (L "int");
             mkSpan GRP_NUMERIC false (L "1")]).
Proof.
  intros (sps & E & C). vm_compute in E. injection E as <-.
  vm_compute in C. discriminate C.
Qed.

(** C9, amended. Painting the decorated example gives, in order: one
    exclusive span of the comment group over the whole comment (the symbol
    markers inside it change nothing), a default blank, the type keyword
    "int", the default text " x ", the operator as a symbol span, a default
    blank, the number "1", and the semicolon as a symbol span. *)
Theorem example_spans_exact `{Unicode} :
  example_spans
  = Some [mkSpan GRP_COMMENT true (L "/* a */");
          mkSpan 0 false (L " ");
          mkSpan GRP_TYPE false (L "int");
          mkSpan 0 false (L " x ");
          mkSpan GRP_SYMBOL false (L "=");
          mkSpan 0 false (L " ");
          mkSpan GRP_NUMERIC false (L "1");
          mkSpan GRP_SYMBOL false (L ";")].
Proof. vm_compute. reflexivity. Qed.

(** ** Every match the matcher finds is in [Match] *)
Section Matches.
Context `{Unicode}.

Lemma star_loop_sound (r : regex) (k : mstate -> option mstate)
    (res : mstate) :
  (forall st k' res',
      mt r st k' = Some res' ->
      exists st', Match r st st' /\ k' st' = Some res') ->
  forall n st,
    star_loop (mt r) k n st = Some res ->
    exists st', Match (Star r) st st' /\ k st' = Some res.
Proof.
  intros IHr. induction n as [|n IHn]; intros st E; simpl in E.
  - exists st. split; [apply M_Star_0 | exact E].
  - destruct (mt r st _) as [x|] eqn:Eb.
    + injection E as ->. apply IHr in Eb. destruct Eb as (st1 & M1 & E1).
      destruct (Nat.ltb _ _); [|discriminate].
      apply IHn in E1. destruct E1 as (st2 & M2 & E2).
      exists st2. split; [eapply M_Star_S; eassumption | exact E2].
    + exists st. split; [apply M_Star_0 | exact E].
Qed.

(** Every match the matcher finds is in the relation. *)
Lemma mt_sound (r : regex) :
  forall st k res,
    mt r st k = Some res ->
    exists st', Match r st st' /\ k st' = Some res.
Proof.
  induction r as [|cs|r1 IH1 r2 IH2|r1 IH1 r2 IH2|r IH|r IH|n r IH| |r IH|r IH];
    intros st k res E; simpl in E.
  - exists st. split; [constructor | exact E].
  - destruct st as [bef [|c tl] cps]; simpl in E; [discriminate|].
    destruct (cset_mem cs c) eqn:Ec; [|discriminate].
    eexists. split; [constructor; exact Ec | exact E].
  - apply IH1 in E. destruct E as (st1 & M1 & E).
    apply IH2 in E. destruct E as (st2 & M2 & E).
    exists st2. split; [econstructor; eassumption | exact E].
  - destruct (mt r1 st k) as [x|] eqn:E1.
    + injection E as ->. apply IH1 in E1. destruct E1 as (st1 & M1 & E1).
      exists st1. split; [apply M_Alt_l, M1 | exact E1].
    + apply IH2 in E. destruct E as (st1 & M1 & E).
      exists st1. split; [apply M_Alt_r, M1 | exact E].
  - eapply star_loop_sound; eassumption.
  - destruct (mt r st k) as [x|] eqn:E1.
    + injection E as ->. apply IH in E1. destruct E1 as (st1 & M1 & E1).
      exists st1. split; [apply M_Opt_1, M1 | exact E1].
    + exists st. split; [apply M_Opt_0 | exact E].
  - apply IH in E. destruct E as (st1 & M1 & E).
    eexists. split; [constructor; exact M1 | exact E].
  - destruct (at_boundary st); [|discriminate].
    exists st. split; [constructor | exact E].
  - destruct (mt r st _) as [st1|] eqn:E1; [|discriminate].
    apply IH in E1. destruct E1 as (st1' & M1 & E1). injection E1 as ->.
    eexists. split; [constructor; exact M1 | exact E].
  - destruct (mt r st _); [discriminate|].
    exists st. split; [constructor | exact E].
Qed.

(** A match reads a piece of the text after the position, and leaves it
    before the new position. *)
Lemma Match_span (r : regex) (st st' : mstate) :
  Match r st st' ->
  exists m, after st = m ++ after st' /\ before st' = rev m ++ before st.
Proof.
  induction 1 as
    [st|cs c tl bef cps Hc|r1 r2 st st1 st2 _ IH1 _ IH2
     |r1 r2 st st1 _ IH|r1 r2 st st1 _ IH|r st
     |r st st1 st2 _ IH1 _ IH2|r st st1 _ IH|r st|n r st st1 _ IH|st
     |r st st1 _ IH|r st]; simpl;
    try (exists []; split; reflexivity); try exact IH.
  - exists [c]. split; reflexivity.
  - destruct IH1 as (m1 & A1 & B1), IH2 as (m2 & A2 & B2).
    exists (m1 ++ m2). rewrite A1, A2, B2, B1, rev_app_distr, !app_assoc.
    split; reflexivity.
  - destruct IH1 as (m1 & A1 & B1), IH2 as (m2 & A2 & B2).
    exists (m1 ++ m2). rewrite A1, A2, B2, B1, rev_app_distr, !app_assoc.
    split; reflexivity.
Qed.

Lemma consumed_app (st st' : mstate) (m : str) :
  after st = m ++ after st' -> consumed st st' = m.
Proof.
  intros E. unfold consumed. rewrite E, length_app.
  replace (List.length m + List.length (after st')
           - List.length (after st'))%nat with (List.length m) by lia.
  rewrite firstn_app, Nat.sub_diag, firstn_O, firstn_all, app_nil_r.
  reflexivity.
Qed.

(** ** Expressions that read printable characters only *)

Lemma cset_printable_sound (cs : cset) (c : char) :
  cset_printable cs = true -> cset_mem cs c = true -> printable c = true.
Proof.
  destruct cs as [d|l|l| |]; simpl; try discriminate.
  - intros Hd E. apply N.eqb_eq in E. subst. exact Hd.
  - intros Hl E. unfold in_ranges in E. apply existsb_exists in E.
    destruct E as ([lo hi] & Hin & E).
    rewrite forallb_forall in Hl. specialize (Hl _ Hin). simpl in Hl.
    unfold printable in *. apply andb_true_iff in E. destruct E as [E _].
    apply N.leb_le in Hl, E. apply N.leb_le. lia.
Qed.

Lemma Match_printable (r : regex) (st st' : mstate) :
  Match r st st' -> reads_printable r = true ->
  exists m, after st = m ++ after st'
            /\ Forall (fun c => printable c = true) m.
Proof.
  induction 1 as
    [st|cs c tl bef cps Hc|r1 r2 st st1 st2 _ IH1 _ IH2
     |r1 r2 st st1 _ IH|r1 r2 st st1 _ IH|r st
     |r st st1 st2 _ IH1 _ IH2|r st st1 _ IH|r st|n r st st1 _ IH|st
     |r st st1 _ IH|r st]; simpl; intros P;
    try (exists []; split; [reflexivity | constructor]);
    try (apply andb_true_iff in P; destruct P as [P1 P2]);
    try (apply IH; assumption).
  - exists [c]. split; [reflexivity|].
    constructor; [eapply cset_printable_sound; eassumption | constructor].
  - destruct (IH1 P1) as (m1 & A1 & F1), (IH2 P2) as (m2 & A2 & F2).
    exists (m1 ++ m2). rewrite A1, A2, app_assoc.
    split; [reflexivity | apply Forall_app; split; assumption].
  - destruct (IH1 P) as (m1 & A1 & F1), (IH2 P) as (m2 & A2 & F2).
    exists (m1 ++ m2). rewrite A1, A2, app_assoc.
    split; [reflexivity | apply Forall_app; split; assumption].
Qed.

Lemma Match_length (r : regex) (st st' : mstate) :
  Match r st st' ->
  (List.length (after st') <= List.length (after st))%nat.
Proof.
  intros M. destruct (Match_span M) as (m & -> & _).
  rewrite length_app. lia.
Qed.

Lemma Match_nonnull (r : regex) (st st' : mstate) :
  Match r st st' -> nonnull r = true ->
  (List.length (after st') < List.length (after st))%nat.
Proof.
  induction 1 as
    [st|cs c tl bef cps Hc|r1 r2 st st1 st2 M1 IH1 M2 IH2
     |r1 r2 st st1 _ IH|r1 r2 st st1 _ IH|r st
     |r st st1 st2 _ IH1 _ IH2|r st st1 _ IH|r st|n r st st1 _ IH|st
     |r st st1 _ IH|r st]; simpl; intros P; try discriminate.
  - lia.
  - apply Match_length in M1 as L1. apply Match_length in M2 as L2.
    apply orb_true_iff in P. destruct P as [P|P];
      [specialize (IH1 P) | specialize (IH2 P)]; lia.
  - apply andb_true_iff in P. apply IH, P.
  - apply andb_true_iff in P. apply IH, P.
  - apply IH, P.
Qed.

End Matches.

(** ** Marked text *)

(** Induction two characters at a time. *)
Lemma str_ind2 (P : str -> Prop) :
  P [] -> (forall c, P [c]) ->
  (forall c d l, P l -> P (d :: l) -> P (c :: d :: l)) ->
  forall l, P l.
Proof.
  intros H0 H1 H2 l. enough (P l /\ forall c, P (c :: l)) by tauto.
  induction l as [|d l [IHa IHb]]; split; auto.
Qed.

Lemma printable_not_mark (c : char) : printable c = true -> N.eqb c MARK = false.
Proof.
  unfold printable, MARK. intros Hc. apply N.leb_le in Hc.
  apply N.eqb_neq. lia.
Qed.

Lemma wfm_app (a b : str) :
  wfm a = true ->
  wfm (a ++ b) = wfm b /\ strip_markers (a ++ b) = strip_markers a ++ strip_markers b.
Proof.
  induction a as [| c | c d a IHa IHda] using str_ind2; intros W.
  - split; reflexivity.
  - simpl in *. destruct (N.eqb c MARK); [discriminate|]. split; reflexivity.
  - cbn [wfm strip_markers app] in *. destruct (N.eqb c MARK).
    + apply andb_true_iff in W. destruct W as [Wd W].
      rewrite Wd. destruct (IHa W) as [-> ->]. split; reflexivity.
    + destruct (IHda W) as [E1 E2]. cbn [wfm strip_markers app] in E1, E2.
      rewrite E1, E2. split; reflexivity.
Qed.

(** In a well-formed text, the text before a printable character is well
    formed: a printable character is not a code. *)
Lemma wfm_before_printable (a : str) (c : char) (b : str) :
  wfm (a ++ c :: b) = true -> printable c = true -> wfm a = true.
Proof.
  intros W Pc. revert W.
  induction a as [| x | x d a IHa IHda] using str_ind2; intros W.
  - reflexivity.
  - cbn [wfm app] in *. destruct (N.eqb x MARK); [|reflexivity].
    rewrite Pc in W. discriminate.
  - cbn [wfm app] in *. destruct (N.eqb x MARK).
    + apply andb_true_iff in W. destruct W as [Wd W].
      rewrite Wd. apply IHa, W.
    + apply IHda, W.
Qed.

Lemma wfm_printable (m : str) :
  Forall (fun c => printable c = true) m ->
  wfm m = true /\ strip_markers m = m.
Proof.
  induction 1 as [|c m Hc _ [IH1 IH2]]; [split; reflexivity|].
  cbn [wfm strip_markers]. rewrite (printable_not_mark _ Hc), IH1, IH2.
  split; reflexivity.
Qed.

(** A text without the marker is well formed and has nothing to remove. *)
Lemma wfm_no_mark (text : str) :
  ~ In MARK text -> wfm text = true /\ strip_markers text = text.
Proof.
  induction text as [|c text IH]; intros Hn; [split; reflexivity|].
  cbn [wfm strip_markers].
  destruct (N.eqb_spec c MARK) as [->|_]; [exfalso; apply Hn; left; reflexivity|].
  destruct IH as [-> ->]; [intros Hi; apply Hn; right; exact Hi|].
  split; reflexivity.
Qed.

(** The marker with a code is well formed and is removed whole. *)
Lemma wfm_pair (code : char) (text : str) :
  printable code = false ->
  wfm (MARK :: code :: text) = wfm text
  /\ strip_markers (MARK :: code :: text) = strip_markers text.
Proof.
  intros Hc. cbn [wfm strip_markers]. rewrite N.eqb_refl, Hc.
  split; reflexivity.
Qed.

(** ** A pass of the tokenizer keeps the text *)

Section Passes.
Context `{Unicode}.

Lemma sub_loop_strip (r : regex) (tpl : list titem) :
  safe_pass r tpl ->
  forall fuel ma bef aft,
    (2 * List.length aft + (if ma : bool then 0 else 1) < fuel)%nat ->
    let out := sub_loop r tpl fuel ma bef aft in
    (wfm aft = true ->
     wfm out = true /\ strip_markers out = strip_markers aft)
    /\ (forall d tl,
           aft = d :: tl -> printable d = false -> wfm tl = true ->
           exists rest, out = d :: rest /\ wfm rest = true
                        /\ strip_markers rest = strip_markers tl).
Proof.
  intros Hsafe. induction fuel as [|fuel IH]; intros ma bef aft Hfuel;
    [lia|].
  cbn [sub_loop].
  destruct (mt r (mkM bef aft []) _) as [st1|] eqn:E.
  - apply mt_sound in E. destruct E as (st' & M & E).
    destruct (_ && _)%bool; [discriminate|]. injection E as ->.
    destruct (Hsafe _ _ _ M) as (c & m & Ha & Pc & Hw).
    assert (Hlen : List.length aft
                   = S (List.length m + List.length (after st1)))
      by (rewrite Ha; simpl; rewrite length_app; reflexivity).
    replace (Nat.eqb (List.length (after st1)) (List.length aft)) with false
      by (symmetry; apply Nat.eqb_neq; lia).
    destruct (IH false (before st1) (after st1)) as [IH1 _];
      [destruct ma; lia|].
    split.
    + intros W. destruct (Hw W) as (Wm & We & Se).
      destruct (wfm_app (c :: m) (after st1) Wm) as [W1 S1].
      rewrite <- Ha in W1, S1. rewrite W in W1.
      destruct (IH1 (eq_sym W1)) as [W2 S2].
      destruct (wfm_app _ (sub_loop r tpl fuel false (before st1)
                             (after st1)) We) as [W3 S3].
      rewrite W3, S3, W2, S2, Se, S1. split; reflexivity.
    + intros d tl Hd Pd _. rewrite Ha in Hd. injection Hd as -> _.
      rewrite Pc in Pd. discriminate.
  - destruct aft as [|c tl].
    + split; [intros _; split; reflexivity | intros d tl Hd; discriminate].
    + destruct (IH false (c :: bef) tl) as [IH1 IH2];
        [simpl in Hfuel; destruct ma; lia|].
      split.
      * intros W. cbn [wfm strip_markers] in *.
        destruct (N.eqb c MARK).
        -- destruct tl as [|d tl']; [discriminate|].
           apply andb_true_iff in W. destruct W as [Pd W].
           apply negb_true_iff in Pd.
           destruct (IH2 d tl' eq_refl Pd W) as (rest & -> & Wr & Sr).
           rewrite Pd, Wr, Sr. split; reflexivity.
        -- destruct (IH1 W) as [-> ->]. split; reflexivity.
      * intros d tl0 Hd Pd W. injection Hd as -> ->.
        destruct (IH1 W) as [W1 S1].
        eexists. split; [reflexivity|]. split; assumption.
Qed.

Lemma sub_strip (r : regex) (tpl : list titem) (text : str) :
  safe_pass r tpl -> wfm text = true ->
  wfm (Re.sub r tpl text) = true
  /\ strip_markers (Re.sub r tpl text) = strip_markers text.
Proof.
  intros Hs W. unfold Re.sub.
  destruct (@sub_loop_strip r tpl Hs (2 * List.length text + 2)%nat
              false [] text) as [H1 _]; [lia|].
  apply H1, W.
Qed.

(** ** The passes that wrap a match *)

Lemma Match_caps (n : nat) (r : regex) (st st' : mstate) :
  Match r st st' -> sets_group n r = false ->
  cap (caps st') n = cap (caps st) n.
Proof.
  induction 1 as
    [st|cs c tl bef cps Hc|r1 r2 st st1 st2 _ IH1 _ IH2
     |r1 r2 st st1 _ IH|r1 r2 st st1 _ IH|r st
     |r st st1 st2 _ IH1 _ IH2|r st st1 _ IH|r st|k r st st1 _ IH|st
     |r st st1 _ IH|r st]; simpl; intros P; try reflexivity;
    try (apply orb_false_iff in P; destruct P as [P1 P2]).
  - rewrite IH2, IH1 by assumption. reflexivity.
  - apply IH, P1.
  - apply IH, P2.
  - rewrite IH2, IH1 by assumption. reflexivity.
  - apply IH, P.
  - rewrite P1. apply IH, P2.
  - apply IH, P.
Qed.

Ltac inv H := inversion H; subst; clear H.

Lemma formed_match (f : form) (b : regex) (st st' : mstate) :
  Match (formed f b) st st' ->
  exists st1, Match b st st1 /\ st' = set_cap 1 (consumed st st1) st1.
Proof.
  destruct f; simpl; intros M.
  - inv M. eauto.
  - inv M.
    match goal with M : Match WordB _ _ |- _ => inv M end.
    match goal with M : Match (Seq _ _) _ _ |- _ => inv M end.
    match goal with M : Match WordB _ _ |- _ => inv M end.
    match goal with M : Match (Grp _ _) _ _ |- _ => inv M end.
    eauto.
  - inv M.
    match goal with M : Match WordB _ _ |- _ => inv M end.
    match goal with M : Match (Grp _ _) _ _ |- _ => inv M end.
    eauto.
Qed.

Lemma safe_formed (f : form) (b : regex) (tpl : list titem) (p q : str) :
  reads_printable b = true -> nonnull b = true ->
  wraps tpl p q ->
  wfm p = true -> strip_markers p = [] ->
  wfm q = true -> strip_markers q = [] ->
  safe_pass (formed f b) tpl.
Proof.
  intros Pb Nb Ht Wp Sp Wq Sq bef aft st' M.
  apply formed_match in M. destruct M as (st1 & M & ->).
  destruct (Match_printable M Pb) as (m & Ha & Fm).
  apply Match_nonnull in M as Hl; [|exact Nb].
  cbn [after caps set_cap] in *.
  rewrite (@consumed_app (mkM bef aft []) st1 m Ha).
  destruct m as [|c m]; [rewrite Ha in Hl; simpl in Hl; lia|].
  exists c, m. split; [exact Ha|].
  split; [inversion Fm; assumption|].
  intros _. destruct (wfm_printable Fm) as [Wm Sm].
  rewrite (Ht _ (c :: m)) by (simpl; reflexivity).
  destruct (wfm_app p ((c :: m) ++ q) Wp) as [-> ->].
  destruct (wfm_app (c :: m) q Wm) as [-> ->].
  rewrite Sp, Sq, app_nil_r. auto.
Qed.

(** ** The passes of the string and character literals *)

Lemma consumed_mk (b1 b2 m rest : str) (c1 c2 : list (nat * str)) :
  consumed (mkM b1 (m ++ rest) c1) (mkM b2 rest c2) = m.
Proof. apply consumed_app. reflexivity. Qed.

Lemma consumed_one (b1 b2 rest : str) (c : char) (c1 c2 : list (nat * str)) :
  consumed (mkM b1 (c :: rest) c1) (mkM b2 rest c2) = [c].
Proof. apply (consumed_mk b1 b2 [c]). Qed.

Lemma quoted_match (x : regex) (q : char) (body : regex) (last : nat)
    (st st' : mstate) :
  sets_group 1 body = false -> last <> 1%nat -> last <> 2%nat ->
  Match (quoted x q body last) st st' ->
  exists m,
    after st = (q :: m ++ [q]) ++ after st'
    /\ cap (caps st') 1 = Some [q]
    /\ cap (caps st') 2 = Some m
    /\ cap (caps st') last = Some [q].
Proof.
  intros Hb H1 H2 M. unfold quoted in M.
  inv M.
  match goal with M : Match (NotAhead _) _ _ |- _ => inv M end.
  match goal with M : Match (Seq _ _) _ _ |- _ => inv M end.
  match goal with M : Match (Grp 1 _) _ _ |- _ => inv M end.
  match goal with M : Match (One _) _ _ |- _ => inv M end.
  match goal with M : Match (Seq _ _) _ _ |- _ => inv M end.
  match goal with M : Match (Grp 2 _) _ _ |- _ => inv M end.
  match goal with M : Match (Grp last _) _ _ |- _ => inv M end.
  match goal with M : Match (One _) _ _ |- _ => inv M end.
  match goal with M : Match body _ _ |- _ =>
    pose proof (Match_span M) as (m & Ha & _);
    pose proof (Match_caps 1 M Hb) as Hc
  end.
  repeat match goal with
         | E : cset_mem (Lit _) _ = true |- _ =>
             simpl in E; apply N.eqb_eq in E; subst
         end.
  match goal with M : Match body _ ?s |- _ => destruct s as [b1 a1 c1] end.
  unfold set_cap in *. cbn [after caps before] in *. subst.
  rewrite ?consumed_one, ?consumed_mk in *.
  exists m. cbn [cap Nat.eqb]. rewrite Hc, Nat.eqb_refl.
  destruct (Nat.eqb_spec last 1); [lia|].
  destruct (Nat.eqb_spec last 2); [lia|].
  cbn [app]. rewrite <- app_assoc. repeat split; reflexivity.
Qed.

Lemma safe_quoted (x : regex) (q : char) (body : regex) (last : nat) :
  printable q = true -> sets_group 1 body = false ->
  last = 3%nat \/ last = 4%nat ->
  safe_pass (quoted x q body last) (wrap_quoted last).
Proof.
  intros Pq Hb Hl bef aft st1 M.
  apply quoted_match in M; [|exact Hb|lia|lia].
  destruct M as (m & Ha & C1 & C2 & C3).
  cbn [after] in Ha.
  exists q, (m ++ [q]). split; [exact Ha|]. split; [exact Pq|].
  intros W.
  pose proof (printable_not_mark _ Pq) as Nq.
  assert (Wm : wfm m = true).
  { rewrite Ha in W. cbn [wfm app] in W. rewrite Nq, <- app_assoc in W.
    eapply wfm_before_printable; eassumption. }
  destruct (wfm_app m [q] Wm) as [W1 S1].
  assert (Wq : wfm [q] = true) by (cbn [wfm]; rewrite Nq; reflexivity).
  assert (Sq : strip_markers [q] = [q])
    by (cbn [strip_markers]; rewrite Nq; reflexivity).
  split; [cbn [wfm]; rewrite Nq, W1; exact Wq|].
  unfold wrap_quoted, expand. cbn [flat_map]. rewrite C1, C2, C3.
  cbn [app].
  assert (Hp : forall code rest,
             printable code = false ->
             wfm (MARK :: code :: rest) = wfm rest
             /\ strip_markers (MARK :: code :: rest) = strip_markers rest)
    by (intros; apply wfm_pair; assumption).
  repeat match goal with
         | |- context [wfm (MARK :: ?code :: ?rest)] =>
             destruct (Hp code rest eq_refl) as [-> ->]
         end.
  cbn [wfm strip_markers]. rewrite Nq.
  repeat match goal with
         | |- context [wfm (MARK :: ?code :: ?rest)] =>
             destruct (Hp code rest eq_refl) as [-> ->]
         end.
  match goal with
  | |- context [wfm (m ++ ?rest)] =>
      destruct (wfm_app m rest Wm) as [-> ->]
  end.
  repeat match goal with
         | |- context [wfm (MARK :: ?code :: ?rest)] =>
             destruct (Hp code rest eq_refl) as [-> ->]
         end.
  cbn [wfm strip_markers]. rewrite Nq.
  repeat match goal with
         | |- context [wfm (MARK :: ?code :: ?rest)] =>
             destruct (Hp code rest eq_refl) as [-> ->]
         end.
  rewrite S1, Sq. split; reflexivity.
Qed.

(** ** The ten passes *)

Lemma wraps_both (code : char) : wraps (wrap code) [MARK; code] [MARK; CLOSE].
Proof. intros cs m E. unfold wrap, expand. simpl. rewrite E. reflexivity. Qed.

Lemma wraps_before (code : char) :
  wraps [TLit [MARK; code]; TRef 1] [MARK; code] [].
Proof.
  intros cs m E. unfold expand. simpl. rewrite E, !app_nil_r. reflexivity.
Qed.

Lemma wraps_after (code : char) :
  wraps [TRef 1; TLit [MARK; code]] [] [MARK; code].
Proof. intros cs m E. unfold expand. simpl. rewrite E. reflexivity. Qed.

Lemma passes_safe : Forall (fun p => safe_pass (fst p) (snd p)) passes.
Proof.
  unfold passes.
  repeat match goal with
         | |- Forall _ (_ :: _) => apply Forall_cons
         | |- Forall _ [] => apply Forall_nil
         end; cbn [fst snd].
  - apply (@safe_formed Bare (word "/*") _ _ _ eq_refl eq_refl
             (wraps_before 10)); reflexivity.
  - apply (@safe_formed Bare (word "*/") _ _ _ eq_refl eq_refl
             (wraps_after CLOSE_EXCL)); reflexivity.
  - apply (@safe_quoted _ 34%N _ 4); [reflexivity | reflexivity | auto].
  - apply (@safe_quoted _ 39%N _ 3); [reflexivity | reflexivity | auto].
  - eapply (@safe_formed Bare _ _ _ _ _ _ (wraps_both 11)); reflexivity.
  - eapply (@safe_formed Bounded _ _ _ _ _ _ (wraps_both 8)); reflexivity.
  - eapply (@safe_formed Bounded _ _ _ _ _ _ (wraps_both 3)); reflexivity.
  - eapply (@safe_formed Bounded _ _ _ _ _ _ (wraps_both 5)); reflexivity.
  - eapply (@safe_formed Bare _ _ _ _ _ _ (wraps_both 9)); reflexivity.
  - eapply (@safe_formed LeftBounded _ _ _ _ _ _ (wraps_both 4)); reflexivity.
  Unshelve. all: reflexivity.
Qed.

(** No expression of the tokenizer matches the empty string, so that the
    way [sub] goes on after an empty match never matters. *)
Lemma passes_nonempty (r : regex) (tpl : list titem) (bef aft : str)
    (st1 : mstate) :
  In (r, tpl) passes ->
  Match r (mkM bef aft []) st1 ->
  (List.length (after st1) < List.length aft)%nat.
Proof.
  intros Hin M. pose proof passes_safe as Hs.
  rewrite Forall_forall in Hs. specialize (Hs _ Hin). cbn [fst snd] in Hs.
  destruct (Hs _ _ _ M) as (c & m & -> & _).
  simpl. rewrite length_app. lia.
Qed.

End Passes.

Lemma has_mark_false (line : str) : has_mark line = false -> ~ In MARK line.
Proof.
  unfold has_mark. intros E Hin.
  assert (existsb (N.eqb MARK) line = true)
    by (apply existsb_exists; exists MARK; split; [exact Hin | apply N.eqb_refl]).
  congruence.
Qed.

Lemma fold_passes_strip `{Unicode} (ps : list (regex * list titem)) :
  Forall (fun p => safe_pass (fst p) (snd p)) ps ->
  forall text,
    wfm text = true ->
    wfm (fold_left (fun t '(r, tpl) => Re.sub r tpl t) ps text) = true
    /\ strip_markers (fold_left (fun t '(r, tpl) => Re.sub r tpl t) ps text)
       = strip_markers text.
Proof.
  induction 1 as [|[r tpl] ps Hp _ IH]; intros text W; cbn [fold_left].
  - split; [exact W | reflexivity].
  - cbn [fst snd] in Hp. destruct (sub_strip text Hp W) as [W1 S1].
    destruct (IH _ W1) as [W2 S2]. split; [exact W2|].
    rewrite S2. exact S1.
Qed.

(** C10. On a line without the marker byte, removing from the decorated
    line every marker together with the code that follows it gives the line
    back: the tokenizer only puts markers with their codes between the
    characters of the line. *)
Theorem decor_syntax_strip `{Unicode} (line : str) :
  has_mark line = false ->
  strip_markers (decor_syntax line) = line.
Proof.
  intros Hm. apply has_mark_false, wfm_no_mark in Hm. destruct Hm as [W S].
  destruct (fold_passes_strip passes_safe line W) as [_ E].
  unfold decor_syntax. rewrite E. exact S.
Qed.

Lemma decor_syntax_strip_witness :
  strip_markers (@decor_syntax ascii_only example_line) = example_line.
Proof. apply (@decor_syntax_strip ascii_only). reflexivity. Defined.

(** The decorated line is well formed: every marker has its code. *)
Lemma decor_syntax_wfm `{Unicode} (line : str) :
  has_mark line = false -> wfm (decor_syntax line) = true.
Proof.
  intros Hm. apply has_mark_false, wfm_no_mark in Hm. destruct Hm as [W S].
  destruct (fold_passes_strip passes_safe line W) as [E _]. exact E.
Qed.

(** ** What the renderer writes *)





(** * More of the editor *)

(** ** Typing a character *)

(** What [ins_chr] returns when the cursor is inside the document and the
    key is a code point: the character goes into the line at the cursor, the
    cursor moves one column right, and the window follows when the cursor is
    more than 79 columns from its left edge. *)
Lemma ins_chr_at (s : State) (pre : list str) (cur : str) (post : list str) :
  buffer s = pre ++ cur :: post ->
  bufcur_y s = Py.len pre ->
  0 <= bufcur_x s <= Py.len cur ->
  0 <= key s < 1114112 ->
  ins_chr s
  = Ok (let s1 :=
          set_bufcur_x
            (set_buffer s
               (pre ++ (firstn (Z.to_nat (bufcur_x s)) cur
                        ++ Z.to_N (key s)
                           :: skipn (Z.to_nat (bufcur_x s)) cur) :: post))
            (bufcur_x s + 1) in
        if bufcur_x s + 1 - bufofs_x s >? 79
        then set_bufofs_x s1 (bufofs_x s + 1) else s1).
Proof.
  intros Hb Hy Hx Hk.
  destruct s as [k b opf cb cm nm ww wh bx cy sx ox oy ts];
    st_simpl; subst.
  pose proof (len_nonneg pre).
  unfold ins_chr; st_simpl.
  rewrite (@get_eq _ _ pre cur post) by at_solve. st_simpl.
  unfold Py.chr.
  replace ((0 <=? k) && (k <? 1114112))%bool with true
    by (symmetry; apply andb_true_iff; split;
        [apply Z.leb_le | apply Z.ltb_lt]; lia).
  st_simpl.
  destruct (Z.eqb_spec bx (Py.len cur)) as [He|Hne].
  - rewrite (@set_eq _ _ pre cur post) by at_solve. st_simpl.
    subst bx. unfold Py.len. rewrite Nat2Z.id, firstn_all, skipn_all.
    reflexivity.
  - rewrite (@set_eq _ _ pre cur post) by at_solve. st_simpl.
    rewrite slice_to, slice_from by lia. reflexivity.
Qed.

Lemma cut_insert_before (cur : str) (x : Z) (c : char) :
  0 <= x <= Py.len cur ->
  firstn (Z.to_nat (x + 1 - 1))
         (firstn (Z.to_nat x) cur ++ c :: skipn (Z.to_nat x) cur)
  ++ skipn (Z.to_nat (x + 1))
           (firstn (Z.to_nat x) cur ++ c :: skipn (Z.to_nat x) cur)
  = cur.
Proof.
  intros Hx. replace (x + 1 - 1) with x by lia.
  assert (Hl : List.length (firstn (Z.to_nat x) cur) = Z.to_nat x)
    by (rewrite length_firstn; unfold Py.len in Hx; lia).
  rewrite firstn_app, Hl, Nat.sub_diag, firstn_O, app_nil_r.
  rewrite firstn_all2 by lia.
  rewrite skipn_app, Hl.
  replace (Z.to_nat (x + 1) - Z.to_nat x)%nat with 1%nat by lia.
  rewrite skipn_all2 by lia. simpl. apply firstn_skipn.
Qed.

Lemma len_insert (cur : str) (x : Z) (c : char) :
  0 <= x <= Py.len cur ->
  Py.len (firstn (Z.to_nat x) cur ++ c :: skipn (Z.to_nat x) cur)
  = Py.len cur + 1.
Proof.
  intros Hx. unfold Py.len in *.
  rewrite length_app, length_firstn. simpl List.length.
  rewrite length_skipn. lia.
Qed.

(** X1. With the cursor inside the document and a key that is a code point,
    [ins_chr] puts the character into the line at the cursor, leaves every
    other line as it is, moves the cursor one column right and keeps it
    inside the document. *)
Theorem ins_chr_inserts (s : State) (pre : list str) (cur : str)
    (post : list str) :
  buffer s = pre ++ cur :: post ->
  bufcur_y s = Py.len pre ->
  0 <= bufcur_x s <= Py.len cur ->
  0 <= key s < 1114112 ->
  exists s', ins_chr s = Ok s'
    /\ buffer s' = pre ++ (firstn (Z.to_nat (bufcur_x s)) cur
                           ++ Z.to_N (key s)
                              :: skipn (Z.to_nat (bufcur_x s)) cur) :: post
    /\ bufcur_y s' = bufcur_y s /\ bufcur_x s' = bufcur_x s + 1
    /\ in_bounds s' = true.
Proof.
  intros Hb Hy Hx Hk. rewrite (ins_chr_at s pre cur post Hb Hy Hx Hk).
  eexists. split; [reflexivity|].
  assert (Hl := len_insert cur (Z.to_N (key s)) Hx).
  destruct (bufcur_x s + 1 - bufofs_x s >? 79); st_simpl;
    (repeat split; auto;
     apply in_bounds_at; eexists pre, _, post; st_simpl;
     repeat split; auto; try lia;
     (eapply Z.le_trans; [|apply Z.eq_le_incl; symmetry; exact Hl]); lia).
Qed.

Lemma ins_chr_inserts_witness :
  exists s', ins_chr (mkState 120 [L "ab"; L "cd"] [] [] false false
                        80 24 1 1 0 0 0 3) = Ok s'
    /\ buffer s' = [L "ab"] ++ (firstn (Z.to_nat 1) (L "cd")
                                ++ Z.to_N 120 :: skipn (Z.to_nat 1) (L "cd"))
                               :: []
    /\ bufcur_y s' = 1 /\ bufcur_x s' = 1 + 1
    /\ in_bounds s' = true.
Proof.
  apply (@ins_chr_inserts
           (mkState 120 [L "ab"; L "cd"] [] [] false false 80 24 1 1 0 0 0 3)
           [L "ab"] (L "cd") []);
    [reflexivity | reflexivity | vm_compute; split; discriminate
    | vm_compute; split; [discriminate | reflexivity]].
Defined.

(** ** Typing a text *)

Lemma plain_key_spec (k : Z) :
  plain_key k = true ->
  0 <= k < 256 /\ k <> 9 /\ k <> 10 /\ k <> 27 /\ k <> 127.
Proof.
  unfold plain_key. rewrite !andb_true_iff, !negb_true_iff.
  rewrite Z.leb_le, Z.ltb_lt, !Z.eqb_neq. tauto.
Qed.

Lemma Ext_mainloop_plain `{Unicode} `{OS} (s : State) (w : world) (k : Z) :
  cmdmode s = false -> plain_key k = true ->
  Ext.mainloop s w k = (s' <- ins_chr (set_key s k) ;; Ok (s', w, 0)).
Proof.
  intros Hc Hk. apply plain_key_spec in Hk.
  unfold Ext.mainloop. st_simpl. rewrite Hc.
  unfold ERR, KEY_UP, KEY_DOWN, KEY_LEFT, KEY_RIGHT. ztest. reflexivity.
Qed.

Lemma firstn_insert (cur rest : str) (x : Z) (c : char) :
  0 <= x <= Py.len cur ->
  firstn (Z.to_nat (x + 1))
         (firstn (Z.to_nat x) cur ++ c :: skipn (Z.to_nat x) cur)
  ++ rest
  ++ skipn (Z.to_nat (x + 1))
           (firstn (Z.to_nat x) cur ++ c :: skipn (Z.to_nat x) cur)
  = firstn (Z.to_nat x) cur ++ (c :: rest) ++ skipn (Z.to_nat x) cur.
Proof.
  intros Hx.
  assert (Hl : List.length (firstn (Z.to_nat x) cur) = Z.to_nat x)
    by (rewrite length_firstn; unfold Py.len in Hx; lia).
  rewrite firstn_app, skipn_app, Hl.
  replace (Z.to_nat (x + 1) - Z.to_nat x)%nat with 1%nat by lia.
  rewrite (@firstn_all2 _ (Z.to_nat (x + 1)) (firstn (Z.to_nat x) cur))
    by (rewrite Hl; lia).
  rewrite (@skipn_all2 _ (Z.to_nat (x + 1)) (firstn (Z.to_nat x) cur))
    by (rewrite Hl; lia).
  simpl. rewrite <- app_assoc. reflexivity.
Qed.

(** X2. In the extended prototype, outside command mode and with the
    cursor inside the document, typing plain keys inserts their characters,
    in order, into the line at the cursor: every other line stays as it is,
    the cursor ends after the inserted text, and nothing raises. *)
Theorem Ext_typing_inserts_text `{Unicode} `{OS} (turns : list turn) :
  forall (s : State) (w : world) (pre : list str) (cur : str)
         (post : list str),
    cmdmode s = false ->
    buffer s = pre ++ cur :: post ->
    bufcur_y s = Py.len pre ->
    0 <= bufcur_x s <= Py.len cur ->
    Forall (fun t => plain_key (turn_key t) = true) turns ->
    exists s', Ext.run s w turns = Ok (s', w)
      /\ buffer s'
         = pre ++ (firstn (Z.to_nat (bufcur_x s)) cur
                   ++ map (fun t => Z.to_N (turn_key t)) turns
                   ++ skipn (Z.to_nat (bufcur_x s)) cur) :: post
      /\ bufcur_y s' = bufcur_y s
      /\ bufcur_x s' = bufcur_x s + Py.len turns
      /\ cmdmode s' = false.
Proof.
  induction turns as [|[h wd k] turns IH]; intros s w pre cur post Hc Hb Hy Hx Hk.
  - exists s. cbn [Ext.run map app]. rewrite firstn_skipn.
    repeat split; auto. unfold Py.len. simpl. lia.
  - inversion Hk as [|? ? Hk1 Hk2]; subst. cbn [turn_key] in Hk1.
    cbn [Ext.run turn_h turn_w turn_key].
    apply plain_key_spec in Hk1 as Hk1'.
    destruct s as [k0 b opf cb cm nm ww wh bx cy sx ox oy ts];
      st_simpl; subst.
    rewrite Ext_mainloop_plain by (reflexivity || assumption).
    unfold store_winsz. st_simpl.
    rewrite (@ins_chr_at _ pre cur post);
      [|reflexivity|reflexivity|exact Hx|st_simpl; lia].
    st_simpl. cbn [bind]. replace (0 =? 0) with true by reflexivity.
    assert (Hl := @len_insert cur bx (Z.to_N k) Hx).
    match goal with
    | |- context [Ext.run ?s1 w turns] =>
        destruct (IH s1 w pre
                    (firstn (Z.to_nat bx) cur
                     ++ Z.to_N k :: skipn (Z.to_nat bx) cur) post)
          as (s' & E & Hb' & Hy' & Hx' & Hc');
        [destruct (bx + 1 - ox >? 79); reflexivity
        |destruct (bx + 1 - ox >? 79); reflexivity
        |destruct (bx + 1 - ox >? 79); reflexivity
        |destruct (bx + 1 - ox >? 79); st_simpl; (split; [lia|]);
         (eapply Z.le_trans; [|apply Z.eq_le_incl; symmetry; exact Hl]); lia
        |exact Hk2|]
    end.
    exists s'. split; [exact E|].
    assert (Hx1 : bufcur_x s' = bx + 1 + Py.len turns)
      by (rewrite Hx'; destruct (bx + 1 - ox >? 79); reflexivity).
    assert (Hy1 : bufcur_y s' = Py.len pre)
      by (rewrite Hy'; destruct (bx + 1 - ox >? 79); reflexivity).
    assert (Hb1 : buffer s'
                  = pre ++ (firstn (Z.to_nat bx) cur
                            ++ (Z.to_N k
                                :: map (fun t => Z.to_N (turn_key t)) turns)
                            ++ skipn (Z.to_nat bx) cur) :: post).
    { rewrite Hb'.
      replace (bufcur_x (if bx + 1 - ox >? 79 then _ else _)) with (bx + 1)
        by (destruct (bx + 1 - ox >? 79); reflexivity).
      rewrite firstn_insert by assumption. reflexivity. }
    split; [exact Hb1|]. split; [exact Hy1|]. split; [|exact Hc'].
    rewrite Hx1. unfold Py.len. simpl List.length. lia.
Qed.

Lemma Ext_typing_inserts_text_witness :
  exists s', @Ext.run ascii_only no_files
               (mkState 0 [L "ab"; L "cd"] [] [] false false 80 24 1 1 0 0 0 3)
               tt (typed (keys_of (L "xyz"))) = Ok (s', tt)
    /\ buffer s'
       = [L "ab"] ++ (firstn (Z.to_nat 1) (L "cd")
                      ++ map (fun t => Z.to_N (turn_key t))
                             (typed (keys_of (L "xyz")))
                      ++ skipn (Z.to_nat 1) (L "cd")) :: []
    /\ bufcur_y s' = 1
    /\ bufcur_x s' = 1 + Py.len (typed (keys_of (L "xyz")))
    /\ cmdmode s' = false.
Proof.
  apply (@Ext_typing_inserts_text ascii_only no_files
           (typed (keys_of (L "xyz")))
           (mkState 0 [L "ab"; L "cd"] [] [] false false 80 24 1 1 0 0 0 3)
           tt [L "ab"] (L "cd") []);
    [reflexivity | reflexivity | reflexivity
    | vm_compute; split; discriminate
    | repeat (apply Forall_cons; [reflexivity|]); apply Forall_nil].
Defined.

(** ** Typing and taking back *)

(** The base prototype removes the character before the cursor like the
    extended one. *)
Lemma Base_backspace_char (s : State) (pre : list str) (cur : str)
    (post : list str) :
  buffer s = pre ++ cur :: post ->
  bufcur_y s = Py.len pre ->
  0 < bufcur_x s <= Py.len cur ->
  exists s', Base.backspace s = Ok s'
    /\ buffer s' = pre ++ (firstn (Z.to_nat (bufcur_x s - 1)) cur
                           ++ skipn (Z.to_nat (bufcur_x s)) cur) :: post
    /\ bufcur_y s' = bufcur_y s /\ bufcur_x s' = bufcur_x s - 1.
Proof.
  intros Hb Hy Hx. destruct s as [k b opf cb cm nm ww wh bx cy sx ox oy ts];
    st_simpl; subst.
  pose proof (len_nonneg pre).
  assert (Hc : cur <> []) by (intros ->; unfold Py.len in Hx; simpl in Hx; lia).
  unfold Base.backspace; st_simpl.
  rewrite (is_blank_nonempty_line _ _ Hc). ztest. st_simpl.
  rewrite (@get_eq _ _ pre cur post) by at_solve. st_simpl.
  rewrite (str_eqb_nil_false Hc).
  destruct (Z.ltb_spec bx (Py.len cur)) as [Hlt|Hge].
  - rewrite (@set_eq _ _ pre cur post) by at_solve. st_simpl.
    rewrite slice_to, slice_from by lia.
    eexists. split; [reflexivity|]. st_simpl. repeat split; auto; lia.
  - rewrite (@set_eq _ _ pre cur post) by at_solve. st_simpl.
    rewrite slice_drop_last.
    eexists. split; [reflexivity|]. st_simpl. repeat split; auto.
    do 2 f_equal.
    rewrite skipn_all2, app_nil_r by len_solve. f_equal. len_solve.
Qed.

Lemma ins_chr_fields (s : State) (pre : list str) (cur : str)
    (post : list str) :
  buffer s = pre ++ cur :: post ->
  bufcur_y s = Py.len pre ->
  0 <= bufcur_x s <= Py.len cur ->
  0 <= key s < 1114112 ->
  exists s', ins_chr s = Ok s'
    /\ buffer s' = pre ++ (firstn (Z.to_nat (bufcur_x s)) cur
                           ++ Z.to_N (key s)
                              :: skipn (Z.to_nat (bufcur_x s)) cur) :: post
    /\ bufcur_y s' = bufcur_y s /\ bufcur_x s' = bufcur_x s + 1
    /\ cmdmode s' = cmdmode s.
Proof.
  intros Hb Hy Hx Hk. rewrite (ins_chr_at s pre cur post Hb Hy Hx Hk).
  eexists. split; [reflexivity|].
  destruct (bufcur_x s + 1 - bufofs_x s >? 79); st_simpl;
    repeat split; auto.
Qed.

Lemma ins_chr_in_bounds (s : State) :
  in_bounds s = true -> 0 <= key s < 1114112 ->
  exists s', ins_chr s = Ok s' /\ in_bounds s' = true.
Proof.
  intros Hin Hk. apply in_bounds_at in Hin.
  destruct Hin as (pre & cur & post & Hb & Hy & Hx).
  destruct (ins_chr_fields s pre cur post Hb Hy Hx Hk)
    as (s1 & E1 & Hb1 & Hy1 & Hx1 & _).
  exists s1. split; [exact E1|]. apply in_bounds_at.
  eexists pre, _, post. split; [exact Hb1|]. split; [congruence|].
  assert (Hl := @len_insert cur (bufcur_x s) (Z.to_N (key s)) Hx).
  rewrite Hx1. split; [lia|].
  (eapply Z.le_trans; [|apply Z.eq_le_incl; symmetry; exact Hl]); lia.
Qed.

(** X3. In both prototypes, typing a character and pressing backspace gives
    the buffer and the cursor back. *)
Theorem ins_chr_backspace (s : State) :
  in_bounds s = true ->
  0 <= key s < 1114112 ->
  exists s1, ins_chr s = Ok s1
    /\ (exists s2, Ext.backspace s1 = Ok s2
          /\ buffer s2 = buffer s
          /\ bufcur_y s2 = bufcur_y s /\ bufcur_x s2 = bufcur_x s)
    /\ (exists s2, Base.backspace s1 = Ok s2
          /\ buffer s2 = buffer s
          /\ bufcur_y s2 = bufcur_y s /\ bufcur_x s2 = bufcur_x s).
Proof.
  intros Hin Hk. apply in_bounds_at in Hin.
  destruct Hin as (pre & cur & post & Hb & Hy & Hx).
  destruct (ins_chr_fields s pre cur post Hb Hy Hx Hk)
    as (s1 & E1 & Hb1 & Hy1 & Hx1 & _).
  exists s1. split; [exact E1|].
  assert (Hl := @len_insert cur (bufcur_x s) (Z.to_N (key s)) Hx).
  assert (Hx1' : 0 < bufcur_x s1
                 <= Py.len (firstn (Z.to_nat (bufcur_x s)) cur
                            ++ Z.to_N (key s)
                               :: skipn (Z.to_nat (bufcur_x s)) cur))
    by (rewrite Hx1; split; [lia|];
        (eapply Z.le_trans; [|apply Z.eq_le_incl; symmetry; exact Hl]); lia).
  assert (Hy1' : bufcur_y s1 = Py.len pre) by congruence.
  split.
  - destruct (Ext_backspace_char s1 pre _ post Hb1 Hy1' Hx1')
      as (s2 & E2 & Hb2 & Hy2 & Hx2).
    exists s2. split; [exact E2|]. rewrite Hb2, Hy2, Hx2, Hx1, Hb.
    rewrite cut_insert_before by assumption. repeat split; auto; lia.
  - destruct (Base_backspace_char s1 pre _ post Hb1 Hy1' Hx1')
      as (s2 & E2 & Hb2 & Hy2 & Hx2).
    exists s2. split; [exact E2|]. rewrite Hb2, Hy2, Hx2, Hx1, Hb.
    rewrite cut_insert_before by assumption. repeat split; auto; lia.
Qed.

Lemma ins_chr_backspace_witness :
  exists s1, ins_chr ab_cd = Ok s1
    /\ (exists s2, Ext.backspace s1 = Ok s2
          /\ buffer s2 = buffer ab_cd
          /\ bufcur_y s2 = bufcur_y ab_cd /\ bufcur_x s2 = bufcur_x ab_cd)
    /\ (exists s2, Base.backspace s1 = Ok s2
          /\ buffer s2 = buffer ab_cd
          /\ bufcur_y s2 = bufcur_y ab_cd /\ bufcur_x s2 = bufcur_x ab_cd).
Proof.
  apply (@ins_chr_backspace ab_cd);
    [reflexivity | vm_compute; split; [discriminate | reflexivity]].
Defined.

(** ** Moving the cursor *)

Lemma vispos2bufpos_loop_nonneg (text : str) (t : Z) (k : nat) :
  1 <= t -> forall i ret, 0 <= ret -> 0 <= vispos2bufpos_loop k text t i ret.
Proof.
  intros Ht. induction k as [|k IH]; intros i ret Hr; simpl; [exact Hr|].
  apply IH.
  destruct (i + t <? Py.len text); [exact Hr|].
  destruct (str_eqb _ _); lia.
Qed.

Lemma vispos2bufpos_nonneg (text : str) (t offs : Z) :
  1 <= t -> 0 <= vispos2bufpos text t offs.
Proof.
  intros Ht. unfold vispos2bufpos.
  destruct (offs >? Py.len text); [apply len_nonneg|].
  apply vispos2bufpos_loop_nonneg; [exact Ht | lia].
Qed.

(** X4. The left and right arrows, in both prototypes, with the cursor
    inside the document: the buffer and the row stay, the column moves by
    one and stops at the start and at the end of the line, and the cursor
    stays inside the document. In the extended prototype the window follows:
    after a move left it does not start right of the cursor, after a move
    right, in a window of some width, it does not end left of the cursor. *)
Theorem move_cursor_left_right (s : State) (pre : list str) (cur : str)
    (post : list str) :
  buffer s = pre ++ cur :: post ->
  bufcur_y s = Py.len pre ->
  0 <= bufcur_x s <= Py.len cur ->
  (exists s', Ext.move_cursor s Dir_l = Ok s'
     /\ buffer s' = buffer s /\ bufcur_y s' = bufcur_y s
     /\ bufcur_x s' = Z.max 0 (bufcur_x s - 1)
     /\ in_bounds s' = true
     /\ bufofs_x s' <= bufpos2vispos cur (tabsz s) (bufcur_x s'))
  /\ (exists s', Ext.move_cursor s Dir_r = Ok s'
        /\ buffer s' = buffer s /\ bufcur_y s' = bufcur_y s
        /\ bufcur_x s' = Z.min (Py.len cur) (bufcur_x s + 1)
        /\ in_bounds s' = true
        /\ (0 < win_w s ->
            bufpos2vispos cur (tabsz s) (bufcur_x s')
            < bufofs_x s' + win_w s))
  /\ (exists s', Base.move_cursor s Dir_l = Ok s'
        /\ buffer s' = buffer s /\ bufcur_y s' = bufcur_y s
        /\ bufcur_x s' = Z.max 0 (bufcur_x s - 1)
        /\ in_bounds s' = true)
  /\ (exists s', Base.move_cursor s Dir_r = Ok s'
        /\ buffer s' = buffer s /\ bufcur_y s' = bufcur_y s
        /\ bufcur_x s' = Z.min (Py.len cur) (bufcur_x s + 1)
        /\ in_bounds s' = true).
Proof.
  intros Hb Hy Hx.
  destruct s as [k b opf cb cm nm ww wh bx cy sx ox oy ts];
    st_simpl; subst.
  pose proof (len_nonneg pre).
  assert (Hin : forall s' : State,
             buffer s' = pre ++ cur :: post -> bufcur_y s' = Py.len pre ->
             0 <= bufcur_x s' <= Py.len cur -> in_bounds s' = true)
    by (intros s' ? ? ?; apply in_bounds_at; exists pre, cur, post; auto).
  unfold Ext.move_cursor, Base.move_cursor; st_simpl.
  rewrite (@get_eq _ _ pre cur post) by at_solve. st_simpl.
  rewrite !Z.gtb_ltb, !Z.geb_leb.
  repeat split.
  - destruct (Z.ltb_spec 0 bx); st_simpl;
      match goal with |- context [if ?c then _ else _] =>
        destruct c eqn:E end;
      (eexists; split; [reflexivity|]); st_simpl;
      repeat split; auto; try lia; try (apply Hin; st_simpl; auto; lia);
      apply Z.ltb_ge in E; lia.
  - destruct (Z.ltb_spec bx (Py.len cur)); st_simpl;
      match goal with |- context [if ?c then _ else _] =>
        destruct c eqn:E end;
      (eexists; split; [reflexivity|]); st_simpl;
      repeat split; auto; try lia; try (apply Hin; st_simpl; auto; lia);
      intros Hw; try lia; apply Z.leb_gt in E; lia.
  - destruct (Z.ltb_spec 0 bx);
      (eexists; split; [reflexivity|]); st_simpl;
      repeat split; auto; try lia; apply Hin; st_simpl; auto; lia.
  - destruct (Z.ltb_spec bx (Py.len cur));
      (eexists; split; [reflexivity|]); st_simpl;
      repeat split; auto; try lia; apply Hin; st_simpl; auto; lia.
Qed.

Lemma move_cursor_left_right_witness :
  (exists s', Ext.move_cursor ab_cd Dir_l = Ok s'
     /\ buffer s' = buffer ab_cd /\ bufcur_y s' = bufcur_y ab_cd
     /\ bufcur_x s' = Z.max 0 (bufcur_x ab_cd - 1)
     /\ in_bounds s' = true
     /\ bufofs_x s' <= bufpos2vispos (L "cd") (tabsz ab_cd) (bufcur_x s'))
  /\ (exists s', Ext.move_cursor ab_cd Dir_r = Ok s'
        /\ buffer s' = buffer ab_cd /\ bufcur_y s' = bufcur_y ab_cd
        /\ bufcur_x s' = Z.min (Py.len (L "cd")) (bufcur_x ab_cd + 1)
        /\ in_bounds s' = true
        /\ (0 < win_w ab_cd ->
            bufpos2vispos (L "cd") (tabsz ab_cd) (bufcur_x s')
            < bufofs_x s' + win_w ab_cd))
  /\ (exists s', Base.move_cursor ab_cd Dir_l = Ok s'
        /\ buffer s' = buffer ab_cd /\ bufcur_y s' = bufcur_y ab_cd
        /\ bufcur_x s' = Z.max 0 (bufcur_x ab_cd - 1)
        /\ in_bounds s' = true)
  /\ (exists s', Base.move_cursor ab_cd Dir_r = Ok s'
        /\ buffer s' = buffer ab_cd /\ bufcur_y s' = bufcur_y ab_cd
        /\ bufcur_x s' = Z.min (Py.len (L "cd")) (bufcur_x ab_cd + 1)
        /\ in_bounds s' = true).
Proof.
  apply (@move_cursor_left_right ab_cd [L "ab"] (L "cd") []);
    [reflexivity | reflexivity | vm_compute; split; discriminate].
Defined.

(** X5. The up and down arrows, in both prototypes, with the cursor inside
    the document: the buffer stays, the row moves by one and stops at the
    first and at the last line, where the column stays too; with a tab size
    of at least 1 the column is never negative. In the extended prototype
    the window moves by at most one row, in the direction of the arrow. *)
Theorem move_cursor_up_down (s : State) :
  in_bounds s = true ->
  (exists s', Ext.move_cursor s Dir_d = Ok s'
     /\ buffer s' = buffer s
     /\ bufcur_y s' = Z.min (Py.len (buffer s) - 1) (bufcur_y s + 1)
     /\ (bufcur_y s' = bufcur_y s -> bufcur_x s' = bufcur_x s)
     /\ (1 <= tabsz s -> 0 <= bufcur_x s')
     /\ (bufofs_y s' = bufofs_y s \/ bufofs_y s' = bufofs_y s + 1))
  /\ (exists s', Ext.move_cursor s Dir_u = Ok s'
        /\ buffer s' = buffer s
        /\ bufcur_y s' = Z.max 0 (bufcur_y s - 1)
        /\ (bufcur_y s' = bufcur_y s -> bufcur_x s' = bufcur_x s)
        /\ (1 <= tabsz s -> 0 <= bufcur_x s')
        /\ (bufofs_y s' = bufofs_y s \/ bufofs_y s' = bufofs_y s - 1))
  /\ (exists s', Base.move_cursor s Dir_d = Ok s'
        /\ buffer s' = buffer s
        /\ bufcur_y s' = Z.min (Py.len (buffer s) - 1) (bufcur_y s + 1)
        /\ (bufcur_y s' = bufcur_y s -> bufcur_x s' = bufcur_x s)
        /\ (1 <= tabsz s -> 0 <= bufcur_x s')
        /\ bufofs_y s' = bufofs_y s)
  /\ (exists s', Base.move_cursor s Dir_u = Ok s'
        /\ buffer s' = buffer s
        /\ bufcur_y s' = Z.max 0 (bufcur_y s - 1)
        /\ (bufcur_y s' = bufcur_y s -> bufcur_x s' = bufcur_x s)
        /\ (1 <= tabsz s -> 0 <= bufcur_x s')
        /\ bufofs_y s' = bufofs_y s).
Proof.
  intros Hin. apply in_bounds_at in Hin.
  destruct Hin as (pre & cur & post & Hb & Hy & Hx).
  destruct s as [k b opf cb cm nm ww wh bx cy sx ox oy ts];
    st_simpl; subst.
  pose proof (len_nonneg pre). pose proof (len_nonneg post).
  assert (Hlen : Py.len (pre ++ cur :: post) = Py.len pre + 1 + Py.len post)
    by (rewrite len_app, len_cons; lia).
  unfold Ext.move_cursor, Base.move_cursor; st_simpl.
  rewrite (@get_eq _ _ pre cur post) by at_solve. st_simpl.
  rewrite !Z.geb_leb.
  assert (Hd : post = [] \/ exists next post', post = next :: post')
    by (destruct post; [left | right]; eauto).
  assert (Hu : pre = [] \/ exists pre' prev, pre = pre' ++ [prev])
    by (destruct pre as [|p pre]; [left; reflexivity|];
        right; apply last_elem; discriminate).
  split; [|split; [|split]].
  - destruct Hd as [->|(next & post' & ->)].
    + ztest. st_simpl.
      match goal with |- context [if ?c then _ else _] => destruct c end;
        (eexists; split; [reflexivity|]); st_simpl;
        repeat split; auto; try len_solve;
        intros; apply vispos2bufpos_nonneg; assumption.
    + pose proof (len_nonneg post'). ztest. st_simpl.
      rewrite (@get_eq _ _ (pre ++ [cur]) next post') by at_solve. st_simpl.
      match goal with |- context [if ?c then _ else _] => destruct c end;
        (eexists; split; [reflexivity|]); st_simpl;
        repeat split; auto; try len_solve;
        intros; apply vispos2bufpos_nonneg; assumption.
  - destruct Hu as [->|(pre' & prev & ->)].
    + ztest. st_simpl.
      match goal with |- context [if ?c then _ else _] => destruct c end;
        (eexists; split; [reflexivity|]); st_simpl;
        repeat split; auto; try len_solve;
        intros; apply vispos2bufpos_nonneg; assumption.
    + pose proof (len_nonneg pre'). ztest. st_simpl.
      rewrite (@get_eq _ _ pre' prev (cur :: post)) by at_solve.
      st_simpl.
      match goal with |- context [if ?c then _ else _] => destruct c end;
        (eexists; split; [reflexivity|]); st_simpl;
        repeat split; auto; try len_solve;
        intros; apply vispos2bufpos_nonneg; assumption.
  - destruct Hd as [->|(next & post' & ->)].
    + ztest. st_simpl.
      (eexists; split; [reflexivity|]); st_simpl;
        repeat split; auto; try len_solve;
        intros; apply vispos2bufpos_nonneg; assumption.
    + pose proof (len_nonneg post'). ztest. st_simpl.
      rewrite (@get_eq _ _ (pre ++ [cur]) next post') by at_solve. st_simpl.
      (eexists; split; [reflexivity|]); st_simpl;
        repeat split; auto; try len_solve;
        intros; apply vispos2bufpos_nonneg; assumption.
  - destruct Hu as [->|(pre' & prev & ->)].
    + ztest. st_simpl.
      (eexists; split; [reflexivity|]); st_simpl;
        repeat split; auto; try len_solve;
        intros; apply vispos2bufpos_nonneg; assumption.
    + pose proof (len_nonneg pre'). ztest. st_simpl.
      rewrite (@get_eq _ _ pre' prev (cur :: post)) by at_solve.
      st_simpl.
      (eexists; split; [reflexivity|]); st_simpl;
        repeat split; auto; try len_solve;
        intros; apply vispos2bufpos_nonneg; assumption.
Qed.

Lemma move_cursor_up_down_witness :
  (exists s', Ext.move_cursor three_lines Dir_d = Ok s'
     /\ buffer s' = buffer three_lines
     /\ bufcur_y s'
        = Z.min (Py.len (buffer three_lines) - 1) (bufcur_y three_lines + 1)
     /\ (bufcur_y s' = bufcur_y three_lines ->
         bufcur_x s' = bufcur_x three_lines)
     /\ (1 <= tabsz three_lines -> 0 <= bufcur_x s')
     /\ (bufofs_y s' = bufofs_y three_lines
         \/ bufofs_y s' = bufofs_y three_lines + 1))
  /\ (exists s', Ext.move_cursor three_lines Dir_u = Ok s'
        /\ buffer s' = buffer three_lines
        /\ bufcur_y s' = Z.max 0 (bufcur_y three_lines - 1)
        /\ (bufcur_y s' = bufcur_y three_lines ->
            bufcur_x s' = bufcur_x three_lines)
        /\ (1 <= tabsz three_lines -> 0 <= bufcur_x s')
        /\ (bufofs_y s' = bufofs_y three_lines
            \/ bufofs_y s' = bufofs_y three_lines - 1))
  /\ (exists s', Base.move_cursor three_lines Dir_d = Ok s'
        /\ buffer s' = buffer three_lines
        /\ bufcur_y s'
           = Z.min (Py.len (buffer three_lines) - 1)
                   (bufcur_y three_lines + 1)
        /\ (bufcur_y s' = bufcur_y three_lines ->
            bufcur_x s' = bufcur_x three_lines)
        /\ (1 <= tabsz three_lines -> 0 <= bufcur_x s')
        /\ bufofs_y s' = bufofs_y three_lines)
  /\ (exists s', Base.move_cursor three_lines Dir_u = Ok s'
        /\ buffer s' = buffer three_lines
        /\ bufcur_y s' = Z.max 0 (bufcur_y three_lines - 1)
        /\ (bufcur_y s' = bufcur_y three_lines ->
            bufcur_x s' = bufcur_x three_lines)
        /\ (1 <= tabsz three_lines -> 0 <= bufcur_x s')
        /\ bufofs_y s' = bufofs_y three_lines).
Proof. apply (@move_cursor_up_down three_lines); reflexivity. Defined.

(** ** Del and backspace *)




(** ** Return, then backspace *)

Lemma Ext_newline_backspace_cursor (s : State) :
  in_bounds s = true ->
  exists s1 s2 cur,
    Py.get (buffer s) (bufcur_y s) = Ok cur
    /\ Ext.newline s = Ok s1 /\ Ext.backspace s1 = Ok s2
    /\ buffer s2 = buffer s /\ bufcur_y s2 = bufcur_y s
    /\ bufcur_x s2 = (if bufcur_y s <? Py.len (buffer s) - 1
                      then bufcur_x s else Py.len cur).
Proof.
  intros Hin. apply in_bounds_at in Hin.
  destruct Hin as (pre & cur & post & Hb & Hy & Hx).
  pose proof (len_nonneg pre) as Hpre. pose proof (len_nonneg post) as Hpost.
  assert (Hlen : Py.len (buffer s) = Py.len pre + 1 + Py.len post)
    by (rewrite Hb, len_app, len_cons; lia).
  assert (Hg : Py.get (buffer s) (bufcur_y s) = Ok cur)
    by (apply (@get_eq _ _ pre cur post); assumption).
  destruct post as [|next post].
  - destruct (Ext_newline_last_line s pre cur Hb Hy)
      as (s1 & E1 & Hb1 & Hy1 & Hx1).
    destruct (Ext_backspace_empty_line s1 pre cur [])
      as (s2 & E2 & Hb2 & Hy2 & Hx2); [exact Hb1 | lia |].
    exists s1, s2, cur.
    destruct (Z.ltb_spec (bufcur_y s) (Py.len (buffer s) - 1));
      [change (Py.len (@nil str)) with 0 in Hlen; lia|].
    repeat split; auto; congruence.
  - rewrite len_cons in Hlen. pose proof (len_nonneg post).
    destruct (Z.ltb_spec (bufcur_y s) (Py.len (buffer s) - 1)); [|lia].
    destruct (Z.eq_dec (bufcur_x s) (Py.len cur)) as [He|Hne].
    + destruct (Ext_newline_end_of_line s pre cur next post Hb Hy He)
        as (s1 & E1 & Hb1 & Hy1 & Hx1).
      destruct (Ext_backspace_empty_line s1 pre cur (next :: post))
        as (s2 & E2 & Hb2 & Hy2 & Hx2); [exact Hb1 | lia |].
      exists s1, s2, cur. repeat split; auto; congruence.
    + destruct (@Ext_newline_split s pre cur next post Hb Hy)
        as (s1 & E1 & Hb1 & Hy1 & Hx1); [lia|].
      destruct (@Ext_backspace_join s1 pre
                  (firstn (Z.to_nat (bufcur_x s)) cur)
                  (skipn (Z.to_nat (bufcur_x s)) cur) (next :: post))
        as (s2 & E2 & Hb2 & Hy2 & Hx2); [exact Hb1 | lia | exact Hx1 | |].
      { intros E. apply (f_equal (@List.length _)) in E.
        rewrite length_skipn in E. simpl in E. unfold Py.len in *. lia. }
      exists s1, s2, cur. repeat split; auto; [| congruence |].
      * rewrite Hb2, firstn_skipn. auto.
      * rewrite Hx2. unfold Py.len in *. rewrite length_firstn. lia.
Qed.

(** X7. In the extended prototype, outside command mode and with the
    cursor inside the document, the Return key followed by backspace gives
    the document and the row of the cursor back without an exception; the
    column comes back too, except on the last line, where the cursor ends
    at the end of the line. *)
Theorem Ext_return_then_backspace `{Unicode} `{OS} (s : State) (w : world)
    (t1 t2 : turn) :
  in_bounds s = true -> cmdmode s = false ->
  turn_key t1 = 10 -> turn_key t2 = 127 ->
  exists s' cur,
    Py.get (buffer s) (bufcur_y s) = Ok cur
    /\ Ext.run s w [t1; t2] = Ok (s', w)
    /\ buffer s' = buffer s /\ bufcur_y s' = bufcur_y s
    /\ bufcur_x s' = (if bufcur_y s <? Py.len (buffer s) - 1
                      then bufcur_x s else Py.len cur)
    /\ in_bounds s' = true.
Proof.
  intros Hin Hc Hk1 Hk2. destruct t1 as [h1 w1 k1], t2 as [h2 w2 k2].
  cbn [turn_key] in Hk1, Hk2. subst k1 k2.
  cbn [Ext.run turn_h turn_w turn_key].
  set (s0 := set_key (store_winsz s h1 w1) 10).
  assert (Hin0 : in_bounds s0 = true)
    by (rewrite <- Hin; apply in_bounds_same; reflexivity).
  destruct (Ext_newline_backspace_cursor s0 Hin0)
    as (s1 & s2 & cur & Hg & E1 & E2 & Hb & Hy & Hx).
  assert (Em1 : Ext.mainloop (store_winsz s h1 w1) w 10 = Ok (s1, w, 0)).
  { unfold Ext.mainloop. st_simpl.
    replace (cmdmode (store_winsz s h1 w1)) with false
      by (rewrite <- Hc; reflexivity).
    change (10 =? ERR) with false. change (10 =? 9) with false.
    change (10 =? 10) with true. cbv iota. fold s0. rewrite E1.
    reflexivity. }
  rewrite Em1. cbn [bind]. change (0 =? 0) with true. cbv iota.
  assert (Hc1 : cmdmode s1 = false).
  { unfold Ext.newline in E1.
    destruct (_ : res (list str)) in E1; [|discriminate E1].
    cbn [bind] in E1. injection E1 as <-. exact Hc. }
  set (s1' := set_key (store_winsz s1 h2 w2) 127).
  assert (E2' : exists s2', Ext.backspace s1' = Ok s2'
                  /\ buffer s2' = buffer s2 /\ bufcur_x s2' = bufcur_x s2
                  /\ bufcur_y s2' = bufcur_y s2).
  { clear - E2. unfold Ext.backspace in *. subst s1'.
    unfold store_winsz. st_simpl.
    repeat match type of E2 with
           | context [if ?c then _ else _] => destruct c
           | context [bind ?m _] => destruct m; cbn [bind] in *
           | Raise _ = Ok _ => discriminate E2
           | Ok _ = Ok _ => injection E2 as <-
           end;
      eexists; (split; [reflexivity|]); st_simpl; auto. }
  destruct E2' as (s2' & E2' & Hb' & Hx' & Hy').
  rewrite Ext_mainloop_backspace.
  replace (cmdmode (store_winsz s1 h2 w2)) with false
    by (rewrite <- Hc1; reflexivity).
  fold s1'. rewrite E2'. cbn [bind Ext.run].
  change (0 =? 0) with true. cbv iota.
  exists s2', cur. split; [exact Hg|]. split; [reflexivity|].
  rewrite Hb', Hx', Hy', Hb, Hy, Hx.
  change (buffer s0) with (buffer s). change (bufcur_y s0) with (bufcur_y s).
  change (bufcur_x s0) with (bufcur_x s).
  repeat split; auto.
  apply in_bounds_at in Hin.
  destruct Hin as (pre & cur' & post & Hbs & Hys & Hxs).
  assert (cur' = cur) as ->.
  { change (buffer s0) with (buffer s) in Hg.
    change (bufcur_y s0) with (bufcur_y s) in Hg.
    rewrite (@get_eq _ _ pre cur' post _ Hbs Hys) in Hg.
    congruence. }
  apply in_bounds_at. exists pre, cur, post.
  rewrite Hb', Hx', Hy', Hb, Hy, Hx.
  change (buffer s0) with (buffer s). change (bufcur_y s0) with (bufcur_y s).
  change (bufcur_x s0) with (bufcur_x s).
  split; [exact Hbs|]. split; [exact Hys|].
  destruct (bufcur_y s <? Py.len (buffer s) - 1);
    [exact Hxs | pose proof (len_nonneg cur); lia].
Qed.

Lemma Ext_return_then_backspace_witness :
  exists s' cur,
    Py.get (buffer three_lines) (bufcur_y three_lines) = Ok cur
    /\ @Ext.run ascii_only no_files three_lines tt [mkTurn 24 80 10; mkTurn 24 80 127] = Ok (s', tt)
    /\ buffer s' = buffer three_lines /\ bufcur_y s' = bufcur_y three_lines
    /\ bufcur_x s' = (if bufcur_y three_lines <? Py.len (buffer three_lines) - 1
                      then bufcur_x three_lines else Py.len cur)
    /\ in_bounds s' = true.
Proof.
  apply (@Ext_return_then_backspace ascii_only no_files three_lines tt
           (mkTurn 24 80 10) (mkTurn 24 80 127));
    reflexivity.
Defined.

(** ** Return, then backspace, in the base prototype *)

Lemma Base_newline_at (s : State) (pre : list str) (cur : str)
    (post : list str) :
  buffer s = pre ++ cur :: post ->
  bufcur_y s = Py.len pre ->
  buffer (Base.newline s) = pre ++ cur :: [] :: post
  /\ bufcur_y (Base.newline s) = bufcur_y s + 1
  /\ bufcur_x (Base.newline s) = 0
  /\ cmdmode (Base.newline s) = cmdmode s
  /\ navmode (Base.newline s) = navmode s.
Proof.
  intros Hb Hy. destruct s as [k b opf cb cm nm ww wh bx cy sx ox oy ts];
    st_simpl; subst.
  pose proof (len_nonneg pre).
  unfold Base.newline; st_simpl.
  repeat split; auto.
  destruct post as [|p post].
  - ztest. list_solve.
  - ztest.
    rewrite (@slice_to_eq _ _ (pre ++ [cur]) (p :: post)) by at_solve.
    rewrite (@slice_from_eq _ _ (pre ++ [cur]) (p :: post)) by at_solve.
    list_solve.
Qed.

Lemma Base_backspace_empty_line (s : State) (pre : list str) (prev : str)
    (post : list str) :
  buffer s = pre ++ prev :: [] :: post ->
  bufcur_y s = Py.len pre + 1 ->
  exists s', Base.backspace s = Ok s'
    /\ buffer s' = pre ++ prev :: post
    /\ bufcur_y s' = Py.len pre /\ bufcur_x s' = Py.len prev
    /\ cmdmode s' = cmdmode s.
Proof.
  intros Hb Hy. destruct s as [k b opf cb cm nm ww wh bx cy sx ox oy ts];
    st_simpl; subst.
  pose proof (len_nonneg pre).
  unfold Base.backspace; st_simpl.
  rewrite is_blank_two. ztest. rewrite andb_false_r. st_simpl.
  rewrite (@get_eq _ _ (pre ++ [prev]) [] post) by at_solve. st_simpl.
  cbn [str_eqb].
  assert (Hb : (if Py.len pre + 1 <? Py.len (pre ++ prev :: [] :: post) - 1
                then Py.slice (pre ++ prev :: [] :: post) None
                       (Some (Py.len pre + 1))
                     ++ Py.slice (pre ++ prev :: [] :: post)
                          (Some (Py.len pre + 1 + 1)) None
                else Py.slice (pre ++ prev :: [] :: post) None (Some (-1)))
               = pre ++ prev :: post).
  { destruct post as [|p post].
    - ztest.
      rewrite (@slice_drop_last_eq _ _ (pre ++ [prev]) []) by at_solve.
      reflexivity.
    - ztest.
      rewrite (@slice_to_eq _ _ (pre ++ [prev]) ([] :: p :: post)) by at_solve.
      rewrite (@slice_from_eq _ _ (pre ++ [prev; []]) (p :: post)) by at_solve.
      list_solve. }
  rewrite Hb.
  rewrite (@get_eq _ _ pre prev post) by at_solve. st_simpl.
  eexists. split; [reflexivity|]. st_simpl. repeat split; auto; lia.
Qed.

(** X8. In the base prototype, outside command mode and navigation mode,
    with the cursor on a line of the document: the Return key opens an
    empty line under the cursor's line, which stays whole, and backspace
    then removes it again, so that the two keys give the document and the
    row of the cursor back, with the cursor at the end of its line. *)
Theorem Base_return_then_backspace `{Unicode} `{OS} (s : State) (w : world)
    (t1 t2 : turn) (pre : list str) (cur : str) (post : list str) :
  buffer s = pre ++ cur :: post -> bufcur_y s = Py.len pre ->
  cmdmode s = false -> navmode s = false ->
  turn_key t1 = 10 -> turn_key t2 = 127 ->
  exists s1 s2,
    Base.run s w [t1] = Ok (s1, w)
    /\ buffer s1 = pre ++ cur :: [] :: post
    /\ bufcur_y s1 = bufcur_y s + 1 /\ bufcur_x s1 = 0
    /\ Base.run s w [t1; t2] = Ok (s2, w)
    /\ buffer s2 = buffer s /\ bufcur_y s2 = bufcur_y s
    /\ bufcur_x s2 = Py.len cur.
Proof.
  intros Hb Hy Hc Hn Hk1 Hk2. destruct t1 as [h1 w1 k1], t2 as [h2 w2 k2].
  cbn [turn_key] in Hk1, Hk2. subst k1 k2.
  cbn [Base.run turn_h turn_w turn_key].
  set (s0 := set_key (store_winsz s h1 w1) 10).
  destruct (@Base_newline_at s0 pre cur post Hb Hy)
    as (Hb1 & Hy1 & Hx1 & Hc1 & Hn1).
  assert (Em1 : Base.mainloop (store_winsz s h1 w1) w 10
                = Ok (Base.newline s0, w, 0)).
  { unfold Base.mainloop. st_simpl.
    replace (cmdmode (store_winsz s h1 w1)) with false
      by (rewrite <- Hc; reflexivity).
    replace (navmode (store_winsz s h1 w1)) with false
      by (rewrite <- Hn; reflexivity).
    reflexivity. }
  rewrite Em1. cbn [bind]. change (0 =? 0) with true. cbv iota.
  set (s1 := Base.newline s0) in *.
  set (s1' := set_key (store_winsz s1 h2 w2) 127).
  destruct (@Base_backspace_empty_line s1' pre cur post)
    as (s2 & E2 & Hb2 & Hy2 & Hx2 & _);
    [exact Hb1 | change (bufcur_y s1') with (bufcur_y s1); rewrite Hy1;
                 change (bufcur_y s0) with (bufcur_y s); lia |].
  assert (Em2 : Base.mainloop (store_winsz s1 h2 w2) w 127 = Ok (s2, w, 0)).
  { unfold Base.mainloop. st_simpl.
    replace (cmdmode (store_winsz s1 h2 w2)) with false
      by (change (cmdmode (store_winsz s1 h2 w2)) with (cmdmode s1);
          rewrite Hc1; symmetry; exact Hc).
    replace (navmode (store_winsz s1 h2 w2)) with false
      by (change (navmode (store_winsz s1 h2 w2)) with (navmode s1);
          rewrite Hn1; symmetry; exact Hn).
    change (127 =? ERR) with false. change (127 =? 9) with false.
    change (127 =? 10) with false. change (127 =? 127) with true.
    cbv iota. cbn [negb]. fold s1'. rewrite E2. reflexivity. }
  rewrite Em2. cbn [bind]. change (0 =? 0) with true. cbv iota.
  exists s1, s2. split; [reflexivity|].
  split; [exact Hb1|]. split; [exact Hy1|]. split; [exact Hx1|].
  split; [reflexivity|].
  rewrite Hb2, Hy2, Hx2, Hb, Hy. auto.
Qed.

Lemma Base_return_then_backspace_witness :
  exists s1 s2,
    @Base.run ascii_only no_files three_lines tt [mkTurn 24 80 10] = Ok (s1, tt)
    /\ buffer s1 = [L "one"] ++ (TAB :: L "two") :: [] :: [L "three"]
    /\ bufcur_y s1 = bufcur_y three_lines + 1 /\ bufcur_x s1 = 0
    /\ @Base.run ascii_only no_files three_lines tt [mkTurn 24 80 10; mkTurn 24 80 127] = Ok (s2, tt)
    /\ buffer s2 = buffer three_lines /\ bufcur_y s2 = bufcur_y three_lines
    /\ bufcur_x s2 = Py.len (TAB :: L "two").
Proof.
  apply (@Base_return_then_backspace ascii_only no_files three_lines tt
           (mkTurn 24 80 10) (mkTurn 24 80 127) [L "one"] (TAB :: L "two")
           [L "three"]);
    reflexivity.
Defined.

(** ** One turn of the main loop *)





(** ** Command mode *)

Lemma command_key_spec (k : Z) :
  command_key k = true ->
  0 <= k < 1114112 /\ k <> 9 /\ k <> 10 /\ k <> 27 /\ k <> 330 /\ k <> 127.
Proof.
  unfold command_key. rewrite !andb_true_iff, !negb_true_iff.
  rewrite Z.leb_le, Z.ltb_lt, !Z.eqb_neq. tauto.
Qed.

Lemma chr_ok (k : Z) : 0 <= k < 1114112 -> Py.chr k = Ok (Z.to_N k).
Proof.
  intros Hk. unfold Py.chr.
  destruct (Z.leb_spec 0 k); [|lia].
  destruct (Z.ltb_spec k 1114112); [|lia]. reflexivity.
Qed.

Lemma mainloop_command `{Unicode} `{OS} (s : State) (w : world) (k : Z) :
  cmdmode s = true -> command_key k = true ->
  Ext.mainloop s w k
  = Ok (set_cmdbuffer (set_key s k) (cmdbuffer s ++ [Z.to_N k]), w, 0)
  /\ Base.mainloop s w k
     = Ok (set_cmdbuffer (set_key s k) (cmdbuffer s ++ [Z.to_N k]), w, 0).
Proof.
  intros Hc Hk. apply command_key_spec in Hk.
  unfold Ext.mainloop, Base.mainloop. st_simpl. rewrite Hc.
  unfold ERR. ztest. rewrite chr_ok by lia. split; reflexivity.
Qed.

(** X9. In command mode, in both prototypes, every key that is a code
    point other than Tab, Return, Escape, Del and backspace is appended to
    the command buffer, the arrow keys included: the document, the cursor
    and the mode stay as they are, and nothing raises. *)
Theorem command_mode_typing `{Unicode} `{OS} (turns : list turn) :
  forall (s : State) (w : world),
    cmdmode s = true ->
    Forall (fun t => command_key (turn_key t) = true) turns ->
    exists s', Ext.run s w turns = Ok (s', w)
      /\ Base.run s w turns = Ok (s', w)
      /\ cmdbuffer s'
         = cmdbuffer s ++ map (fun t => Z.to_N (turn_key t)) turns
      /\ buffer s' = buffer s
      /\ bufcur_y s' = bufcur_y s /\ bufcur_x s' = bufcur_x s
      /\ cmdmode s' = true.
Proof.
  induction turns as [|[h wd k] turns IH]; intros s w Hc Hk.
  - exists s. cbn [Ext.run Base.run map]. rewrite app_nil_r. auto 10.
  - inversion Hk as [|? ? Hk1 Hk2]; subst. cbn [turn_key] in Hk1.
    cbn [Ext.run Base.run turn_h turn_w turn_key].
    destruct (@mainloop_command _ _ (store_winsz s h wd) w k Hc Hk1)
      as [-> ->].
    cbn [bind]. replace (0 =? 0) with true by reflexivity.
    match goal with
    | |- context [Ext.run ?s1 w turns] =>
        destruct (IH s1 w Hc Hk2) as (s' & E1 & E2 & Hcb & Hb & Hy & Hx & Hm)
    end.
    exists s'. split; [exact E1|]. split; [exact E2|].
    rewrite Hcb, Hb, Hy, Hx. unfold store_winsz. st_simpl.
    cbn [map turn_key]. rewrite <- app_assoc. auto 10.
Qed.

Lemma command_mode_typing_witness :
  exists s',
    @Ext.run ascii_only no_files (with_command (L "p")) tt
             [mkTurn 24 80 100; mkTurn 24 80 259] = Ok (s', tt)
    /\ @Base.run ascii_only no_files (with_command (L "p")) tt
                 [mkTurn 24 80 100; mkTurn 24 80 259] = Ok (s', tt)
    /\ cmdbuffer s'
       = cmdbuffer (with_command (L "p"))
         ++ map (fun t => Z.to_N (turn_key t))
                [mkTurn 24 80 100; mkTurn 24 80 259]
    /\ buffer s' = buffer (with_command (L "p"))
    /\ bufcur_y s' = bufcur_y (with_command (L "p"))
    /\ bufcur_x s' = bufcur_x (with_command (L "p"))
    /\ cmdmode s' = true.
Proof.
  apply (@command_mode_typing ascii_only no_files
           [mkTurn 24 80 100; mkTurn 24 80 259] (with_command (L "p")) tt);
    [reflexivity | repeat constructor].
Defined.

(** ** The tab size *)

Ltac ok_inv H :=
  repeat (cbn [bind] in H;
    match type of H with
    | Ok _ = Ok _ => injection H as H; subst
    | Raise _ = Ok _ => discriminate H
    | context [if ?c then _ else _] => destruct c eqn:?
    | context [match ?x with _ => _ end] => destruct x eqn:?
    | context [bind (bind ?m _) _] => destruct m eqn:?
    | context [bind ?m _] => destruct m eqn:?
    end).

Ltac same_field :=
  repeat match goal with
         | |- context [if ?c then _ else _] => destruct c
         end;
  reflexivity.

Lemma ins_chr_tabsz (s s' : State) :
  ins_chr s = Ok s' -> tabsz s' = tabsz s.
Proof. unfold ins_chr. intros E. ok_inv E; same_field. Qed.

Lemma Ext_move_cursor_tabsz (s s' : State) (d : direction) :
  Ext.move_cursor s d = Ok s' -> tabsz s' = tabsz s.
Proof. unfold Ext.move_cursor. intros E. ok_inv E; same_field. Qed.

Lemma Base_move_cursor_tabsz (s s' : State) (d : direction) :
  Base.move_cursor s d = Ok s' -> tabsz s' = tabsz s.
Proof. unfold Base.move_cursor. intros E. ok_inv E; same_field. Qed.

Lemma Ext_newline_tabsz (s s' : State) :
  Ext.newline s = Ok s' -> tabsz s' = tabsz s.
Proof. unfold Ext.newline. intros E. ok_inv E; same_field. Qed.

Lemma Ext_delete_tabsz (s s' : State) :
  Ext.delete s = Ok s' -> tabsz s' = tabsz s.
Proof. unfold Ext.delete. intros E. ok_inv E; same_field. Qed.

Lemma Ext_backspace_tabsz (s s' : State) :
  Ext.backspace s = Ok s' -> tabsz s' = tabsz s.
Proof. unfold Ext.backspace. intros E. ok_inv E; same_field. Qed.

Lemma Base_backspace_tabsz (s s' : State) :
  Base.backspace s = Ok s' -> tabsz s' = tabsz s.
Proof. unfold Base.backspace. intros E. ok_inv E; same_field. Qed.

Lemma Ext_do_cmd_tabsz `{Unicode} `{OS} (s s' : State) (w w' : world) (r : Z) :
  1 <= tabsz s <= 255 -> Ext.do_cmd s w = Ok (s', w', r) ->
  1 <= tabsz s' <= 255.
Proof.
  intros Ht E. unfold Ext.do_cmd in E.
  ok_inv E; st_simpl; try assumption;
    try (erewrite ins_chr_tabsz by eassumption; exact Ht).
  match goal with
  | Hs : (_ && _)%bool = true |- _ =>
      apply andb_true_iff in Hs; destruct Hs as [Hlo Hhi]
  end.
  rewrite Z.gtb_ltb in Hlo. apply Z.ltb_lt in Hlo. apply Z.ltb_lt in Hhi. lia.
Qed.

Lemma Base_do_cmd_tabsz `{Unicode} `{OS} (s s' : State) (w w' : world)
    (r : Z) :
  1 <= tabsz s <= 255 -> Base.do_cmd s w = Ok (s', w', r) ->
  1 <= tabsz s' <= 255.
Proof.
  intros Ht E. unfold Base.do_cmd in E.
  ok_inv E; st_simpl; try assumption;
    try (erewrite ins_chr_tabsz by eassumption; exact Ht).
  match goal with
  | Hs : (_ && _)%bool = true |- _ =>
      apply andb_true_iff in Hs; destruct Hs as [Hlo Hhi]
  end.
  rewrite Z.gtb_ltb in Hlo. apply Z.ltb_lt in Hlo. apply Z.ltb_lt in Hhi. lia.
Qed.

Lemma Ext_mainloop_tabsz `{Unicode} `{OS} (s s' : State) (w w' : world)
    (k r : Z) :
  1 <= tabsz s <= 255 -> Ext.mainloop s w k = Ok (s', w', r) ->
  1 <= tabsz s' <= 255.
Proof.
  intros Ht E. unfold Ext.mainloop in E. st_simpl.
  destruct (k =? ERR); [ok_inv E; exact Ht|].
  destruct (k =? 9);
    [ok_inv E; st_simpl; try exact Ht;
     erewrite ins_chr_tabsz by eassumption; exact Ht|].
  destruct (k =? 10).
  { destruct (cmdmode s).
    - destruct (Ext.do_cmd (set_key s k) w) as [[[s1 w1] r1]|] eqn:Ed;
        [|discriminate E].
      cbn [bind] in E. injection E as <- _ _. st_simpl.
      exact (Ext_do_cmd_tabsz (set_key s k) w Ht Ed).
    - ok_inv E. erewrite Ext_newline_tabsz by eassumption. exact Ht. }
  destruct (k =? 27); [ok_inv E; exact Ht|].
  destruct (k =? 330);
    [ok_inv E; erewrite Ext_delete_tabsz by eassumption; exact Ht|].
  destruct (k =? 127);
    [ok_inv E; st_simpl; try exact Ht;
     erewrite Ext_backspace_tabsz by eassumption; exact Ht|].
  ok_inv E; st_simpl; try exact Ht;
    try (erewrite Ext_move_cursor_tabsz by eassumption; exact Ht);
    erewrite ins_chr_tabsz by eassumption; exact Ht.
Qed.

Lemma Base_mainloop_tabsz `{Unicode} `{OS} (s s' : State) (w w' : world)
    (k r : Z) :
  1 <= tabsz s <= 255 -> Base.mainloop s w k = Ok (s', w', r) ->
  1 <= tabsz s' <= 255.
Proof.
  intros Ht E. unfold Base.mainloop in E. st_simpl.
  destruct (k =? ERR); [ok_inv E; exact Ht|].
  destruct (k =? 9);
    [ok_inv E; st_simpl; try exact Ht;
     erewrite ins_chr_tabsz by eassumption; exact Ht|].
  destruct (k =? 10).
  { destruct (cmdmode s).
    - destruct (Base.do_cmd (set_key s k) w) as [[[s1 w1] r1]|] eqn:Ed;
        [|discriminate E].
      cbn [bind] in E. injection E as <- _ _. st_simpl.
      exact (Base_do_cmd_tabsz (set_key s k) w Ht Ed).
    - ok_inv E; exact Ht. }
  destruct (k =? 127);
    [ok_inv E; st_simpl; try exact Ht;
     erewrite Base_backspace_tabsz by eassumption; exact Ht|].
  ok_inv E; st_simpl; try exact Ht;
    try (erewrite Base_move_cursor_tabsz by eassumption; exact Ht);
    erewrite ins_chr_tabsz by eassumption; exact Ht.
Qed.

(** X10. The tab size never leaves the range 1 to 255: whatever keys a
    session of either prototype handles, and whatever commands they spell,
    a state that starts with a tab size in that range ends with one. *)
Theorem tab_size_stays_valid `{Unicode} `{OS} (turns : list turn) :
  forall (s s' : State) (w w' : world),
    1 <= tabsz s <= 255 ->
    Ext.run s w turns = Ok (s', w') \/ Base.run s w turns = Ok (s', w') ->
    1 <= tabsz s' <= 255.
Proof.
  induction turns as [|[h wd k] turns IH]; intros s s' w w' Ht E.
  - cbn [Ext.run Base.run] in E.
    destruct E as [E|E]; injection E as <- _; exact Ht.
  - cbn [Ext.run Base.run turn_h turn_w turn_key] in E.
    assert (Ht0 : 1 <= tabsz (store_winsz s h wd) <= 255) by exact Ht.
    destruct E as [E|E].
    + destruct (Ext.mainloop (store_winsz s h wd) w k)
        as [[[s1 w1] r1]|] eqn:Em; [|discriminate E].
      cbn [bind] in E.
      pose proof (Ext_mainloop_tabsz _ _ _ Ht0 Em) as Ht1.
      destruct (r1 =? 0).
      * exact (IH s1 s' w1 w' Ht1 (or_introl E)).
      * injection E as <- _. exact Ht1.
    + destruct (Base.mainloop (store_winsz s h wd) w k)
        as [[[s1 w1] r1]|] eqn:Em; [|discriminate E].
      cbn [bind] in E.
      pose proof (Base_mainloop_tabsz _ _ _ Ht0 Em) as Ht1.
      destruct (r1 =? 0).
      * exact (IH s1 s' w1 w' Ht1 (or_intror E)).
      * injection E as <- _. exact Ht1.
Qed.

Lemma tab_size_stays_valid_witness :
  exists s',
    @Ext.run ascii_only no_files (with_command (L "tabsz 8")) tt
             [mkTurn 24 80 10] = Ok (s', tt)
    /\ tabsz s' = 8 /\ 1 <= tabsz s' <= 255.
Proof.
  eexists. split; [vm_compute; reflexivity|]. split; [reflexivity|].
  apply (@tab_size_stays_valid ascii_only no_files [mkTurn 24 80 10]
           (with_command (L "tabsz 8")) _ tt tt);
    [vm_compute; split; discriminate | left; vm_compute; reflexivity].
Defined.

(** ** A session of editing keys *)









(** ** Leaving the editor *)

Lemma Ext_do_cmd_quit `{Unicode} `{OS} (s s' : State) (w w' : world) (r : Z) :
  Ext.do_cmd s w = Ok (s', w', r) ->
  r = 0 \/ (r = 1 /\ cmdbuffer s = L "q" /\ s' = s /\ w' = w).
Proof.
  intros E. unfold Ext.do_cmd in E.
  ok_inv E; auto.
  right. repeat split; auto. apply str_eqb_eq. assumption.
Qed.

Lemma Base_do_cmd_quit `{Unicode} `{OS} (s s' : State) (w w' : world)
    (r : Z) :
  Base.do_cmd s w = Ok (s', w', r) ->
  r = 0 \/ (r = 1 /\ cmdbuffer s = L "q" /\ s' = s /\ w' = w).
Proof.
  intros E. unfold Base.do_cmd in E.
  ok_inv E; auto.
  right. repeat split; auto. apply str_eqb_eq. assumption.
Qed.

(** X12. One turn of the main loop of either prototype asks to leave the
    editor only for the Return key in command mode with the command [q]:
    whenever [mainloop] returns, it returns 0, or it returns 1 and the key
    was Return, the command buffer held exactly [q], and neither the
    document nor the files were touched. *)
Theorem mainloop_quits_only_on_q `{Unicode} `{OS} (s s' : State)
    (w w' : world) (k r : Z) :
  Ext.mainloop s w k = Ok (s', w', r) \/ Base.mainloop s w k = Ok (s', w', r) ->
  r = 0
  \/ (r = 1 /\ k = 10 /\ cmdmode s = true /\ cmdbuffer s = L "q"
      /\ buffer s' = buffer s /\ bufcur_x s' = bufcur_x s
      /\ bufcur_y s' = bufcur_y s /\ w' = w).
Proof.
  intros [E|E].
  - unfold Ext.mainloop in E. st_simpl.
    destruct (k =? ERR); [ok_inv E; auto|].
    destruct (k =? 9); [ok_inv E; auto|].
    destruct (Z.eqb_spec k 10) as [->|_].
    { destruct (cmdmode s) eqn:Ec; [|ok_inv E; auto].
      destruct (Ext.do_cmd (set_key s 10) w) as [[[s1 w1] r1]|] eqn:Ed;
        [|discriminate E].
      cbn [bind] in E. injection E as <- <- <-.
      destruct (Ext_do_cmd_quit _ _ Ed) as [->|(-> & Hq & -> & ->)];
        [left; reflexivity|].
      right. st_simpl. auto 10. }
    ok_inv E; auto.
  - unfold Base.mainloop in E. st_simpl.
    destruct (k =? ERR); [ok_inv E; auto|].
    destruct (k =? 9); [ok_inv E; auto|].
    destruct (Z.eqb_spec k 10) as [->|_].
    { destruct (cmdmode s) eqn:Ec; [|ok_inv E; auto].
      destruct (Base.do_cmd (set_key s 10) w) as [[[s1 w1] r1]|] eqn:Ed;
        [|discriminate E].
      cbn [bind] in E. injection E as <- <- <-.
      destruct (Base_do_cmd_quit _ _ Ed) as [->|(-> & Hq & -> & ->)];
        [left; reflexivity|].
      right. st_simpl. auto 10. }
    ok_inv E; auto.
Qed.

Lemma mainloop_quits_only_on_q_witness :
  exists s',
    @Ext.mainloop ascii_only no_files (with_command (L "q")) tt 10
    = Ok (s', tt, 1)
    /\ (1 = 0
        \/ (1 = 1 /\ 10 = 10 /\ cmdmode (with_command (L "q")) = true
            /\ cmdbuffer (with_command (L "q")) = L "q"
            /\ buffer s' = buffer (with_command (L "q"))
            /\ bufcur_x s' = bufcur_x (with_command (L "q"))
            /\ bufcur_y s' = bufcur_y (with_command (L "q")) /\ tt = tt)).
Proof.
  eexists. split; [vm_compute; reflexivity|].
  apply (@mainloop_quits_only_on_q ascii_only no_files
           (with_command (L "q")) _ tt tt 10 1).
  left. vm_compute. reflexivity.
Defined.

Lemma do_cmd_q `{Unicode} `{OS} (s : State) (w : world) :
  cmdbuffer s = L "q" ->
  Ext.do_cmd s w = Ok (s, w, 1) /\ Base.do_cmd s w = Ok (s, w, 1).
Proof.
  intros Hc. unfold Ext.do_cmd, Base.do_cmd. rewrite Hc.
  split; reflexivity.
Qed.

(** X13. The command [q]: in command mode with [q] in the command buffer,
    the Return key ends the session of either prototype at once, whatever
    keys would follow, with the document as it was, outside command mode
    and with an empty command buffer. *)
Theorem run_stops_at_q `{Unicode} `{OS} (s : State) (w : world) (t : turn)
    (rest : list turn) :
  cmdmode s = true -> cmdbuffer s = L "q" -> turn_key t = 10 ->
  exists s', Ext.run s w (t :: rest) = Ok (s', w)
    /\ Base.run s w (t :: rest) = Ok (s', w)
    /\ buffer s' = buffer s
    /\ bufcur_x s' = bufcur_x s /\ bufcur_y s' = bufcur_y s
    /\ cmdmode s' = false /\ cmdbuffer s' = [].
Proof.
  intros Hm Hc Hk. destruct t as [h wd k]. cbn [turn_key] in Hk. subst k.
  cbn [Ext.run Base.run turn_h turn_w turn_key].
  unfold Ext.mainloop, Base.mainloop, store_winsz. st_simpl. rewrite Hm.
  change (10 =? ERR) with false. change (10 =? 9) with false.
  change (10 =? 10) with true. cbv iota.
  match goal with
  | |- context [Ext.do_cmd ?s1 w] =>
      destruct (@do_cmd_q _ _ s1 w Hc) as [-> ->]
  end.
  cbn [bind]. change (1 =? 0) with false. cbv iota.
  change (1 =? 0) with false. cbv iota.
  eexists. split; [reflexivity|]. split; [reflexivity|].
  st_simpl. auto 10.
Qed.

Lemma run_stops_at_q_witness :
  exists s', @Ext.run ascii_only no_files (with_command (L "q")) tt ((mkTurn 24 80 10) :: [mkTurn 24 80 120]) = Ok (s', tt)
    /\ @Base.run ascii_only no_files (with_command (L "q")) tt ((mkTurn 24 80 10) :: [mkTurn 24 80 120]) = Ok (s', tt)
    /\ buffer s' = buffer (with_command (L "q"))
    /\ bufcur_x s' = bufcur_x (with_command (L "q")) /\ bufcur_y s' = bufcur_y (with_command (L "q"))
    /\ cmdmode s' = false /\ cmdbuffer s' = [].
Proof.
  apply (@run_stops_at_q ascii_only no_files (with_command (L "q")) tt
           (mkTurn 24 80 10) [mkTurn 24 80 120]);
    reflexivity.
Defined.

(** ** Commands and the cursor *)

Lemma ins_chr_ok_in_bounds (s s' : State) :
  in_bounds s = true -> ins_chr s = Ok s' -> in_bounds s' = true.
Proof.
  intros Hin E.
  assert (Hk : 0 <= key s < 1114112).
  { unfold ins_chr in E.
    destruct (Py.get (buffer s) (bufcur_y s)); [|discriminate E].
    cbn [bind] in E. unfold Py.chr in E.
    destruct (Z.leb_spec 0 (key s)); [|discriminate E].
    destruct (Z.ltb_spec (key s) 1114112); [lia | discriminate E]. }
  destruct (ins_chr_in_bounds s Hin Hk) as (s1 & E1 & H1).
  congruence.
Qed.

Lemma in_bounds_origin (s : State) :
  buffer s <> [] -> bufcur_x s = 0 -> bufcur_y s = 0 -> in_bounds s = true.
Proof.
  intros Hb Hx Hy. apply in_bounds_at.
  destruct (buffer s) as [|l b] eqn:E; [congruence|].
  exists [], l, b. rewrite Hx, Hy. pose proof (len_nonneg l).
  repeat split; auto; lia.
Qed.

Lemma split_lf_nonempty (text : str) : split_lf text <> [].
Proof.
  induction text as [|c text IH]; cbn [split_lf]; [discriminate|].
  destruct (N.eqb c LF); [discriminate|].
  destruct (split_lf text); [congruence | discriminate].
Qed.

Lemma in_bounds_column (s : State) (x : Z) (cur : str) :
  in_bounds s = true -> Py.get (buffer s) (bufcur_y s) = Ok cur ->
  0 <= x <= Py.len cur -> in_bounds (set_bufcur_x s x) = true.
Proof.
  intros Hin Hc Hx. apply in_bounds_at in Hin.
  destruct Hin as (pre & cur' & post & Hb & Hy & _).
  rewrite (@get_eq _ _ pre cur' post _ Hb Hy) in Hc. injection Hc as ->.
  apply in_bounds_at. exists pre, cur, post. st_simpl. auto.
Qed.

(** X14. Commands and the cursor: with the cursor inside the document,
    every command of the base prototype that returns, and every command
    of the extended prototype that returns and is not a page up, a page
    down or a jump to a line, leaves the cursor inside the document. *)
Theorem do_cmd_keeps_cursor `{Unicode} `{OS} (s s' : State) (w w' : world)
    (r : Z) :
  in_bounds s = true ->
  (Ext.do_cmd s w = Ok (s', w', r) /\ moves_rows (cmdbuffer s) = false)
  \/ Base.do_cmd s w = Ok (s', w', r) ->
  in_bounds s' = true.
Proof.
  intros Hin [[E Hm]|E].
  - unfold moves_rows in Hm. apply orb_false_iff in Hm.
    destruct Hm as [Hm Hg]. apply orb_false_iff in Hm.
    destruct Hm as [Hpu Hpd].
    unfold Ext.do_cmd in E. rewrite Hpu, Hpd, Hg in E.
    ok_inv E;
      try (rewrite <- Hin; apply in_bounds_same; reflexivity);
      try (eapply ins_chr_ok_in_bounds; [|eassumption];
           rewrite <- Hin; apply in_bounds_same; reflexivity);
      try (apply in_bounds_origin;
           [apply split_lf_nonempty || discriminate
           | reflexivity | reflexivity]).
    + apply in_bounds_at in Hin.
      destruct Hin as (pre & cur & post & Hb & Hy & Hx).
      apply in_bounds_at. exists pre, cur, post. st_simpl.
      pose proof (len_nonneg cur). repeat split; auto; lia.
    + match goal with
      | Hg : Py.get (buffer s) (bufcur_y s) = Ok ?a |- _ =>
          pose proof (@in_bounds_column s (Py.len a) a Hin Hg) as Hc
      end.
      rewrite <- Hc by (split; [apply len_nonneg | lia]).
      apply in_bounds_same; reflexivity.
  - unfold Base.do_cmd in E.
    ok_inv E;
      try (rewrite <- Hin; apply in_bounds_same; reflexivity);
      try (eapply ins_chr_ok_in_bounds; [|eassumption];
           rewrite <- Hin; apply in_bounds_same; reflexivity);
      try (apply in_bounds_origin;
           [apply split_lf_nonempty || discriminate
           | reflexivity | reflexivity]).
Qed.

Lemma do_cmd_keeps_cursor_witness :
  exists s',
    @Ext.do_cmd ascii_only no_files (with_command (L "e")) tt
    = Ok (s', tt, 0)
    /\ bufcur_x s' = 4 /\ in_bounds s' = true.
Proof.
  eexists. split; [vm_compute; reflexivity|]. split; [reflexivity|].
  apply (@do_cmd_keeps_cursor ascii_only no_files
           (with_command (L "e")) _ tt tt 0);
    [reflexivity | left; split; vm_compute; reflexivity].
Defined.

(** ** Panning the window in the base prototype *)

Lemma slice_from_is_nil (A : Type) (l : list A) (i : Z) :
  0 <= i ->
  is_nil (Py.slice l (Some i) None) = negb (i <? Py.len l).
Proof.
  intros Hi. unfold Py.slice, Py.clamp.
  destruct (Z.ltb_spec i 0); [lia|].
  rewrite firstn_all2 by (rewrite length_skipn; unfold Py.len; lia).
  destruct (Z.ltb_spec i (Py.len l)) as [Hlt|Hge].
  - rewrite Z.min_l by lia.
    destruct (skipn (Z.to_nat i) l) eqn:E; [|reflexivity].
    apply (f_equal (@List.length A)) in E. rewrite length_skipn in E.
    unfold Py.len in Hlt. simpl in E. lia.
  - rewrite Z.min_r by lia. unfold Py.len. rewrite Nat2Z.id.
    rewrite skipn_all. reflexivity.
Qed.

(** The loop of the right arrow finds a line exactly when one of the lines
    it looks at reaches past the column after the left edge. *)
Lemma look_right_spec (s : State) (k : nat) :
  forall i : Z,
    0 <= i -> 0 <= bufofs_x s ->
    exists b, Base.look_right k s i = Ok b
      /\ (b = true <->
          exists j l, i <= j < i + Z.of_nat k
            /\ Py.get (buffer s) j = Ok l
            /\ bufofs_x s + 1 < Py.len l).
Proof.
  induction k as [|k IH]; intros i Hi Hx.
  - exists false. split; [reflexivity|]. split; [discriminate|].
    intros (j & l & Hj & _). lia.
  - cbn [Base.look_right].
    destruct (Z.ltb_spec i (Py.len (buffer s))) as [Hlt|Hge].
    + destruct (@get_in_range _ (buffer s) i) as (l & El & _); [lia|].
      rewrite El. cbn [bind].
      rewrite slice_from_is_nil by lia. rewrite negb_involutive.
      destruct (Z.ltb_spec (bufofs_x s + 1) (Py.len l)) as [Hl|Hl].
      * exists true. split; [reflexivity|]. split; [|reflexivity].
        intros _. exists i, l. repeat split; auto; lia.
      * destruct (IH (i + 1)) as (b & Eb & Hb); [lia|exact Hx|].
        exists b. split; [exact Eb|]. rewrite Hb. split.
        -- intros (j & l' & Hj & Ej & Hl'). exists j, l'.
           repeat split; auto; lia.
        -- intros (j & l' & Hj & Ej & Hl').
           destruct (Z.eq_dec j i) as [->|Hne].
           ++ rewrite El in Ej. injection Ej as <-. lia.
           ++ exists j, l'. repeat split; auto; lia.
    + exists false. split; [reflexivity|]. split; [discriminate|].
      intros (j & l & Hj & Ej & _). exfalso.
      unfold Py.get in Ej.
      destruct (Z.ltb_spec j 0); [lia|].
      destruct (Z.leb_spec 0 j); [|lia].
      destruct (Z.ltb_spec j (Py.len (buffer s))); [lia|].
      discriminate Ej.
Qed.

(** X15. [do_move_nav] of the base prototype, with the window's corner
    inside the document: it never raises and never touches the document
    or the cursor; the corner stays inside the document; up, down and left
    move it by one and stop at the edges; right moves it by one exactly
    when one of the lines the window shows reaches past the column after
    the left edge. *)
Theorem do_move_nav_pans (s : State) :
  0 <= bufofs_x s -> 0 <= bufofs_y s <= Py.len (buffer s) - 1 ->
  exists s', Base.do_move_nav s = Ok s'
    /\ buffer s' = buffer s
    /\ bufcur_x s' = bufcur_x s /\ bufcur_y s' = bufcur_y s
    /\ 0 <= bufofs_x s' /\ 0 <= bufofs_y s' <= Py.len (buffer s) - 1
    /\ (key s = KEY_UP ->
        bufofs_y s' = Z.max 0 (bufofs_y s - 1) /\ bufofs_x s' = bufofs_x s)
    /\ (key s = KEY_DOWN ->
        bufofs_y s' = Z.min (Py.len (buffer s) - 1) (bufofs_y s + 1)
        /\ bufofs_x s' = bufofs_x s)
    /\ (key s = KEY_LEFT ->
        bufofs_x s' = Z.max 0 (bufofs_x s - 1) /\ bufofs_y s' = bufofs_y s)
    /\ (key s = KEY_RIGHT ->
        bufofs_y s' = bufofs_y s
        /\ ((exists j l, bufofs_y s <= j < bufofs_y s + win_h s - 1
               /\ Py.get (buffer s) j = Ok l
               /\ bufofs_x s + 1 < Py.len l)
            -> bufofs_x s' = bufofs_x s + 1)
        /\ (~ (exists j l, bufofs_y s <= j < bufofs_y s + win_h s - 1
                 /\ Py.get (buffer s) j = Ok l
                 /\ bufofs_x s + 1 < Py.len l)
            -> bufofs_x s' = bufofs_x s)).
Proof.
  intros Hx Hy. unfold Base.do_move_nav, KEY_UP, KEY_DOWN, KEY_LEFT, KEY_RIGHT.
  rewrite !Z.gtb_ltb.
  destruct (Z.eqb_spec (key s) 259) as [Ek|Nu].
  { eexists. split; [reflexivity|]. st_simpl. rewrite Ek.
    destruct (Z.ltb_spec 0 (bufofs_y s));
      repeat split; auto; try lia; try discriminate. }
  destruct (Z.eqb_spec (key s) 260) as [Ek|Nl].
  { eexists. split; [reflexivity|]. st_simpl. rewrite Ek.
    destruct (Z.ltb_spec 0 (bufofs_x s));
      repeat split; auto; try lia; try discriminate. }
  destruct (Z.eqb_spec (key s) 258) as [Ek|Nd].
  { eexists. split; [reflexivity|]. st_simpl. rewrite Ek.
    destruct (Z.ltb_spec (bufofs_y s) (Py.len (buffer s) - 1));
      repeat split; auto; try lia; try discriminate. }
  destruct (Z.eqb_spec (key s) 261) as [Ek|Nr].
  { destruct (@look_right_spec s (Z.to_nat (win_h s - 1)) (bufofs_y s))
      as (b & -> & Hb); [lia|exact Hx|].
    assert (Hb' : b = true <->
                  exists j l, bufofs_y s <= j < bufofs_y s + win_h s - 1
                    /\ Py.get (buffer s) j = Ok l
                    /\ bufofs_x s + 1 < Py.len l).
    { rewrite Hb. split; intros (j & l & Hj & Ej & Hl); exists j, l;
        repeat split; auto; lia. }
    clear Hb. rename Hb' into Hb.
    eexists. split; [reflexivity|]. st_simpl. rewrite Ek.
    repeat split; auto; try lia; try discriminate.
    - destruct b; lia.
    - intros He. apply Hb in He. subst b. reflexivity.
    - intros Hn. destruct b; [|lia]. exfalso. apply Hn, Hb. reflexivity. }
  exists s. split; [reflexivity|].
  repeat split; auto; try lia; intros; contradiction.
Qed.

Lemma do_move_nav_pans_witness :
  exists s', Base.do_move_nav panning = Ok s'
    /\ buffer s' = buffer panning
    /\ bufcur_x s' = bufcur_x panning /\ bufcur_y s' = bufcur_y panning
    /\ 0 <= bufofs_x s' /\ 0 <= bufofs_y s' <= Py.len (buffer panning) - 1
    /\ (key panning = KEY_UP ->
        bufofs_y s' = Z.max 0 (bufofs_y panning - 1) /\ bufofs_x s' = bufofs_x panning)
    /\ (key panning = KEY_DOWN ->
        bufofs_y s' = Z.min (Py.len (buffer panning) - 1) (bufofs_y panning + 1)
        /\ bufofs_x s' = bufofs_x panning)
    /\ (key panning = KEY_LEFT ->
        bufofs_x s' = Z.max 0 (bufofs_x panning - 1) /\ bufofs_y s' = bufofs_y panning)
    /\ (key panning = KEY_RIGHT ->
        bufofs_y s' = bufofs_y panning
        /\ ((exists j l, bufofs_y panning <= j < bufofs_y panning + win_h panning - 1
               /\ Py.get (buffer panning) j = Ok l
               /\ bufofs_x panning + 1 < Py.len l)
            -> bufofs_x s' = bufofs_x panning + 1)
        /\ (~ (exists j l, bufofs_y panning <= j < bufofs_y panning + win_h panning - 1
                 /\ Py.get (buffer panning) j = Ok l
                 /\ bufofs_x panning + 1 < Py.len l)
            -> bufofs_x s' = bufofs_x panning)).
Proof.
  apply (@do_move_nav_pans panning);
    [vm_compute; discriminate | vm_compute; split; discriminate].
Defined.

(** ** Saving and opening *)










(** ** The rows of the window *)






Lemma len_rep (A : Type) (a : A) (n : Z) : Py.len (Py.rep a n) = Z.max 0 n.
Proof. unfold Py.len, Py.rep. rewrite repeat_length. lia. Qed.






(** ** The rows of the window in the base prototype *)

Lemma clamp_le (n i : Z) : 0 <= n -> Py.clamp n i <= n.
Proof. intros Hn. unfold Py.clamp. destruct (i <? 0) eqn:E; lia. Qed.

Lemma nth_error_slice (A : Type) (l : list A) (a b : Z) (j : nat) :
  0 <= a ->
  nth_error (Py.slice l (Some a) (Some b)) j
  = if a + Z.of_nat j <? Py.clamp (Py.len l) b
    then nth_error l (Z.to_nat a + j) else None.
Proof.
  intros Ha. pose proof (len_nonneg l) as Hn.
  pose proof (@clamp_le (Py.len l) b Hn) as Hb.
  unfold Py.slice. set (b' := Py.clamp (Py.len l) b) in *.
  unfold Py.clamp. destruct (Z.ltb_spec a 0); [lia|].
  rewrite nth_error_firstn, nth_error_skipn.
  destruct (Z.le_gt_cases a (Py.len l)) as [Hle|Hgt].
  - rewrite Z.min_l by lia.
    destruct (Z.ltb_spec (a + Z.of_nat j) b');
      destruct (Nat.ltb_spec j (Z.to_nat (b' - a))); try lia; reflexivity.
  - rewrite Z.min_r by lia.
    destruct (Nat.ltb_spec j (Z.to_nat (b' - Py.len l))); [lia|].
    destruct (Z.ltb_spec (a + Z.of_nat j) b'); [lia | reflexivity].
Qed.

Lemma Base_renbuffer_lines (s : State) (j : nat) :
  0 <= bufofs_y s -> 0 <= win_h s ->
  nth_error (BaseRender.renbuffer s) j
  = if bufofs_y s + Z.of_nat j <? base_shown_end s
    then option_map (fun l => Render.expand_tabs l (tabsz s))
                    (nth_error (buffer s) (Z.to_nat (bufofs_y s) + j))
    else None.
Proof.
  intros Hy Hh. unfold BaseRender.renbuffer.
  rewrite nth_error_map, nth_error_slice by exact Hy.
  assert (He : Py.clamp (Py.len (buffer s))
                 (bufofs_y s + win_h s
                  - (Py.len (buffer s) - (bufofs_y s + win_h s)))
               = base_shown_end s).
  { unfold Py.clamp, base_shown_end. pose proof (len_nonneg (buffer s)).
    destruct (Z.ltb_spec
                (bufofs_y s + win_h s
                 - (Py.len (buffer s) - (bufofs_y s + win_h s))) 0);
      destruct (Z.leb_spec (Py.len (buffer s))
                  (2 * (bufofs_y s + win_h s))); lia. }
  rewrite He.
  destruct (bufofs_y s + Z.of_nat j <? base_shown_end s); reflexivity.
Qed.

Lemma Base_render_rows_spec (s : State) (ren : list str) (k : nat) :
  0 <= bufofs_x s -> 0 <= win_w s ->
  forall i : nat,
    exists rs, BaseRender.render_rows k s ren (Z.of_nat i) = Ok rs
      /\ List.length rs = k
      /\ forall j r, nth_error rs j = Some r ->
           BaseRender.row_chars r
           = match nth_error ren (i + j) with
             | Some line =>
                 let text := Py.slice line (Some (bufofs_x s))
                                      (Some (bufofs_x s + win_w s)) in
                 text ++ Py.rep SPACE (win_w s - Py.len text)
             | None => Py.rep SPACE (win_w s - 1)
             end
           /\ match r with
              | BaseRender.Text text col _ => col = Py.len text
              | BaseRender.Blank _ => True
              end.
Proof.
  intros Hx Hw. induction k as [|k IH]; intros i.
  - exists []. split; [reflexivity|]. split; [reflexivity|].
    intros [|j] r Hr; discriminate Hr.
  - cbn [BaseRender.render_rows]. rewrite Z.geb_leb.
    replace (Z.of_nat i + 1) with (Z.of_nat (S i)) by lia.
    destruct (IH (S i)) as (rs & -> & Hl & Hrs). cbn [bind].
    destruct (Z.leb_spec (Py.len ren) (Z.of_nat i)) as [Hge|Hlt].
    + eexists. split; [reflexivity|].
      split; [simpl; rewrite Hl; reflexivity|].
      intros [|j] r Hr.
      * injection Hr as <-. cbn [BaseRender.row_chars].
        rewrite Nat.add_0_r.
        replace (nth_error ren i) with (@None str)
          by (symmetry; apply nth_error_None; unfold Py.len in Hge; lia).
        split; [reflexivity | exact I].
      * cbn [nth_error] in Hr.
        replace (i + S j)%nat with (S i + j)%nat by lia.
        exact (Hrs j r Hr).
    + destruct (@get_in_range _ ren (Z.of_nat i)) as (line & -> & Hn); [lia|].
      rewrite Nat2Z.id in Hn. cbn [bind].
      eexists. split; [reflexivity|].
      split; [simpl; rewrite Hl; reflexivity|].
      intros [|j] r Hr.
      * injection Hr as <-. cbn [BaseRender.row_chars].
        rewrite Nat.add_0_r, Hn. cbn zeta.
        split; [|reflexivity]. f_equal.
        rewrite Z.gtb_ltb.
        match goal with
        | |- context [0 <? ?d] => destruct (Z.ltb_spec 0 d) as [Hd|Hd]
        end; [reflexivity|].
        unfold Py.rep.
        match goal with
        | |- _ = repeat _ (Z.to_nat ?d) =>
            replace (Z.to_nat d) with 0%nat by lia
        end.
        reflexivity.
      * cbn [nth_error] in Hr.
        replace (i + S j)%nat with (S i + j)%nat by lia.
        exact (Hrs j r Hr).
Qed.

(** X18. What [render] of the base prototype writes on the rows above the
    status bar, for a window of some height whose corner is at a column
    and a row that are not negative: nothing raises, there is one row for
    each of the [win_h - 1] lines of the window, and the row [j] shows the
    line [bufofs_y + j] of the document with its tabs expanded, cut at the
    window's edges and filled with blanks to the width [win_w], as long as
    that line is before the end of the slice that [render] takes from the
    buffer, and [win_w - 1] blanks otherwise. The slice reaches the last
    line of a document that has at most [bufofs_y + win_h] lines, and
    stops before the line [bufofs_y + win_h] for a document that has more
    lines than that and fewer than twice as many. *)
Theorem Base_render_rows_show_window (s : State) :
  0 <= bufofs_x s -> 0 <= bufofs_y s -> 0 <= win_w s -> 0 <= win_h s ->
  (exists rs, BaseRender.rows s = Ok rs
     /\ Py.len rs = Z.max 0 (win_h s - 1)
     /\ forall j r, nth_error rs j = Some r ->
          BaseRender.row_chars r
          = match (if bufofs_y s + Z.of_nat j <? base_shown_end s
                   then nth_error (buffer s) (Z.to_nat (bufofs_y s) + j)
                   else None) with
            | Some line => window_text s line
            | None => Py.rep SPACE (win_w s - 1)
            end
          /\ match r with
             | BaseRender.Text text col _ => col = Py.len text
             | BaseRender.Blank _ => True
             end)
  /\ (Py.len (buffer s) <= bufofs_y s + win_h s ->
      base_shown_end s = Py.len (buffer s))
  /\ (bufofs_y s + win_h s < Py.len (buffer s)
      < 2 * (bufofs_y s + win_h s) ->
      base_shown_end s < bufofs_y s + win_h s).
Proof.
  intros Hx Hy Hw Hh. split; [|split].
  - unfold BaseRender.rows.
    destruct (@Base_render_rows_spec s (BaseRender.renbuffer s)
                (Z.to_nat (win_h s - 1)) Hx Hw 0%nat)
      as (rs & E & Hl & Hrs).
    exists rs. split; [exact E|]. split; [unfold Py.len; lia|].
    intros j r Hr. destruct (Hrs j r Hr) as (H1 & H2).
    split; [|exact H2]. rewrite H1. cbn [Nat.add].
    rewrite Base_renbuffer_lines by assumption.
    destruct (bufofs_y s + Z.of_nat j <? base_shown_end s);
      [|reflexivity].
    destruct (nth_error (buffer s) (Z.to_nat (bufofs_y s) + j));
      reflexivity.
  - intros Hfit. unfold base_shown_end. pose proof (len_nonneg (buffer s)).
    destruct (Z.leb_spec (Py.len (buffer s)) (2 * (bufofs_y s + win_h s)));
      lia.
  - intros Hlong. unfold base_shown_end.
    destruct (Z.leb_spec (Py.len (buffer s)) (2 * (bufofs_y s + win_h s)));
      lia.
Qed.

Lemma Base_render_rows_show_window_witness :
  (exists rs, BaseRender.rows three_lines = Ok rs
     /\ Py.len rs = Z.max 0 (win_h three_lines - 1)
     /\ forall j r, nth_error rs j = Some r ->
          BaseRender.row_chars r
          = match (if bufofs_y three_lines + Z.of_nat j
                      <? base_shown_end three_lines
                   then nth_error (buffer three_lines)
                                  (Z.to_nat (bufofs_y three_lines) + j)
                   else None) with
            | Some line => window_text three_lines line
            | None => Py.rep SPACE (win_w three_lines - 1)
            end
          /\ match r with
             | BaseRender.Text text col _ => col = Py.len text
             | BaseRender.Blank _ => True
             end)
  /\ (Py.len (buffer three_lines)
      <= bufofs_y three_lines + win_h three_lines ->
      base_shown_end three_lines = Py.len (buffer three_lines))
  /\ (bufofs_y three_lines + win_h three_lines
      < Py.len (buffer three_lines)
      < 2 * (bufofs_y three_lines + win_h three_lines) ->
      base_shown_end three_lines
      < bufofs_y three_lines + win_h three_lines).
Proof.
  apply (@Base_render_rows_show_window three_lines);
    vm_compute; discriminate.
Defined.

(** ** The renderer and the mapper *)

Lemma len_expand_tabs (l : str) (t : Z) :
  0 <= t -> Py.len (Render.expand_tabs l t) = visual_width l t.
Proof.
  intros Ht. induction l as [|c l IH]; [reflexivity|].
  unfold Render.expand_tabs in *. cbn [flat_map visual_width].
  rewrite len_app, IH.
  destruct (N.eqb c TAB); [rewrite len_rep; lia | reflexivity].
Qed.

Lemma expand_tabs_app (a b : str) (t : Z) :
  Render.expand_tabs (a ++ b) t
  = Render.expand_tabs a t ++ Render.expand_tabs b t.
Proof. unfold Render.expand_tabs. apply flat_map_app. Qed.

(** X19. The mapper and the renderer agree on tabs: inside a line, for a
    tab size that is not negative, [bufpos2vispos] gives the number of
    characters that the text before the offset takes in the line that
    [render] builds by expanding the tabs, and that expanded text is the
    beginning of the expanded line. The same holds for the mapper of the
    base prototype, which is the same function. *)
Theorem bufpos2vispos_is_expanded_prefix (line : str) (t x : Z) :
  0 <= t -> 0 <= x <= Py.len line ->
  bufpos2vispos line t x
  = Py.len (Render.expand_tabs (firstn (Z.to_nat x) line) t)
  /\ Render.expand_tabs line t
     = Render.expand_tabs (firstn (Z.to_nat x) line) t
       ++ Render.expand_tabs (skipn (Z.to_nat x) line) t.
Proof.
  intros Ht Hx. split.
  - rewrite bufpos2vispos_in_range by exact Hx.
    rewrite len_expand_tabs by exact Ht. reflexivity.
  - rewrite <- expand_tabs_app, firstn_skipn. reflexivity.
Qed.

Lemma bufpos2vispos_is_expanded_prefix_witness :
  bufpos2vispos (TAB :: L "two") 4 2
  = Py.len (Render.expand_tabs (firstn (Z.to_nat 2) (TAB :: L "two")) 4)
  /\ Render.expand_tabs (TAB :: L "two") 4
     = Render.expand_tabs (firstn (Z.to_nat 2) (TAB :: L "two")) 4
       ++ Render.expand_tabs (skipn (Z.to_nat 2) (TAB :: L "two")) 4.
Proof.
  apply (@bufpos2vispos_is_expanded_prefix (TAB :: L "two") 4 2);
    [lia | vm_compute; split; discriminate].
Defined.

(** ** The terminal cursor *)

Lemma nth_error_window (l : str) (x w v : Z) :
  0 <= x <= v -> v < x + w ->
  nth_error (Py.slice l (Some x) (Some (x + w))
             ++ Py.rep SPACE
                  (w - Py.len (Py.slice l (Some x) (Some (x + w)))))
            (Z.to_nat (v - x))
  = Some (match nth_error l (Z.to_nat v) with
          | Some c => c
          | None => SPACE
          end).
Proof.
  intros Hx Hv. unfold Py.slice, Py.clamp.
  destruct (Z.ltb_spec x 0); [lia|].
  destruct (Z.ltb_spec (x + w) 0); [lia|].
  pose proof (len_nonneg l) as Hn. unfold Py.len in *.
  destruct (Z.lt_ge_cases v (Z.of_nat (List.length l))) as [Hlt|Hge].
  - rewrite nth_error_app1
      by (rewrite length_firstn, length_skipn; lia).
    rewrite nth_error_firstn.
    destruct (Nat.ltb_spec (Z.to_nat (v - x))
                (Z.to_nat (Z.min (x + w) (Z.of_nat (List.length l))
                           - Z.min x (Z.of_nat (List.length l)))));
      [|lia].
    rewrite nth_error_skipn.
    replace (Z.to_nat (Z.min x (Z.of_nat (List.length l)))
             + Z.to_nat (v - x))%nat with (Z.to_nat v) by lia.
    destruct (nth_error l (Z.to_nat v)) eqn:E; [reflexivity|].
    apply nth_error_None in E. lia.
  - rewrite nth_error_app2
      by (rewrite length_firstn, length_skipn; lia).
    replace (nth_error l (Z.to_nat v)) with (@None char)
      by (symmetry; apply nth_error_None; lia).
    unfold Py.rep. rewrite nth_error_repeat; [reflexivity|].
    rewrite length_firstn, length_skipn. lia.
Qed.

Lemma nth_error_expand_tabs (line : str) (t : Z) (n : nat) :
  1 <= t ->
  nth_error (Render.expand_tabs line t)
            (Z.to_nat (visual_width (firstn n line) t))
  = match nth_error line n with
    | Some c => Some (if N.eqb c TAB then SPACE else c)
    | None => None
    end.
Proof.
  intros Ht. destruct (nth_error line n) as [c|] eqn:E.
  - rewrite (split_at_nth _ _ E) at 1.
    rewrite expand_tabs_app.
    rewrite nth_error_app2
      by (pose proof (@len_expand_tabs (firstn n line) t ltac:(lia));
          unfold Py.len in *; lia).
    replace (Z.to_nat (visual_width (firstn n line) t)
             - List.length (Render.expand_tabs (firstn n line) t))%nat
      with 0%nat
      by (pose proof (@len_expand_tabs (firstn n line) t ltac:(lia));
          unfold Py.len in *; lia).
    unfold Render.expand_tabs at 1. cbn [flat_map].
    destruct (N.eqb c TAB); [|reflexivity].
    unfold Py.rep. destruct (Z.to_nat t) eqn:Et; [lia|]. reflexivity.
  - apply nth_error_None.
    apply nth_error_None in E. rewrite firstn_all2 by lia.
    pose proof (@len_expand_tabs line t ltac:(lia)).
    unfold Py.len in *. lia.
Qed.



(** X21. Where [render] of the base prototype puts the terminal cursor,
    outside command mode, with the window at the top of the document, the
    cursor inside the document, on a row and a column of the window and on
    a line that is before the end of the slice that [render] takes from
    the buffer, and a tab size of at least 1: on the row of the cursor's
    line, at the column of the character under the cursor in the row that
    is written there: that character itself, a blank for a tab, and a blank
    after the end of the line. *)
Theorem Base_render_cursor_on_character (s : State) (cur : str) :
  in_bounds s = true -> cmdmode s = false -> 1 <= tabsz s ->
  bufofs_y s = 0 -> bufcur_y s < win_h s - 1 ->
  bufcur_y s < base_shown_end s ->
  Py.get (buffer s) (bufcur_y s) = Ok cur ->
  0 <= bufofs_x s <= bufpos2vispos cur (tabsz s) (bufcur_x s) ->
  bufpos2vispos cur (tabsz s) (bufcur_x s) < bufofs_x s + win_w s ->
  exists rs r,
    BaseRender.cursor s
    = Ok (bufcur_y s,
          bufpos2vispos cur (tabsz s) (bufcur_x s) - bufofs_x s)
    /\ BaseRender.rows s = Ok rs
    /\ nth_error rs (Z.to_nat (bufcur_y s)) = Some r
    /\ nth_error (BaseRender.row_chars r)
                 (Z.to_nat (bufpos2vispos cur (tabsz s) (bufcur_x s)
                            - bufofs_x s))
       = Some (match nth_error cur (Z.to_nat (bufcur_x s)) with
               | Some c => if N.eqb c TAB then SPACE else c
               | None => SPACE
               end).
Proof.
  intros Hin Hc Ht Hoy Hrow Hshown Hcur Hlo Hhi.
  apply in_bounds_at in Hin.
  destruct Hin as (pre & cur' & post & Hbuf & Hy & Hx).
  rewrite (@get_eq _ _ pre cur' post _ Hbuf Hy) in Hcur.
  injection Hcur as ->.
  pose proof (len_nonneg pre) as Hpre.
  assert (Hwx : 0 <= bufofs_x s) by lia.
  assert (Hww : 0 <= win_w s) by lia.
  destruct (@Base_render_rows_spec s (BaseRender.renbuffer s)
              (Z.to_nat (win_h s - 1)) Hwx Hww 0%nat)
    as (rs & Er & Hl & Hrs).
  destruct (nth_error rs (Z.to_nat (bufcur_y s))) as [r|] eqn:En;
    [|apply nth_error_None in En; lia].
  exists rs, r. split; [|split; [exact Er|split; [exact En|]]].
  - unfold BaseRender.cursor. rewrite Hc, Hoy, Z.sub_0_r.
    rewrite (@get_eq _ _ pre cur post _ Hbuf Hy). cbn [bind].
    destruct (Z.ltb_spec (bufcur_y s) 0); [lia|].
    destruct (Z.ltb_spec
                (bufpos2vispos cur (tabsz s) (bufcur_x s) - bufofs_x s) 0);
      [lia|].
    reflexivity.
  - destruct (Hrs _ _ En) as (-> & _). cbn [Nat.add].
    rewrite Base_renbuffer_lines by lia.
    rewrite Hoy. cbn [Z.to_nat Nat.add Z.add].
    rewrite Z2Nat.id by lia.
    destruct (Z.ltb_spec (bufcur_y s) (base_shown_end s)); [|lia].
    assert (Hn : nth_error (buffer s) (Z.to_nat (bufcur_y s)) = Some cur).
    { rewrite Hbuf, Hy. unfold Py.len. rewrite Nat2Z.id.
      rewrite nth_error_app2 by lia. rewrite Nat.sub_diag. reflexivity. }
    rewrite Hn. cbn [option_map]. cbv zeta.
    rewrite nth_error_window by lia. f_equal.
    rewrite bufpos2vispos_in_range by exact Hx.
    unfold literalToVisual_spec.
    rewrite nth_error_expand_tabs by exact Ht.
    destruct (nth_error cur (Z.to_nat (bufcur_x s))); reflexivity.
Qed.

Lemma Base_render_cursor_on_character_witness :
  exists rs r,
    BaseRender.cursor three_lines
    = Ok (bufcur_y three_lines,
          bufpos2vispos (TAB :: L "two") (tabsz three_lines)
                        (bufcur_x three_lines) - bufofs_x three_lines)
    /\ BaseRender.rows three_lines = Ok rs
    /\ nth_error rs (Z.to_nat (bufcur_y three_lines)) = Some r
    /\ nth_error (BaseRender.row_chars r)
                 (Z.to_nat (bufpos2vispos (TAB :: L "two")
                              (tabsz three_lines) (bufcur_x three_lines)
                            - bufofs_x three_lines))
       = Some (match nth_error (TAB :: L "two")
                               (Z.to_nat (bufcur_x three_lines)) with
               | Some c => if N.eqb c TAB then SPACE else c
               | None => SPACE
               end).
Proof.
  apply (@Base_render_cursor_on_character three_lines (TAB :: L "two"));
    [reflexivity | reflexivity | vm_compute; discriminate | reflexivity
    | reflexivity | reflexivity | reflexivity
    | vm_compute; split; discriminate | reflexivity].
Defined.

(** ** The status bar *)

(** X22. In command mode, [render] of either prototype puts the terminal
    cursor on the row of the status bar, right after the command that
    [ren_statbar] writes there: the status bar begins with the label of 10
    characters and the command buffer, and the cursor's column is the
    length of that text. *)
Theorem command_cursor_after_command (s : State) :
  cmdmode s = true ->
  exists col,
    col = Py.len (L " command: " ++ cmdbuffer s)
    /\ Render.cursor s = Ok (win_h s - 1, col)
    /\ firstn (Z.to_nat col) (Render.ren_statbar s)
       = L " command: " ++ cmdbuffer s
    /\ BaseRender.cursor s = Ok (win_h s - 1, col)
    /\ firstn (Z.to_nat col) (BaseRender.ren_statbar s)
       = L " command: " ++ cmdbuffer s.
Proof.
  intros Hc.
  unfold Render.cursor, Render.ren_statbar, BaseRender.cursor,
    BaseRender.ren_statbar.
  rewrite Hc. eexists. split; [reflexivity|].
  assert (Hn : Z.to_nat (Py.len (L " command: " ++ cmdbuffer s))
               = (List.length (L " command: " ++ cmdbuffer s) + 0)%nat)
    by (unfold Py.len; lia).
  rewrite Hn, !firstn_app_2. cbn [firstn]. rewrite !app_nil_r.
  rewrite len_app. repeat split; reflexivity.
Qed.

Lemma command_cursor_after_command_witness :
  exists col,
    col = Py.len (L " command: " ++ cmdbuffer (with_command (L "q")))
    /\ Render.cursor (with_command (L "q"))
       = Ok (win_h (with_command (L "q")) - 1, col)
    /\ firstn (Z.to_nat col) (Render.ren_statbar (with_command (L "q")))
       = L " command: " ++ cmdbuffer (with_command (L "q"))
    /\ BaseRender.cursor (with_command (L "q"))
       = Ok (win_h (with_command (L "q")) - 1, col)
    /\ firstn (Z.to_nat col) (BaseRender.ren_statbar (with_command (L "q")))
       = L " command: " ++ cmdbuffer (with_command (L "q")).
Proof.
  apply (@command_cursor_after_command (with_command (L "q"))).
  reflexivity.
Defined.

(** ** Exclusive groups *)


